(** * computer_setup: a shallow embedding of the provisioning workflow

    The development follows the Python package file by file:
    [config.py], [sheets.py], [state.py], [security.py], [windows.py]
    and [cli.py].  Python values are dynamically typed, so record fields
    read from JSON keep the type [pyval]; strings are lists of Unicode
    code points; exceptions are values of [exn] carried by [result]. *)

From Stdlib Require Import ZArith NArith List String Ascii Bool Lia.
From Stdlib Require Import DecimalPos DecimalN.
From Stdlib Require Import Strings.Byte Floats.SpecFloat.
From stdpp Require Import gmap list.
Import ListNotations.

Set Default Proof Using "Type".
Local Open Scope N_scope.

(** ** Strings, bytes and exceptions *)

(** A Python [str] is a sequence of code points. *)
Abbreviation pystr := (list N).

(** [py "text"] is the [str] literal with the given ASCII text. *)
Definition py (s : string) : pystr := map N_of_ascii (list_ascii_of_string s).

(** The built-in exceptions (and the few library ones) the program can
    raise.  [JSONDecodeError], [UnicodeEncodeError], [UnicodeDecodeError]
    and [Base64Error] are subclasses of Python's [ValueError]; they are
    kept apart here because no handler of the program can meet them. *)
Inductive exn :=
| TypeError
| ValueError
| OverflowError
| IndexError
| AttributeError
| KeyError (key : pystr)
| EOFError
| UnicodeEncodeError
| UnicodeDecodeError
| Base64Error
| JSONDecodeError
| OSError (code : Z)
| FileNotFoundError
| FileExistsError
| PermissionError
| CommandError (message : pystr)
| CalledProcessError (returncode : Z)
| WorksheetNotFound
| GSpreadError.

Inductive result (A : Type) :=
| Ok (a : A)
| Raise (e : exn).
Arguments Ok {A} a.
Arguments Raise {A} e.

Definition rbind {A B} (r : result A) (k : A -> result B) : result B :=
  match r with
  | Ok a => k a
  | Raise e => Raise e
  end.

Declare Scope result_scope.
Delimit Scope result_scope with result.
Notation "'try!' x := r 'in' k" := (rbind r (fun x => k))
  (at level 10, x pattern, r at level 100, k at level 200) : result_scope.

(** Dynamically typed values: what [json.load] returns and what dataclass
    fields hold.  A [dict] keeps its items in insertion order. *)
#[warnings="-register-all"]
Inductive pyval :=
| PNone
| PBool (b : bool)
| PInt (z : Z)
| PFloat (f : spec_float)
| PStr (s : pystr)
| PList (items : list pyval)
| PDict (items : list (pystr * pyval)).

(** ** The interpreter's tables

    The Unicode database and the few library routines that are data
    rather than code are taken as an interface.  The ASCII range is
    written out below; the fields are consulted for code points from
    128 on only. *)
Class Runtime := {
  (** full lower-case mapping of a code point [>= 128] *)
  db_tolower : N -> list N;
  (** whether the capital sigma at index [i] of [s] is in final position *)
  db_final_sigma : pystr -> nat -> bool;
  (** [str.isalnum] on a code point [>= 128] *)
  db_isalnum : N -> bool;
  (** [str.isdigit] on a code point [>= 128] *)
  db_isdigit : N -> bool;
  (** decimal value of a code point [>= 128] of category Nd *)
  db_todecimal : N -> option N;
  (** [repr] of a float *)
  float_repr : spec_float -> pystr;
  (** [str.format] on a replacement field that is none of the forms
      written out in [format_field]; arguments: the field text, [seq],
      [user] *)
  rt_format_field : pystr -> Z -> pystr -> result pystr
}.

(** A runtime that knows ASCII only, to evaluate the definitions: no
    other character has a case, is a letter or a digit, and of the floats
    only the special values are printed as Python prints them. *)
Definition ascii_runtime : Runtime := {|
  db_tolower c := [c];
  db_final_sigma _ _ := false;
  db_isalnum _ := false;
  db_isdigit _ := false;
  db_todecimal _ := None;
  float_repr f :=
    match f with
    | S754_zero false => py "0.0"
    | S754_zero true => py "-0.0"
    | S754_infinity false => py "inf"
    | S754_infinity true => py "-inf"
    | S754_nan => py "nan"
    | S754_finite _ _ _ => py "<float>"
    end;
  rt_format_field _ _ _ := Raise ValueError
|}.

Section Strings.
Context `{Runtime}.

Definition str_eqb (a b : pystr) : bool := bool_decide (a = b).

Definition is_ascii (c : N) : bool := c <? 128.

Definition ascii_isupper (c : N) : bool := (65 <=? c) && (c <=? 90).
Definition ascii_islower (c : N) : bool := (97 <=? c) && (c <=? 122).
Definition ascii_isdigit (c : N) : bool := (48 <=? c) && (c <=? 57).

Definition ascii_lower (c : N) : N := if ascii_isupper c then c + 32 else c.

(** [lower_ucs4] of CPython: one code point of [str.lower()]. *)
Definition lower_ucs4 (s : pystr) (i : nat) (c : N) : list N :=
  if is_ascii c then [ascii_lower c]
  else if c =? 931 then [if db_final_sigma s i then 962 else 963]
  else db_tolower c.

(** [str.lower()] *)
Definition lower (s : pystr) : pystr := concat (imap (lower_ucs4 s) s).

(** [str.isalnum()] on one character *)
Definition isalnum (c : N) : bool :=
  if is_ascii c then ascii_isupper c || ascii_islower c || ascii_isdigit c
  else db_isalnum c.

(** [str.isdigit()] on one character *)
Definition isdigit (c : N) : bool :=
  if is_ascii c then ascii_isdigit c else db_isdigit c.

(** [str.isspace()] on one character: the code points with
    bidirectional class WS, B or S, or category Zs. *)
Definition isspace (c : N) : bool :=
  (9 <=? c) && (c <=? 13) || (28 <=? c) && (c <=? 32)
  || (c =? 133) || (c =? 160) || (c =? 5760)
  || (8192 <=? c) && (c <=? 8202)
  || (c =? 8232) || (c =? 8233) || (c =? 8239) || (c =? 8287) || (c =? 12288).

Fixpoint lstrip_by (p : N -> bool) (s : pystr) : pystr :=
  match s with
  | [] => []
  | c :: rest => if p c then lstrip_by p rest else s
  end.

Definition rstrip_by (p : N -> bool) (s : pystr) : pystr :=
  rev (lstrip_by p (rev s)).

Definition strip_by (p : N -> bool) (s : pystr) : pystr :=
  rstrip_by p (lstrip_by p s).

(** [s.strip()] *)
Definition strip (s : pystr) : pystr := strip_by isspace s.

(** [s.strip(chars)] *)
Definition strip_chars (chars : pystr) (s : pystr) : pystr :=
  strip_by (fun c => bool_decide (c ∈ chars)) s.

(** [s.split(sep)] for a separator of one character. *)
Fixpoint split (sep : N) (s : pystr) : list pystr :=
  match s with
  | [] => [[]]
  | c :: rest =>
      if c =? sep then [] :: split sep rest
      else match split sep rest with
           | [] => [[c]]
           | piece :: pieces => (c :: piece) :: pieces
           end
  end.

(** [sep.join(parts)] *)
Fixpoint join (sep : pystr) (parts : list pystr) : pystr :=
  match parts with
  | [] => []
  | [p] => p
  | p :: rest => p ++ sep ++ join sep rest
  end.

(** [s.replace(old, new)] for [old] of one character. *)
Definition replace (old : N) (new : pystr) (s : pystr) : pystr :=
  concat (map (fun c => if c =? old then new else [c]) s).

(** Decimal digits, most significant first, as the standard library's
    [Decimal.uint]. *)
Definition uint_cons (d : N) (u : Decimal.uint) : Decimal.uint :=
  match d with
  | 0 => Decimal.D0 u | 1 => Decimal.D1 u | 2 => Decimal.D2 u
  | 3 => Decimal.D3 u | 4 => Decimal.D4 u | 5 => Decimal.D5 u
  | 6 => Decimal.D6 u | 7 => Decimal.D7 u | 8 => Decimal.D8 u
  | _ => Decimal.D9 u
  end.

Fixpoint chars_of_uint (u : Decimal.uint) : pystr :=
  match u with
  | Decimal.Nil => []
  | Decimal.D0 u => 48 :: chars_of_uint u
  | Decimal.D1 u => 49 :: chars_of_uint u
  | Decimal.D2 u => 50 :: chars_of_uint u
  | Decimal.D3 u => 51 :: chars_of_uint u
  | Decimal.D4 u => 52 :: chars_of_uint u
  | Decimal.D5 u => 53 :: chars_of_uint u
  | Decimal.D6 u => 54 :: chars_of_uint u
  | Decimal.D7 u => 55 :: chars_of_uint u
  | Decimal.D8 u => 56 :: chars_of_uint u
  | Decimal.D9 u => 57 :: chars_of_uint u
  end.

Definition str_of_N (n : N) : pystr := chars_of_uint (N.to_uint n).

(** [str(z)] for an [int]. *)
Definition str_of_int (z : Z) : pystr :=
  if (z <? 0)%Z then 45 :: str_of_N (Z.abs_N z) else str_of_N (Z.abs_N z).

(** The digits of a base-10 [int] literal: at least one digit, single
    underscores allowed between digits. *)
Fixpoint parse_digits (s : pystr) : option Decimal.uint :=
  match s with
  | [] => None
  | c :: rest =>
      if ascii_isdigit c then
        match rest with
        | [] => Some (uint_cons (c - 48) Decimal.Nil)
        | c' :: rest' =>
            uint_cons (c - 48) <$>
              (if c' =? 95 then parse_digits rest' else parse_digits rest)
        end
      else None
  end.

(** White space of the C parser ([Py_ISSPACE]). *)
Definition c_isspace (c : N) : bool := (9 <=? c) && (c <=? 13) || (c =? 32).

(** [_PyUnicode_TransformDecimalAndSpaceToASCII]: Unicode spaces become a
    blank, Unicode decimal digits their ASCII digit, anything else that
    is not ASCII a question mark. *)
Definition to_ascii_decimal (c : N) : N :=
  if is_ascii c then c
  else if isspace c then 32
  else match db_todecimal c with
       | Some d => 48 + d
       | None => 63
       end.

(** [int(s)] for a [str]: raises [ValueError] on anything but an optional
    sign and digits between optional white space.  (The interpreter's
    configurable limit on the number of digits is not modelled.) *)
Definition int_of_str (s : pystr) : result Z :=
  let body := strip_by c_isspace (map to_ascii_decimal s) in
  let '(negative, digits) :=
    match body with
    | c :: rest =>
        if c =? 45 then (true, rest)
        else if c =? 43 then (false, rest)
        else (false, body)
    | [] => (false, body)
    end in
  match parse_digits digits with
  | Some u =>
      let n := Z.of_N (N.of_uint u) in
      Ok (if negative then (- n)%Z else n)
  | None => Raise ValueError
  end.

(** [format(z, spec)] for the presentation types handled here: an
    optional zero flag, an optional width and an optional [d]. *)
Definition format_int (zero : bool) (width : N) (z : Z) : pystr :=
  let sign := if (z <? 0)%Z then [45] else [] in
  let digits := str_of_N (Z.abs_N z) in
  let pad := (N.to_nat width - (length sign + length digits))%nat in
  if zero then sign ++ repeat 48 pad ++ digits
  else repeat 32 pad ++ sign ++ digits.

(** Reads such a format spec; [None] for any other spec. *)
Definition parse_int_spec (spec : pystr) : option (bool * N) :=
  let '(zero, rest) :=
    match spec with
    | 48 :: rest => (true, rest)
    | _ => (false, spec)
    end in
  let rest := match rev rest with
              | 100 :: r => rev r
              | _ => rest
              end in
  match rest with
  | [] => Some (zero, 0)
  | _ => if forallb ascii_isdigit rest
         then (fun u => (zero, N.of_uint u)) <$> parse_digits rest
         else None
  end.

(** One replacement field of [template.format(seq=seq, user=user)]. *)
Definition format_field (field : pystr) (seq : Z) (user : pystr) : result pystr :=
  match split 58 field with
  | [name] =>
      if str_eqb name (py "seq") then Ok (str_of_int seq)
      else if str_eqb name (py "user") then Ok user
      else if str_eqb name [] then Raise IndexError
      else rt_format_field field seq user
  | [name; spec] =>
      if str_eqb name (py "seq") then
        match spec with
        | [] => Ok (str_of_int seq)
        | _ => match parse_int_spec spec with
               | Some (zero, width) => Ok (format_int zero width seq)
               | None => rt_format_field field seq user
               end
        end
      else if str_eqb name (py "user") && (str_eqb spec [] || str_eqb spec (py "s"))
      then Ok user
      else rt_format_field field seq user
  | _ => rt_format_field field seq user
  end.

(** The scanner of [str.format]: literal text with doubled braces, and
    replacement fields up to their matching brace. *)
Inductive format_state :=
| Literal
| Field (depth : nat) (text_rev : pystr).

Fixpoint format_from (seq : Z) (user : pystr) (st : format_state) (s : pystr)
  : result pystr :=
  match s, st with
  | [], Literal => Ok []
  | [], Field _ _ => Raise ValueError
  | c :: rest, Literal =>
      if c =? 123 then
        match rest with
        | 123 :: rest' =>
            (try! tail := format_from seq user Literal rest' in Ok (123 :: tail))%result
        | _ => format_from seq user (Field 0 []) rest
        end
      else if c =? 125 then
        match rest with
        | 125 :: rest' =>
            (try! tail := format_from seq user Literal rest' in Ok (125 :: tail))%result
        | _ => Raise ValueError
        end
      else (try! tail := format_from seq user Literal rest in Ok (c :: tail))%result
  | c :: rest, Field depth acc =>
      if c =? 123 then format_from seq user (Field (S depth) (c :: acc)) rest
      else if c =? 125 then
        match depth with
        | O =>
            (try! piece := format_field (rev acc) seq user in
             try! tail := format_from seq user Literal rest in
             Ok (piece ++ tail))%result
        | S d => format_from seq user (Field d (c :: acc)) rest
        end
      else format_from seq user (Field depth (c :: acc)) rest
  end.

(** [template.format(seq=seq, user=user)] *)
Definition str_format (template : pystr) (seq : Z) (user : pystr) : result pystr :=
  format_from seq user Literal template.

End Strings.

(** ** Dynamically typed operations *)

(** Truth value of an object ([bool(v)]). *)
Definition truthy (v : pyval) : bool :=
  match v with
  | PNone => false
  | PBool b => b
  | PInt z => negb (z =? 0)%Z
  | PFloat (S754_zero _) => false
  | PFloat _ => true
  | PStr s => negb (bool_decide (s = []))
  | PList l => negb (bool_decide (length l = 0%nat))
  | PDict d => negb (bool_decide (length d = 0%nat))
  end.

(** Item lookup in a [dict] (keys are unique in a well-formed one). *)
Fixpoint dict_lookup (d : list (pystr * pyval)) (key : pystr) : option pyval :=
  match d with
  | [] => None
  | (k, v) :: rest => if str_eqb k key then Some v else dict_lookup rest key
  end.

(** [v[key]] for a string key *)
Definition getitem (v : pyval) (key : pystr) : result pyval :=
  match v with
  | PDict d =>
      match dict_lookup d key with
      | Some x => Ok x
      | None => Raise (KeyError key)
      end
  | _ => Raise TypeError
  end.

(** [v.get(key, default)]; only a [dict] has the method. *)
Definition get (v : pyval) (key : pystr) (default : pyval) : result pyval :=
  match v with
  | PDict d =>
      match dict_lookup d key with
      | Some x => Ok x
      | None => Ok default
      end
  | _ => Raise AttributeError
  end.

(** [v.items()] *)
Definition items (v : pyval) : result (list (pystr * pyval)) :=
  match v with
  | PDict d => Ok d
  | _ => Raise AttributeError
  end.

(** A method of [str] called on an object: [AttributeError] unless the
    object is a string. *)
Definition as_str (v : pyval) : result pystr :=
  match v with
  | PStr s => Ok s
  | _ => Raise AttributeError
  end.

(** ** The file system

    A path is the list of its components below the root of the system
    drive; the root itself is always a directory.  File contents are kept
    up to JSON parsing: a regular file holds either a document, which
    [json.load] returns and [json.dump] writes, or bytes that [json.load]
    cannot decode or parse. *)
Abbreviation path := (list (list N)).

Inductive content :=
| JsonText (doc : pyval)
| NotJson.

Inductive node :=
| File (c : content)
| Dir.

Abbreviation filesystem := (gmap path node).

Definition node_at (fs : filesystem) (p : path) : option node :=
  match p with
  | [] => Some Dir
  | _ => fs !! p
  end.

(** [path.exists()] *)
Definition exists_ (fs : filesystem) (p : path) : bool :=
  bool_decide (is_Some (node_at fs p)).

Definition parent (p : path) : path := removelast p.

(** [path.open("r")] followed by reading the whole file. *)
Definition open_read (fs : filesystem) (p : path) : result content :=
  match node_at fs p with
  | None => Raise FileNotFoundError
  | Some Dir => Raise PermissionError
  | Some (File c) => Ok c
  end.

(** [path.open("w")] followed by writing [c]: the directory of the file
    must exist. *)
Definition open_write (fs : filesystem) (p : path) (c : content)
  : filesystem * result unit :=
  match node_at fs (parent p) with
  | Some Dir =>
      match node_at fs p with
      | Some Dir => (fs, Raise PermissionError)
      | _ => (<[p := File c]> fs, Ok tt)
      end
  | _ => (fs, Raise FileNotFoundError)
  end.

(** [path.unlink()] *)
Definition unlink (fs : filesystem) (p : path) : filesystem * result unit :=
  match node_at fs p with
  | None => (fs, Raise FileNotFoundError)
  | Some Dir => (fs, Raise PermissionError)
  | Some (File _) => (delete p fs, Ok tt)
  end.

(** [path.mkdir(parents=True, exist_ok=True)], on the reversed list of
    components: an existing directory is accepted, an existing file is
    not; missing ancestors are created first. *)
Fixpoint mkdir_rev (rp : list pystr) (fs : filesystem) : filesystem * result unit :=
  match rp with
  | [] => (fs, Ok tt)
  | _ :: rparent =>
      match node_at fs (rev rp) with
      | Some Dir => (fs, Ok tt)
      | Some (File _) => (fs, Raise FileExistsError)
      | None =>
          match node_at fs (rev rparent) with
          | Some Dir => (<[rev rp := Dir]> fs, Ok tt)
          | _ =>
              match mkdir_rev rparent fs with
              | (fs', Ok _) => (<[rev rp := Dir]> fs', Ok tt)
              | (fs', Raise e) => (fs', Raise e)
              end
          end
      end
  end.

Definition mkdir (p : path) (fs : filesystem) : filesystem * result unit :=
  mkdir_rev (rev p) fs.

(** [json.load(fp)] *)
Definition json_load (c : content) : result pyval :=
  match c with
  | JsonText doc => Ok doc
  | NotJson => Raise JSONDecodeError
  end.

(** ** config.py *)

Module Config.

Record DomainConfig := {
  name : pystr;
  sheet_id : pyval;
  worksheet : pyval;
  hostname_template : pyval;
  ou_path : pyval
}.

Section WithRuntime.
Context `{Runtime}.

(** [DomainConfig.build_hostname] *)
Definition build_hostname (self : DomainConfig) (seq : Z) (username : pystr)
  : result pystr :=
  (try! template := as_str (hostname_template self) in
   str_format template seq username)%result.

Record AppConfig := {
  google_credentials : option pystr;
  domains : gmap pystr DomainConfig
}.

(** [AppConfig.get_domain] *)
Definition get_domain (self : AppConfig) (name : pyval) : result DomainConfig :=
  (try! name := as_str name in
   let key := lower name in
   match domains self !! key with
   | None =>
       Raise (KeyError (py "Domain '" ++ name ++ py "' not present in configuration"))
   | Some d => Ok d
   end)%result.

(** The body of the loop of [load_config] over the items of ["domains"]. *)
Definition load_domain (acc : gmap pystr DomainConfig) (item : pystr * pyval)
  : result (gmap pystr DomainConfig) :=
  let '(key, value) := item in
  (try! sheet_id := getitem value (py "sheet_id") in
   try! worksheet := get value (py "worksheet") (PStr (py "Devices")) in
   try! template := get value (py "hostname_template") (PStr (py "{seq:03d}-{user}")) in
   try! ou := get value (py "ou_path") PNone in
   Ok (<[lower key := {| name := key; sheet_id := sheet_id;
                         worksheet := worksheet; hostname_template := template;
                         ou_path := ou |}]> acc))%result.

Fixpoint load_domains (acc : gmap pystr DomainConfig) (l : list (pystr * pyval))
  : result (gmap pystr DomainConfig) :=
  match l with
  | [] => Ok acc
  | item :: rest =>
      (try! acc' := load_domain acc item in load_domains acc' rest)%result
  end.

(** [load_config] *)
Definition load_config (fs : filesystem) (p : path) : result AppConfig :=
  (try! c := open_read fs p in
   try! data := json_load c in
   try! credentials_path := get data (py "google_credentials") PNone in
   try! credentials_path :=
     (if truthy credentials_path then
        match credentials_path with
        | PStr s => Ok (Some s)
        | _ => Raise TypeError
        end
      else Ok None) in
   try! entries := get data (py "domains") (PDict []) in
   try! entries := items entries in
   try! domains := load_domains ∅ entries in
   if bool_decide (domains = ∅) then Raise ValueError
   else Ok {| google_credentials := credentials_path; domains := domains |})%result.

(** The compiled pattern [[^a-z0-9]+]. *)
Definition slug_char (c : N) : bool := ascii_islower c || ascii_isdigit c.

(** [_USER_SLUG_RE.sub(repl, s)]: every maximal run of characters outside
    [a-z0-9] is replaced by [repl]; [in_match] tells that the scan is
    inside such a run. *)
Fixpoint _USER_SLUG_RE_sub (repl : pystr) (in_match : bool) (s : pystr) : pystr :=
  match s with
  | [] => []
  | c :: rest =>
      if slug_char c then c :: _USER_SLUG_RE_sub repl false rest
      else if in_match then _USER_SLUG_RE_sub repl true rest
      else repl ++ _USER_SLUG_RE_sub repl true rest
  end.

(** [slugify_user] *)
Definition slugify_user (value : pystr) : pystr :=
  let slug := _USER_SLUG_RE_sub (py "-") false (lower (strip value)) in
  let slug := strip_chars (py "-") slug in
  if truthy (PStr slug) then slug else py "user".

End WithRuntime.

End Config.

(** ** state.py *)

Module State.

Definition STATE_DIR : path := [py "ProgramData"; py "ComputerSetup"].
Definition STATE_FILE : path := STATE_DIR ++ [py "state.json"].

Record Secrets := {
  local_admin_password : pyval;
  domain_username : pyval;
  domain_password : pyval
}.

Record SetupState := {
  version : pyval;
  domain : pyval;
  assigned_user : pyval;
  computer_name : pyval;
  initial_user : pyval;
  local_admin_user : pyval;
  sheet_id : pyval;
  worksheet : pyval;
  sheet_range : pyval;
  secrets : Secrets
}.

(** [SetupState.create] *)
Definition create (domain assigned_user computer_name initial_user
    local_admin_user sheet_id worksheet sheet_range : pyval) (secrets : Secrets)
  : SetupState :=
  {| version := PInt 1; domain := domain; assigned_user := assigned_user;
     computer_name := computer_name; initial_user := initial_user;
     local_admin_user := local_admin_user; sheet_id := sheet_id;
     worksheet := worksheet; sheet_range := sheet_range; secrets := secrets |}.

(** [SetupState.to_json]: [dataclasses.asdict], which turns the nested
    [Secrets] into a [dict] as well. *)
Definition to_json (self : SetupState) : pyval :=
  PDict [
    (py "version", version self);
    (py "domain", domain self);
    (py "assigned_user", assigned_user self);
    (py "computer_name", computer_name self);
    (py "initial_user", initial_user self);
    (py "local_admin_user", local_admin_user self);
    (py "sheet_id", sheet_id self);
    (py "worksheet", worksheet self);
    (py "sheet_range", sheet_range self);
    (py "secrets", PDict [
       (py "local_admin_password", local_admin_password (secrets self));
       (py "domain_username", domain_username (secrets self));
       (py "domain_password", domain_password (secrets self)) ])
  ].

(** [SetupState.from_json] *)
Definition from_json (data : pyval) : result SetupState :=
  (try! secrets := get data (py "secrets") PNone in
   let secrets := if truthy secrets then secrets else PDict [] in
   try! version := get data (py "version") (PInt 1) in
   try! domain := getitem data (py "domain") in
   try! assigned_user := getitem data (py "assigned_user") in
   try! computer_name := getitem data (py "computer_name") in
   try! initial_user := getitem data (py "initial_user") in
   try! local_admin_user := getitem data (py "local_admin_user") in
   try! sheet_id := getitem data (py "sheet_id") in
   try! worksheet := getitem data (py "worksheet") in
   try! sheet_range := getitem data (py "sheet_range") in
   try! local_admin_password := getitem secrets (py "local_admin_password") in
   try! domain_username := getitem secrets (py "domain_username") in
   try! domain_password := getitem secrets (py "domain_password") in
   Ok {| version := version; domain := domain; assigned_user := assigned_user;
         computer_name := computer_name; initial_user := initial_user;
         local_admin_user := local_admin_user; sheet_id := sheet_id;
         worksheet := worksheet; sheet_range := sheet_range;
         secrets := {| local_admin_password := local_admin_password;
                       domain_username := domain_username;
                       domain_password := domain_password |} |})%result.

(** [save_state]: the directory that is created is always [STATE_DIR],
    whatever [path] is. *)
Definition save_state (state : SetupState) (p : path) (fs : filesystem)
  : filesystem * result path :=
  match mkdir STATE_DIR fs with
  | (fs1, Raise e) => (fs1, Raise e)
  | (fs1, Ok _) =>
      let payload := to_json state in
      match open_write fs1 p (JsonText payload) with
      | (fs2, Raise e) => (fs2, Raise e)
      | (fs2, Ok _) => (fs2, Ok p)
      end
  end.

(** [load_state] *)
Definition load_state (p : path) (fs : filesystem) : result SetupState :=
  (try! c := open_read fs p in
   try! data := json_load c in
   from_json data)%result.

(** [clear_state] *)
Definition clear_state (p : path) (fs : filesystem) : filesystem * result unit :=
  if exists_ fs p then unlink fs p else (fs, Ok tt).

End State.

(** ** sheets.py *)

Module Sheets.

(** A value of a record of [get_all_records]: text, or a number where
    the text of the cell reads as one. *)
Inductive cell :=
| CStr (s : pystr)
| CInt (z : Z)
| CFloat (f : spec_float).

(** One tab of a spreadsheet: the size of its grid and its rows up to the
    last one that has a value; row 1 is [values !! 0].  The tab returns
    the values of a row as they were written. *)
Record grid := {
  row_count : nat;
  col_count : nat;
  values : list (list cell)
}.

(** The spreadsheets the service account can open, by spreadsheet key and
    tab title. *)
Abbreviation drive := (gmap (pystr * pystr) grid).

Definition HEADERS : list pystr :=
  [py "Domain"; py "Sequence"; py "Hostname"; py "AssignedUser";
   py "Status"; py "Timestamp"; py "Notes"].

Section WithRuntime.
Context `{Runtime}.

(** [str(v)] of a record value *)
Definition str_of_cell (v : cell) : pystr :=
  match v with
  | CStr s => s
  | CInt z => str_of_int z
  | CFloat f => float_repr f
  end.

(** [int(x)] of a float: truncation towards zero. *)
Definition int_of_float (f : spec_float) : result Z :=
  match f with
  | S754_zero _ => Ok 0%Z
  | S754_nan => Raise ValueError
  | S754_infinity _ => Raise OverflowError
  | S754_finite negative m e =>
      let magnitude :=
        if (0 <=? e)%Z then Z.shiftl (Z.pos m) e else Z.shiftr (Z.pos m) (- e) in
      Ok (if negative then (- magnitude)%Z else magnitude)
  end.

(** [int(v)] of a record value *)
Definition int_of_cell (v : cell) : result Z :=
  match v with
  | CStr s => int_of_str s
  | CInt z => Ok z
  | CFloat f => int_of_float f
  end.

Definition empty_cell : cell := CStr [].

Definition is_empty_cell (v : cell) : bool :=
  match v with
  | CStr [] => true
  | _ => false
  end.

Fixpoint drop_empty (row : list cell) : list cell :=
  match row with
  | [] => []
  | c :: rest => if is_empty_cell c then drop_empty rest else row
  end.

(** [ws.row_values(1)]: the texts of the first row, without the empty
    cells at its end. *)
Definition row_values_1 (g : grid) : list pystr :=
  map str_of_cell (rev (drop_empty (rev (nth 0 (values g) [])))).

(** [ws.update("A1:G1", [HEADERS])]: the first seven cells of row 1. *)
Definition update_A1_G1 (g : grid) (row : list pystr) : grid :=
  let new_row := map CStr row ++ drop 7 (nth 0 (values g) []) in
  {| row_count := Nat.max 1 (row_count g);
     col_count := Nat.max 7 (col_count g);
     values := new_row :: tl (values g) |}.

(** [ws.resize(rows=1, cols=len(HEADERS))] *)
Definition resize_1 (g : grid) : grid :=
  {| row_count := 1; col_count := length HEADERS;
     values := map (take (length HEADERS)) (take 1 (values g)) |}.

(** [SheetsClient._ensure_header] *)
Definition _ensure_header (g : grid) : grid :=
  let g := if bool_decide (row_count g = 0%nat) then resize_1 g else g in
  let headers := row_values_1 g in
  if bool_decide (headers ≠ HEADERS) then update_A1_G1 g HEADERS else g.

(** [SheetsClient._worksheet]: opens the tab and repairs its header.  An
    argument that is not a string names no spreadsheet. *)
Definition _worksheet (sheet_id worksheet : pyval) (d : drive)
  : drive * result (pystr * pystr) :=
  match sheet_id, worksheet with
  | PStr key, PStr title =>
      match d !! (key, title) with
      | None => (d, Raise WorksheetNotFound)
      | Some g => (<[(key, title) := _ensure_header g]> d, Ok (key, title))
      end
  | _, _ => (d, Raise GSpreadError)
  end.

Definition pad_row (width : nat) (row : list cell) : list cell :=
  row ++ repeat empty_cell (width - length row).

Definition grid_width (rows : list (list cell)) : nat :=
  foldr Nat.max 0%nat (map length rows).

(** [dict(zip(keys, row))]: a later item replaces an earlier one with the
    same key. *)
Definition record_of (keys : list pystr) (row : list cell) : gmap pystr cell :=
  list_to_map (rev (zip keys row)).

(** [ws.get_all_records()]: one [dict] per row below the header, keyed by
    the header texts; short rows are filled with empty text. *)
Definition get_all_records (g : grid) : list (gmap pystr cell) :=
  match values g with
  | [] => []
  | header :: rows =>
      let width := grid_width (values g) in
      let keys := map str_of_cell (pad_row width header) in
      map (fun row => record_of keys (pad_row width row)) rows
  end.

(** [row.get(key, default)] *)
Definition row_get (row : gmap pystr cell) (key : pystr) (default : cell) : cell :=
  match row !! key with
  | Some v => v
  | None => default
  end.

(** The tab title as the service writes it in A1 notation: a plain word
    as it is, any other title between single quotes, with the quotes in
    it doubled. *)
Definition is_word_char (c : N) : bool :=
  ascii_isupper c || ascii_islower c || ascii_isdigit c || (c =? 95).

Definition a1_sheet_name (title : pystr) : pystr :=
  if forallb is_word_char title && negb (bool_decide (title = []))
  then title
  else [39] ++ replace 39 [39; 39] title ++ [39].

(** [ws.append_row(row, value_input_option="USER_ENTERED")]: the row is
    added below the last one; the answer carries the range written. *)
Definition append_row (g : grid) (title : pystr) (row : list cell) : grid * pystr :=
  let n := S (length (values g)) in
  let number := str_of_N (N.of_nat n) in
  ({| row_count := Nat.max n (row_count g);
      col_count := Nat.max (length row) (col_count g);
      values := values g ++ [row] |},
   a1_sheet_name title ++ py "!A" ++ number ++ py ":G" ++ number).

(** [l[i]] *)
Definition index {A} (l : list A) (i : nat) : result A :=
  match l !! i with
  | Some x => Ok x
  | None => Raise IndexError
  end.

(** The body of the loop of [reserve_name] over the records. *)
Definition scan_row (domain_lower : pystr) (max_seq : Z) (row : gmap pystr cell)
  : result Z :=
  if str_eqb (lower (strip (str_of_cell (row_get row (py "Domain") (CStr []))))) domain_lower
  then
    match int_of_cell (row_get row (py "Sequence") (CInt 0)) with
    | Ok seq => Ok (Z.max max_seq seq)
    | Raise ValueError => Ok max_seq
    | Raise e => Raise e
    end
  else Ok max_seq.

Fixpoint scan_rows (domain_lower : pystr) (max_seq : Z) (records : list (gmap pystr cell))
  : result Z :=
  match records with
  | [] => Ok max_seq
  | row :: rest =>
      (try! max_seq' := scan_row domain_lower max_seq row in
       scan_rows domain_lower max_seq' rest)%result
  end.

(** [reserve_name] up to the choice of the host name: one read of the
    tab. *)
Definition reserve_read (domain : pystr) (sheet_id worksheet : pyval)
    (hostname_factory : Z -> result pystr) (d : drive)
  : drive * result (pystr * pystr * Z * pystr) :=
  match _worksheet sheet_id worksheet d with
  | (d1, Raise e) => (d1, Raise e)
  | (d1, Ok (key, title)) =>
      let records :=
        match d1 !! (key, title) with
        | Some g => get_all_records g
        | None => []
        end in
      let domain_lower := lower domain in
      (d1, (try! max_seq := scan_rows domain_lower 0 records in
            let next_seq := (max_seq + 1)%Z in
            try! hostname := hostname_factory next_seq in
            Ok (key, title, next_seq, hostname))%result)
  end.

(** The rest of [reserve_name]: one append to the tab, and the row
    number read back from the answer. *)
Definition reserve_append (timestamp domain assigned_user : pystr)
    (ws : pystr * pystr) (next_seq : Z) (hostname : pystr) (d : drive)
  : drive * result (Z * pystr * pystr) :=
  let '(key, title) := ws in
  match d !! (key, title) with
  | None => (d, Raise WorksheetNotFound)
  | Some g =>
      let row := [CStr domain; CInt next_seq; CStr hostname; CStr assigned_user;
                  CStr (py "Pending"); CStr timestamp; CStr []] in
      let '(g', updated_range) := append_row g title row in
      (<[(key, title) := g']> d,
       (try! sheet_part := index (split 33 updated_range) 1 in
        try! start_cell := index (split 58 sheet_part) 0 in
        try! row_number := int_of_str (tl start_cell) in
        Ok (next_seq, hostname,
            title ++ py "!A" ++ str_of_int row_number
                  ++ py ":G" ++ str_of_int row_number))%result)
  end.

(** [SheetsClient.reserve_name]; [timestamp] is the time the call reads
    from the clock. *)
Definition reserve_name (timestamp : pystr) (domain assigned_user : pystr)
    (sheet_id worksheet : pyval) (hostname_factory : Z -> result pystr) (d : drive)
  : drive * result (Z * pystr * pystr) :=
  match reserve_read domain sheet_id worksheet hostname_factory d with
  | (d1, Raise e) => (d1, Raise e)
  | (d1, Ok (key, title, next_seq, hostname)) =>
      reserve_append timestamp domain assigned_user (key, title) next_seq hostname d1
  end.

(** [ws.update(f"E{n}:G{n}", [[status, timestamp, notes]])]: the three
    cells of row [n], which must lie on the grid. *)
Definition update_E_G (g : grid) (n : Z) (cells : list cell) : result grid :=
  if ((n <=? 0) || (Z.of_nat (row_count g) <? n))%Z then Raise GSpreadError
  else
    let i := Z.to_nat (n - 1) in
    let rows := values g ++ repeat [] (S i - length (values g)) in
    let old := nth i rows [] in
    let new_row := take 4 (pad_row 4 old) ++ cells ++ drop 7 old in
    Ok {| row_count := row_count g; col_count := Nat.max 7 (col_count g);
          values := <[i := new_row]> rows |}.

(** The row number [update_status] reads from a range such as
    [Devices!A5:G5]: the digits of the first cell after the last
    exclamation mark. *)
Definition row_number_of_range (row_range : pyval) : result Z :=
  (try! row_range := as_str row_range in
   let parts := split 33 row_range in
   let range_part := List.last parts [] in
   try! start_cell := index (split 58 range_part) 0 in
   int_of_str (filter (fun c => isdigit c = true) start_cell))%result.

(** [SheetsClient.update_status] *)
Definition update_status (timestamp : pystr) (sheet_id worksheet row_range : pyval)
    (status notes : pystr) (d : drive) : drive * result unit :=
  match _worksheet sheet_id worksheet d with
  | (d1, Raise e) => (d1, Raise e)
  | (d1, Ok ws) =>
      match
        (try! row_number := row_number_of_range row_range in
         match d1 !! ws with
         | None => Raise WorksheetNotFound
         | Some g => update_E_G g row_number [CStr status; CStr timestamp; CStr notes]
         end)%result
      with
      | Raise e => (d1, Raise e)
      | Ok g' => (<[ws := g']> d1, Ok tt)
      end
  end.

End WithRuntime.

End Sheets.

(** ** security.py *)

Module Security.

Abbreviation bytes := (list byte).

Definition CRYPTPROTECT_LOCAL_MACHINE : Z := 4.

Record DATA_BLOB := {
  cbData : N;
  pbData : bytes
}.

(** The two entry points of [crypt32] the program calls, with the
    arguments it passes that are not [None]: the input blob, the
    description (protect only) and the flags.  Each answers the [BOOL]
    result, as the Python [int] ctypes returns, and the output blob.
    [get_last_error] is the error code ctypes has saved. *)
Record crypt32 := {
  CryptProtectData : DATA_BLOB -> pystr -> Z -> Z * DATA_BLOB;
  CryptUnprotectData : DATA_BLOB -> Z -> Z * DATA_BLOB;
  get_last_error : Z
}.

(** An instance of the ctypes type [BOOL] (a [c_long]). *)
Inductive c_long :=
| BOOL (value : bool).

(** [result != BOOL(True)]: ctypes data types define no comparison, so
    [==] and [!=] between an [int] and a [c_long] instance fall back to
    object identity, and the two are never the same object. *)
Definition int_ne_c_long (result : Z) (other : c_long) : bool := true.

(** [_raise_last_error] *)
Definition _raise_last_error {A} (dll : crypt32) : result A :=
  Raise (OSError (get_last_error dll)).

(** [_to_blob] *)
Definition _to_blob (data : bytes) : DATA_BLOB :=
  {| cbData := N.of_nat (length data); pbData := data |}.

(** [_from_blob] *)
Definition _from_blob (blob : DATA_BLOB) : bytes :=
  take (N.to_nat (cbData blob)) (pbData blob).

Definition byte_of_N (n : N) : byte :=
  match Byte.of_N (n mod 256) with
  | Some b => b
  | None => x00
  end.

Definition le16 (unit : N) : bytes := [byte_of_N unit; byte_of_N (unit / 256)].

(** [s.encode("utf-16-le")]: surrogate code points cannot be encoded. *)
Fixpoint utf16le_encode (s : pystr) : result bytes :=
  match s with
  | [] => Ok []
  | c :: rest =>
      if (55296 <=? c) && (c <=? 57343) then Raise UnicodeEncodeError
      else
        (try! tail := utf16le_encode rest in
         Ok (if c <? 65536 then le16 c ++ tail
             else le16 (55296 + (c - 65536) / 1024)
                  ++ le16 (56320 + (c - 65536) mod 1024) ++ tail))%result
  end.

Fixpoint units_of_bytes (b : bytes) : result (list N) :=
  match b with
  | [] => Ok []
  | [_] => Raise UnicodeDecodeError
  | lo :: hi :: rest =>
      (try! tail := units_of_bytes rest in
       Ok ((Byte.to_N lo + 256 * Byte.to_N hi) :: tail))%result
  end.

Fixpoint decode_units (units : list N) : result pystr :=
  match units with
  | [] => Ok []
  | u :: rest =>
      if (55296 <=? u) && (u <=? 56319) then
        match rest with
        | v :: rest' =>
            if (56320 <=? v) && (v <=? 57343) then
              (try! tail := decode_units rest' in
               Ok ((65536 + (u - 55296) * 1024 + (v - 56320)) :: tail))%result
            else Raise UnicodeDecodeError
        | [] => Raise UnicodeDecodeError
        end
      else if (56320 <=? u) && (u <=? 57343) then Raise UnicodeDecodeError
      else (try! tail := decode_units rest in Ok (u :: tail))%result
  end.

(** [b.decode("utf-16-le")] *)
Definition utf16le_decode (b : bytes) : result pystr :=
  (try! units := units_of_bytes b in decode_units units)%result.

(** [s.encode("ascii")] *)
Definition ascii_encode (s : pystr) : result bytes :=
  if forallb is_ascii s then Ok (map byte_of_N s) else Raise UnicodeEncodeError.

Definition b64_char (i : N) : N :=
  if i <? 26 then 65 + i
  else if i <? 52 then 97 + (i - 26)
  else if i <? 62 then 48 + (i - 52)
  else if i =? 62 then 43 else 47.

Definition b64_value (c : N) : option N :=
  if ascii_isupper c then Some (c - 65)
  else if ascii_islower c then Some (c - 97 + 26)
  else if ascii_isdigit c then Some (c - 48 + 52)
  else if c =? 43 then Some 62
  else if c =? 47 then Some 63
  else None.

(** [base64.b64encode(b).decode("ascii")] *)
Fixpoint b64encode (b : bytes) : pystr :=
  match b with
  | [] => []
  | [x] =>
      let x := Byte.to_N x in
      [b64_char (x / 4); b64_char (x mod 4 * 16); 61; 61]
  | [x; y] =>
      let x := Byte.to_N x in
      let y := Byte.to_N y in
      [b64_char (x / 4); b64_char (x mod 4 * 16 + y / 16); b64_char (y mod 16 * 4); 61]
  | x :: y :: z :: rest =>
      let x := Byte.to_N x in
      let y := Byte.to_N y in
      let z := Byte.to_N z in
      [b64_char (x / 4); b64_char (x mod 4 * 16 + y / 16);
       b64_char (y mod 16 * 4 + z / 64); b64_char (z mod 64)] ++ b64encode rest
  end.

(** [base64.b64decode(b)], not validating: [binascii.a2b_base64] skips
    the characters outside the alphabet, stops at complete padding and
    rejects an incomplete last group. *)
Fixpoint a2b_base64 (s : list N) (quad_pos leftchar pads : N) (out_rev : bytes)
  : result bytes :=
  match s with
  | [] => if quad_pos =? 0 then Ok (rev out_rev) else Raise Base64Error
  | c :: rest =>
      if c =? 61 then
        if (2 <=? quad_pos) && (4 <=? quad_pos + (pads + 1)) then Ok (rev out_rev)
        else a2b_base64 rest quad_pos leftchar
               (if 2 <=? quad_pos then pads + 1 else pads) out_rev
      else
        match b64_value c with
        | None => a2b_base64 rest quad_pos leftchar pads out_rev
        | Some v =>
            match quad_pos with
            | 0 => a2b_base64 rest 1 v 0 out_rev
            | 1 => a2b_base64 rest 2 (v mod 16) 0
                     (byte_of_N (leftchar * 4 + v / 16) :: out_rev)
            | 2 => a2b_base64 rest 3 (v mod 4) 0
                     (byte_of_N (leftchar * 16 + v / 4) :: out_rev)
            | _ => a2b_base64 rest 0 0 0
                     (byte_of_N (leftchar * 64 + v) :: out_rev)
            end
        end
  end.

Definition b64decode (b : bytes) : result bytes :=
  a2b_base64 (map Byte.to_N b) 0 0 0 [].

(** [protect_string] *)
Definition protect_string (dll : crypt32) (secret : pyval) : result pystr :=
  match secret with
  | PStr secret =>
      (try! data := utf16le_encode secret in
       let in_blob := _to_blob data in
       let '(result, out_blob) :=
         CryptProtectData dll in_blob (py "computer-setup") CRYPTPROTECT_LOCAL_MACHINE in
       if int_ne_c_long result (BOOL true) then _raise_last_error dll
       else
         let protected := _from_blob out_blob in
         Ok (b64encode protected))%result
  | _ => Raise TypeError
  end.

(** [unprotect_string] *)
Definition unprotect_string (dll : crypt32) (protected : pyval) : result pystr :=
  match protected with
  | PStr protected =>
      (try! encoded := ascii_encode protected in
       try! raw := b64decode encoded in
       let in_blob := _to_blob raw in
       let '(result, out_blob) := CryptUnprotectData dll in_blob 0 in
       if int_ne_c_long result (BOOL true) then _raise_last_error dll
       else
         let decrypted := _from_blob out_blob in
         utf16le_decode decrypted)%result
  | _ => Raise TypeError
  end.

End Security.

(** ** windows.py *)

Module Windows.

(** What the program asks of the operating system, in the order asked. *)
Inductive event :=
| Run (argv : list pystr)
| RegSetValue (key_path name data : pystr)
| RegDeleteValue (key_path name : pystr).

(** The answers of the operating system, each depending on what was
    asked before: the result of a finished process is its return code,
    standard output and standard error. *)
Record os := {
  IsUserAnAdmin : result Z;
  subprocess_run : list event -> list pystr -> result (Z * pystr * pystr);
  OpenKey : list event -> pystr -> result unit;
  SetValueEx : list event -> pystr -> pystr -> pystr -> result unit;
  DeleteValue : list event -> pystr -> pystr -> result unit;
  COMPUTERNAME : option pystr
}.

(** An action on the machine: the log of events goes in and comes out. *)
Definition action (A : Type) := list event -> list event * result A.

Definition then_ {A B} (a : action A) (k : A -> action B) : action B :=
  fun t =>
    match a t with
    | (t', Ok x) => k x t'
    | (t', Raise e) => (t', Raise e)
    end.

Definition lift {A} (r : result A) : action A := fun t => (t, r).

Section WithSystem.
Context `{Runtime} (sys : os).

(** [is_elevated] *)
Definition is_elevated : bool :=
  match IsUserAnAdmin sys with
  | Ok z => negb (z =? 0)%Z
  | Raise _ => false
  end.

(** [require_elevated] *)
Definition require_elevated : result unit :=
  if negb is_elevated then Raise PermissionError else Ok tt.

(** [_escape_single_quotes] *)
Definition _escape_single_quotes (value : pyval) : result pystr :=
  (try! value := as_str value in Ok (replace 39 [39; 39] value))%result.

Definition powershell_argv (script : pystr) : list pystr :=
  [py "powershell.exe"; py "-NoProfile"; py "-NonInteractive";
   py "-ExecutionPolicy"; py "Bypass"; py "-Command"; script].

(** [_run_powershell] *)
Definition _run_powershell (lines : list pystr) : action unit :=
  fun t =>
    let script := join (py "; ") lines in
    let argv := powershell_argv script in
    (t ++ [Run argv],
     match subprocess_run sys t argv with
     | Raise e => Raise e
     | Ok (returncode, stdout, stderr) =>
         if negb (returncode =? 0)%Z then
           Raise (CommandError (if truthy (PStr (strip stderr)) then strip stderr
                                else strip stdout))
         else Ok tt
     end).

(** [rename_computer] *)
Definition rename_computer (new_name : pyval) : action unit :=
  then_ (lift (_escape_single_quotes new_name)) (fun escaped =>
  _run_powershell
    [py "Rename-Computer -NewName '" ++ escaped ++ py "' -Force -ErrorAction Stop"]).

(** [create_or_update_local_admin] *)
Definition create_or_update_local_admin (username password : pyval) : action unit :=
  then_ (lift (_escape_single_quotes username)) (fun escaped_user =>
  then_ (lift (_escape_single_quotes password)) (fun escaped_pass =>
  _run_powershell
    [py "$SecurePassword = ConvertTo-SecureString '" ++ escaped_pass
       ++ py "' -AsPlainText -Force";
     py "$existing = Get-LocalUser -Name '" ++ escaped_user
       ++ py "' -ErrorAction SilentlyContinue";
     py "if ($existing) {";
     py "  Set-LocalUser -Name $existing.Name -Password $SecurePassword -PasswordNeverExpires $true -ErrorAction Stop";
     py "} else {";
     py "  New-LocalUser -Name '" ++ escaped_user
       ++ py "' -Password $SecurePassword -AccountNeverExpires -PasswordNeverExpires $true -ErrorAction Stop";
     py "}";
     py "Add-LocalGroupMember -Group 'Administrators' -Member '" ++ escaped_user
       ++ py "' -ErrorAction Stop"])).

(** The script of [remove_local_user]. *)
Definition remove_local_user_commands (escaped_user : pystr) : list pystr :=
  [py "$existing = Get-LocalUser -Name '" ++ escaped_user
     ++ py "' -ErrorAction SilentlyContinue";
   py "if ($existing) {";
   py "  try {";
   py "    Remove-LocalUser -Name $existing.Name -ErrorAction Stop";
   py "  } catch {";
   py "    throw " ++ [34]
     ++ py "Unable to remove local user $($existing.Name): $($_.Exception.Message)"
     ++ [34];
   py "  }";
   py "}"].

(** [remove_local_user] *)
Definition remove_local_user (username : pyval) : action unit :=
  then_ (lift (_escape_single_quotes username)) (fun escaped_user =>
  _run_powershell (remove_local_user_commands escaped_user)).

(** [join_domain] *)
Definition join_domain (domain username password ou_path : pyval) (restart : bool)
  : action unit :=
  then_ (lift (_escape_single_quotes username)) (fun escaped_user =>
  then_ (lift (_escape_single_quotes password)) (fun escaped_pass =>
  then_ (lift (_escape_single_quotes domain)) (fun escaped_domain =>
  let line1 := py "$SecurePassword = ConvertTo-SecureString '" ++ escaped_pass
                 ++ py "' -AsPlainText -Force" in
  let line2 := py "$Credential = New-Object System.Management.Automation.PSCredential('"
                 ++ escaped_user ++ py "', $SecurePassword)" in
  let line3 := py "Add-Computer -DomainName '" ++ escaped_domain
                 ++ py "' -Credential $Credential" in
  then_ (lift (if truthy ou_path then
                 (try! escaped_ou := _escape_single_quotes ou_path in
                  Ok (line3 ++ py " -OUPath '" ++ escaped_ou ++ py "'"))%result
               else Ok line3)) (fun line3 =>
  let line3 := if restart then line3 ++ py " -Restart" else line3 in
  let line3 := line3 ++ py " -ErrorAction Stop" in
  _run_powershell [line1; line2; line3])))).

(** The loop of [_set_reg_values] over the items of [values]. *)
Fixpoint set_values (key_path : pystr) (values : list (pystr * pystr)) : action unit :=
  match values with
  | [] => lift (Ok tt)
  | (name, data) :: rest =>
      then_ (fun t => (t ++ [RegSetValue key_path name data],
                       SetValueEx sys t key_path name data))
            (fun _ => set_values key_path rest)
  end.

(** [_set_reg_values] *)
Definition _set_reg_values (key_path : pystr) (values : list (pystr * pystr))
  : action unit :=
  then_ (fun t => (t, OpenKey sys t key_path)) (fun _ => set_values key_path values).

(** The loop of [_delete_reg_values]: a value that is not there is
    skipped. *)
Fixpoint delete_values (key_path : pystr) (names : list pystr) : action unit :=
  match names with
  | [] => lift (Ok tt)
  | name :: rest =>
      fun t =>
        let t' := t ++ [RegDeleteValue key_path name] in
        match DeleteValue sys t key_path name with
        | Ok _ | Raise FileNotFoundError => delete_values key_path rest t'
        | Raise e => (t', Raise e)
        end
  end.

(** [_delete_reg_values] *)
Definition _delete_reg_values (key_path : pystr) (names : list pystr) : action unit :=
  then_ (fun t => (t, OpenKey sys t key_path)) (fun _ => delete_values key_path names).

Definition winlogon_key : pystr :=
  py "SOFTWARE\Microsoft\Windows NT\CurrentVersion\Winlogon".

(** [configure_autologon] *)
Definition configure_autologon (username password : pystr) : action unit :=
  let machine_name :=
    match COMPUTERNAME sys with
    | Some n => n
    | None => py "localhost"
    end in
  _set_reg_values winlogon_key
    [(py "AutoAdminLogon", py "1");
     (py "ForceAutoLogon", py "1");
     (py "DefaultUserName", username);
     (py "DefaultPassword", password);
     (py "DefaultDomainName", machine_name)].

(** [clear_autologon] *)
Definition clear_autologon : action unit :=
  then_ (_set_reg_values winlogon_key
           [(py "AutoAdminLogon", py "0"); (py "ForceAutoLogon", py "0")]) (fun _ =>
  _delete_reg_values winlogon_key [py "DefaultPassword"; py "DefaultDomainName"]).

(** [register_run_once] *)
Definition register_run_once (name command : pystr) : action unit :=
  _set_reg_values (py "SOFTWARE\Microsoft\Windows\CurrentVersion\RunOnce")
    [(name, command)].

(** [subprocess.run(argv, check=True)] *)
Definition run_checked (argv : list pystr) : action unit :=
  fun t =>
    (t ++ [Run argv],
     match subprocess_run sys t argv with
     | Raise e => Raise e
     | Ok (returncode, _, _) =>
         if negb (returncode =? 0)%Z then Raise (CalledProcessError returncode)
         else Ok tt
     end).

(** [logoff_current_user] *)
Definition logoff_current_user : action unit :=
  run_checked [py "shutdown.exe"; py "/l"].

(** [restart_computer] *)
Definition restart_computer (delay_seconds : Z) : action unit :=
  run_checked [py "shutdown.exe"; py "/r"; py "/t"; str_of_int delay_seconds].

End WithSystem.

End Windows.

(** ** cli.py *)

Module Cli.

(** What lies outside the program: the operating system, the data
    protection library, the resolution of a path text against the
    current directory and home ([Path(text).expanduser().resolve()]), the
    text of a path ([str(path)]), the sign-in of the service account, and
    the interpreter's own path. *)
Record environment := {
  sys : Windows.os;
  dll : Security.crypt32;
  resolve : pystr -> path;
  path_text : path -> pystr;
  service_account : path -> result unit;
  executable : path
}.

(** What the program changes: the files, the spreadsheets, the log of
    what was asked of the machine, and the lines still to be typed at the
    console. *)
Record world := {
  fs : filesystem;
  drive : Sheets.drive;
  trace : list Windows.event;
  stdin : list pystr
}.

Definition M (A : Type) := world -> world * result A.

Definition ret {A} (x : A) : M A := fun w => (w, Ok x).

Definition bind {A B} (m : M A) (k : A -> M B) : M B :=
  fun w =>
    match m w with
    | (w', Ok x) => k x w'
    | (w', Raise e) => (w', Raise e)
    end.

Definition lift {A} (r : result A) : M A := fun w => (w, r).

Definition on_fs {A} (f : filesystem -> filesystem * result A) : M A :=
  fun w =>
    let '(fs', r) := f (fs w) in
    ({| fs := fs'; drive := drive w; trace := trace w; stdin := stdin w |}, r).

Definition on_drive {A} (f : Sheets.drive -> Sheets.drive * result A) : M A :=
  fun w =>
    let '(d', r) := f (drive w) in
    ({| fs := fs w; drive := d'; trace := trace w; stdin := stdin w |}, r).

Definition on_machine {A} (f : Windows.action A) : M A :=
  fun w =>
    let '(t', r) := f (trace w) in
    ({| fs := fs w; drive := drive w; trace := t'; stdin := stdin w |}, r).

Definition on_stdin {A} (f : list pystr -> list pystr * result A) : M A :=
  fun w =>
    let '(i', r) := f (stdin w) in
    ({| fs := fs w; drive := drive w; trace := trace w; stdin := i' |}, r).

Declare Scope cli_scope.
Delimit Scope cli_scope with cli.
Notation "'do!' x := m 'in' k" := (bind m (fun x => k))
  (at level 10, x pattern, m at level 100, k at level 200) : cli_scope.

Record initial_run_args := {
  ir_config : pystr;
  ir_google_credentials : option pystr;
  ir_domain : pystr;
  ir_assigned_user : pystr;
  ir_initial_user : pystr;
  ir_local_admin : pystr;
  ir_state : pystr
}.

Record post_login_args := {
  pl_config : pystr;
  pl_google_credentials : option pystr;
  pl_state : pystr;
  pl_no_restart : bool
}.

Section WithEnvironment.
Context `{Runtime} (env : environment).

(** [_resolve_config] for a path that was given. *)
Definition _resolve_config (p : path) : M Config.AppConfig :=
  fun w =>
    if negb (exists_ (fs w) p) then (w, Raise FileNotFoundError)
    else (w, Config.load_config (fs w) p).

(** [_resolve_credentials_path] *)
Definition _resolve_credentials_path (args_value : option pystr)
    (config : Config.AppConfig) : result path :=
  match args_value with
  | Some (_ :: _ as text) => Ok (resolve env text)
  | _ =>
      match Config.google_credentials config with
      | Some text => Ok (resolve env text)
      | None => Raise ValueError
      end
  end.

(** [SheetsClient.__init__] *)
Definition SheetsClient (credentials_path : path) : M unit :=
  fun w =>
    if negb (exists_ (fs w) credentials_path) then (w, Raise FileNotFoundError)
    else (w, service_account env credentials_path).

(** [_prompt_password]: [getpass.getpass] takes the next line typed, and
    fails at the end of the input. *)
Fixpoint _prompt_password (confirm : bool) (input : list pystr)
  : list pystr * result pystr :=
  match input with
  | [] => ([], Raise EOFError)
  | pw1 :: rest =>
      if negb (truthy (PStr pw1)) then _prompt_password confirm rest
      else if negb confirm then (rest, Ok pw1)
      else
        match rest with
        | [] => ([], Raise EOFError)
        | pw2 :: rest' =>
            if str_eqb pw1 pw2 then (rest', Ok pw1)
            else _prompt_password confirm rest'
        end
  end.

(** [input(prompt)] *)
Definition input (lines : list pystr) : list pystr * result pystr :=
  match lines with
  | [] => ([], Raise EOFError)
  | line :: rest => (rest, Ok line)
  end.

(** The reservation of [_initial_run]: the slug of the assigned user and
    the call of [reserve_name] with the host name factory of the
    domain. *)
Definition reserve_hostname (timestamp : pystr) (domain_config : Config.DomainConfig)
    (domain assigned_user : pystr) : M (pystr * (Z * pystr * pystr)) :=
  let assigned_slug := Config.slugify_user assigned_user in
  (do! reserved := on_drive (Sheets.reserve_name timestamp domain assigned_slug
                     (Config.sheet_id domain_config) (Config.worksheet domain_config)
                     (fun n => Config.build_hostname domain_config n assigned_slug)) in
   ret (assigned_slug, reserved))%cli.

(** [_initial_run]; [timestamp] is the time read by [reserve_name]. *)
Definition _initial_run (timestamp : pystr) (args : initial_run_args) : M unit :=
  (do! _ := lift (Windows.require_elevated (sys env)) in
   let config_path := resolve env (ir_config args) in
   do! config := _resolve_config config_path in
   do! domain_config := lift (Config.get_domain config (PStr (ir_domain args))) in
   do! google_creds := lift (_resolve_credentials_path (ir_google_credentials args) config) in
   do! _ := SheetsClient google_creds in
   do! (assigned_slug, (seq, hostname, sheet_range)) :=
     reserve_hostname timestamp domain_config (ir_domain args) (ir_assigned_user args) in
   do! local_admin_password := on_stdin (_prompt_password true) in
   do! domain_username := on_stdin input in
   let domain_username := strip domain_username in
   do! domain_password := on_stdin (_prompt_password false) in
   do! _ := on_machine (Windows.rename_computer (sys env) (PStr hostname)) in
   do! _ := on_machine (Windows.create_or_update_local_admin (sys env)
                          (PStr (ir_local_admin args)) (PStr local_admin_password)) in
   do! _ := on_machine (Windows.configure_autologon (sys env)
                          (ir_local_admin args) local_admin_password) in
   let python_exe := executable env in
   let state_path := resolve env (ir_state args) in
   do! protected_admin := lift (Security.protect_string (dll env) (PStr local_admin_password)) in
   do! protected_domain := lift (Security.protect_string (dll env) (PStr domain_password)) in
   let secrets := {| State.local_admin_password := PStr protected_admin;
                     State.domain_username := PStr domain_username;
                     State.domain_password := PStr protected_domain |} in
   let state := State.create (PStr (ir_domain args)) (PStr assigned_slug) (PStr hostname)
                  (PStr (ir_initial_user args)) (PStr (ir_local_admin args))
                  (Config.sheet_id domain_config) (Config.worksheet domain_config)
                  (PStr sheet_range) secrets in
   do! _ := on_fs (State.save_state state state_path) in
   let run_once_command :=
     [34] ++ path_text env python_exe ++ [34]
     ++ py " -m computer_setup.cli post-login --state " ++ [34]
     ++ path_text env state_path ++ [34] ++ py " --config " ++ [34]
     ++ path_text env config_path ++ [34] in
   do! _ := on_machine (Windows.register_run_once (sys env)
                          (py "ComputerSetupPostLogin") run_once_command) in
   on_machine (Windows.logoff_current_user (sys env)))%cli.

(** The removal of the build user in [_post_login]: the comparison of
    the two account names and the call it guards. *)
Definition remove_build_user (state : State.SetupState) : M unit :=
  (do! initial := lift (as_str (State.initial_user state)) in
   do! admin := lift (as_str (State.local_admin_user state)) in
   if negb (str_eqb (lower initial) (lower admin))
   then on_machine (Windows.remove_local_user (sys env) (State.initial_user state))
   else ret tt)%cli.

(** [_post_login] after the domain password has been unprotected. *)
Definition finish_post_login (timestamp : pystr) (args : post_login_args)
    (state_path : path) (state : State.SetupState)
    (domain_config : Config.DomainConfig) (domain_password : pystr) : M unit :=
  (do! _ := on_machine (Windows.clear_autologon (sys env)) in
   do! _ := remove_build_user state in
   do! _ := on_machine (Windows.join_domain (sys env) (State.domain state)
                          (State.domain_username (State.secrets state))
                          (PStr domain_password) (Config.ou_path domain_config) false) in
   do! _ := on_drive (Sheets.update_status timestamp (State.sheet_id state)
                        (State.worksheet state) (State.sheet_range state)
                        (py "Joined") (py "Provisioned via computer-setup")) in
   do! _ := on_fs (State.clear_state state_path) in
   if negb (pl_no_restart args)
   then on_machine (Windows.restart_computer (sys env) 10)
   else ret tt)%cli.

(** [_post_login]; [timestamp] is the time read by [update_status]. *)
Definition _post_login (timestamp : pystr) (args : post_login_args) : M unit :=
  (do! _ := lift (Windows.require_elevated (sys env)) in
   let state_path := resolve env (pl_state args) in
   let config_path := resolve env (pl_config args) in
   do! state := (fun w => (w, State.load_state state_path (fs w))) in
   do! config := _resolve_config config_path in
   do! domain_config := lift (Config.get_domain config (State.domain state)) in
   do! google_creds := lift (_resolve_credentials_path (pl_google_credentials args) config) in
   do! _ := SheetsClient google_creds in
   do! domain_password :=
     lift (Security.unprotect_string (dll env)
             (State.domain_password (State.secrets state))) in
   finish_post_login timestamp args state_path state domain_config domain_password)%cli.

(** The two subcommands, as [argparse] hands them over. *)
Inductive command :=
| InitialRun (args : initial_run_args)
| PostLogin (args : post_login_args).

(** [main]: the exit status is 1 when the subcommand raised. *)
Definition main (timestamp : pystr) (c : command) (w : world) : world * Z :=
  let run := match c with
             | InitialRun args => _initial_run timestamp args
             | PostLogin args => _post_login timestamp args
             end in
  match run w with
  | (w', Ok _) => (w', 0%Z)
  | (w', Raise _) => (w', 1%Z)
  end.

End WithEnvironment.

End Cli.

(** ** Callers of [reserve_name]

    Machines that provision against the same tab: each call of
    [reserve_name] is a read of the tab followed by an append, and
    nothing ties the two together. *)

Module Callers.

Record call := {
  timestamp : pystr;
  domain : pystr;
  assigned_user : pystr;
  sheet_id : pyval;
  worksheet : pyval;
  hostname_factory : Z -> result pystr
}.

(** Where a call stands: not begun, between its read and its append, or
    returned. *)
Inductive thread :=
| Start (c : call)
| Scanned (c : call) (ws : pystr * pystr) (next_seq : Z) (hostname : pystr)
| Returned (r : result (Z * pystr * pystr)).

Section WithRuntime.
Context `{Runtime}.

(** One whole call. *)
Definition run (c : call) (d : Sheets.drive)
  : Sheets.drive * result (Z * pystr * pystr) :=
  Sheets.reserve_name (timestamp c) (domain c) (assigned_user c)
    (sheet_id c) (worksheet c) (hostname_factory c) d.

(** Calls made one after the other. *)
Fixpoint run_all (calls : list call) (d : Sheets.drive)
  : Sheets.drive * list (result (Z * pystr * pystr)) :=
  match calls with
  | [] => (d, [])
  | c :: rest =>
      let '(d1, r) := run c d in
      let '(d2, rs) := run_all rest d1 in
      (d2, r :: rs)
  end.

(** The next request of a call to the service. *)
Definition advance (t : thread) (d : Sheets.drive) : option (Sheets.drive * thread) :=
  match t with
  | Start c =>
      match Sheets.reserve_read (domain c) (sheet_id c) (worksheet c)
              (hostname_factory c) d with
      | (d1, Raise e) => Some (d1, Returned (Raise e))
      | (d1, Ok (key, title, next_seq, hostname)) =>
          Some (d1, Scanned c (key, title) next_seq hostname)
      end
  | Scanned c ws next_seq hostname =>
      let '(d1, r) := Sheets.reserve_append (timestamp c) (domain c) (assigned_user c)
                        ws next_seq hostname d in
      Some (d1, Returned r)
  | Returned _ => None
  end.

(** Any call that has not returned may go next. *)
Inductive step : Sheets.drive * list thread -> Sheets.drive * list thread -> Prop :=
| step_thread d ts i t d' t' :
    ts !! i = Some t ->
    advance t d = Some (d', t') ->
    step (d, ts) (d', <[i := t']> ts).

End WithRuntime.

End Callers.

(** ** Vocabulary of the properties *)

Definition hyphen : N := 45.

(** No two neighbours of [s] are both hyphens. *)
Definition no_double_hyphen (s : pystr) : Prop :=
  ∀ i, s !! i = Some hyphen → s !! S i ≠ Some hyphen.

(** The header row as [_ensure_header] writes it. *)
Definition canonical_header : list Sheets.cell := map Sheets.CStr Sheets.HEADERS.

(** A tab without reservations: no row at all, or the header only. *)
Definition empty_ledger (g : Sheets.grid) : Prop :=
  Sheets.values g = [] ∨ Sheets.values g = [canonical_header].

(** The row [reserve_name] appends. *)
Definition reservation_row (domain : pystr) (seq : Z) (hostname user timestamp : pystr)
  : list Sheets.cell :=
  [Sheets.CStr domain; Sheets.CInt seq; Sheets.CStr hostname; Sheets.CStr user;
   Sheets.CStr (py "Pending"); Sheets.CStr timestamp; Sheets.CStr []].

(** The rows below the header are reservations of [domain] numbered
    [1 .. k], in this order. *)
Definition reserved_rows (domain : pystr) (rows : list (list Sheets.cell)) (k : nat)
  : Prop :=
  Forall2 (fun row i => ∃ hostname user timestamp,
             row = reservation_row domain (Z.of_nat i) hostname user timestamp)
          rows (seq 1 k).


(** The exceptions with which a state load fails: the file is missing or
    cannot be opened, is not JSON, or lacks what [from_json] reads.  The
    program has no exception class of its own for them. *)
Definition StateError (e : exn) : Prop :=
  match e with
  | FileNotFoundError | PermissionError | JSONDecodeError
  | AttributeError | TypeError | KeyError _ => True
  | _ => False
  end.

(** Every domain of a configuration is filed under the lower-case form
    of its name. *)
Definition filed_by_name `{Runtime} (m : gmap pystr Config.DomainConfig) : Prop :=
  ∀ k d, m !! k = Some d → lower (Config.name d) = k.

(** A decimal numeral with [k] zeros put in front. *)
Fixpoint leading_zeros (k : nat) (u : Decimal.uint) : Decimal.uint :=
  match k with
  | O => u
  | S k => Decimal.D0 (leading_zeros k u)
  end.

(** The first row reads as the header, or begins with the seven header
    cells. *)
Definition header_row `{Runtime} (row : list Sheets.cell) : Prop :=
  map Sheets.str_of_cell (rev (Sheets.drop_empty (rev row))) = Sheets.HEADERS
  ∨ take 7 row = canonical_header.


(** A code point of a Python [str] that is no surrogate. *)
Definition scalar_value (c : N) : Prop := c < 1114112 ∧ ¬ (55296 ≤ c ≤ 57343).

(** Read from the left, every single quote is followed by a second
    one. *)
Fixpoint quotes_paired (s : pystr) : bool :=
  match s with
  | [] => true
  | c :: rest =>
      if c =? 39 then
        match rest with
        | c' :: rest' => (c' =? 39) && quotes_paired rest'
        | [] => false
        end
      else quotes_paired rest
  end.

(** The keys [from_json] reads with a subscript: from the document, and
    from its ["secrets"]. *)
Definition state_keys : list pystr :=
  [py "domain"; py "assigned_user"; py "computer_name"; py "initial_user";
   py "local_admin_user"; py "sheet_id"; py "worksheet"; py "sheet_range"].

Definition secret_keys : list pystr :=
  [py "local_admin_password"; py "domain_username"; py "domain_password"].

(** ** Sample inputs *)

(** A tab as the service creates it: a grid without values. *)
Definition fresh_grid : Sheets.grid :=
  {| Sheets.row_count := 1000; Sheets.col_count := 26; Sheets.values := [] |}.

Definition fresh_drive : Sheets.drive := {[ (py "X", py "Devices") := fresh_grid ]}.

(** The configuration entry [{"sheet_id": "X", "hostname_template":
    "{seq:03d}-{user}"}] and the [DomainConfig] that [load_config] makes
    of it for the key [domain]. *)
Definition template_entry : pyval :=
  PDict [(py "sheet_id", PStr (py "X"));
         (py "hostname_template", PStr (py "{seq:03d}-{user}"))].

Definition template_config (domain : pystr) : Config.DomainConfig :=
  {| Config.name := domain; Config.sheet_id := PStr (py "X");
     Config.worksheet := PStr (py "Devices");
     Config.hostname_template := PStr (py "{seq:03d}-{user}");
     Config.ou_path := PNone |}.

(** A call for the domain [domain] that names the host after the
    sequence number and the user. *)
Definition sample_call (domain user : pystr) : Callers.call := {|
  Callers.timestamp := py "2025-01-01T00:00:00+00:00";
  Callers.domain := domain;
  Callers.assigned_user := user;
  Callers.sheet_id := PStr (py "X");
  Callers.worksheet := PStr (py "Devices");
  Callers.hostname_factory n := Ok (str_of_int n ++ py "-" ++ user)
|}.

(** A call for a domain written with a blank in front. *)
Definition padded_call (user : pystr) : Callers.call := sample_call (py " corp") user.

(** A ledger with one reservation whose sequence cell reads [inf]. *)
Definition infinite_drive : Sheets.drive :=
  {[ (py "X", py "Devices") :=
       {| Sheets.row_count := 1000; Sheets.col_count := 26;
          Sheets.values :=
            [canonical_header;
             [Sheets.CStr (py "corp"); Sheets.CFloat (S754_infinity false);
              Sheets.CStr (py "001-old"); Sheets.CStr (py "old");
              Sheets.CStr (py "Joined"); Sheets.CStr (py "2024"); Sheets.CStr []]] |} ]}.

(** The same with a sequence cell that holds 3.5. *)
Definition fractional_drive : Sheets.drive :=
  {[ (py "X", py "Devices") :=
       {| Sheets.row_count := 1000; Sheets.col_count := 26;
          Sheets.values :=
            [canonical_header;
             [Sheets.CStr (py "corp"); Sheets.CFloat (S754_finite false 7 (-1));
              Sheets.CStr (py "001-old"); Sheets.CStr (py "old");
              Sheets.CStr (py "Joined"); Sheets.CStr (py "2024"); Sheets.CStr []]] |} ]}.

(** A state as phase 1 would save it. *)
Definition sample_state : State.SetupState :=
  State.create (PStr (py "corp")) (PStr (py "jane")) (PStr (py "001-jane"))
    (PStr (py "builder")) (PStr (py "WorkstationAdmin"))
    (PStr (py "X")) (PStr (py "Devices")) (PStr (py "Devices!A2:G2"))
    {| State.local_admin_password := PStr (py "AAAA");
       State.domain_username := PStr (py "CORP\joiner");
       State.domain_password := PStr (py "BBBB") |}.


(** A library that protects by leaving the bytes as they are and reports
    success: the best case for the caller. *)
Definition agreeable_crypt32 : Security.crypt32 := {|
  Security.CryptProtectData blob _ _ := (1%Z, blob);
  Security.CryptUnprotectData blob _ := (1%Z, blob);
  Security.get_last_error := 0%Z
|}.

(** An elevated session on a machine where every command succeeds. *)
Definition willing_os : Windows.os := {|
  Windows.IsUserAnAdmin := Ok 1%Z;
  Windows.subprocess_run _ _ := Ok (0%Z, [], []);
  Windows.OpenKey _ _ := Ok tt;
  Windows.SetValueEx _ _ _ _ := Ok tt;
  Windows.DeleteValue _ _ _ := Ok tt;
  Windows.COMPUTERNAME := Some (py "BUILD-PC")
|}.

Definition willing_environment : Cli.environment := {|
  Cli.sys := willing_os;
  Cli.dll := agreeable_crypt32;
  Cli.resolve text := [text];
  Cli.path_text p := join (py "\") p;
  Cli.service_account _ := Ok tt;
  Cli.executable := [py "python.exe"]
|}.

(** A configuration document with the domain of [sample_state]. *)
Definition sample_config : pyval :=
  PDict [(py "google_credentials", PStr (py "creds.json"));
         (py "domains", PDict [(py "corp", PDict [(py "sheet_id", PStr (py "X"))])])].

(** A world before phase 1: no file, a tab without reservations. *)
Definition sample_world : Cli.world :=
  {| Cli.fs := ∅; Cli.drive := fresh_drive; Cli.trace := []; Cli.stdin := [] |}.

(** A world as phase 2 should find it: the saved state, the
    configuration and the credentials are in place. *)
Definition resumable_world : Cli.world :=
  {| Cli.fs := {[ [py "state.json"] := File (JsonText (State.to_json sample_state));
                  [py "config.json"] := File (JsonText sample_config);
                  [py "creds.json"] := File NotJson ]};
     Cli.drive := fresh_drive; Cli.trace := []; Cli.stdin := [] |}.

Definition sample_post_login : Cli.post_login_args :=
  {| Cli.pl_config := py "config.json"; Cli.pl_google_credentials := None;
     Cli.pl_state := py "state.json"; Cli.pl_no_restart := false |}.

(** A directory that holds the configuration file only. *)
Definition config_files : filesystem :=
  {[ [py "config.json"] := File (JsonText sample_config) ]}.

(** A ledger with reservations of two domains, written in different
    ways, and one sequence cell that is no number. *)
Definition mixed_grid : Sheets.grid :=
  {| Sheets.row_count := 1000; Sheets.col_count := 26;
     Sheets.values :=
       [canonical_header;
        reservation_row (py "corp") 3 (py "003-a") (py "a") (py "2024");
        reservation_row (py "lab") 9 (py "009-b") (py "b") (py "2024");
        reservation_row (py " CORP ") 5 (py "005-c") (py "c") (py "2024");
        [Sheets.CStr (py "corp"); Sheets.CStr (py "n/a"); Sheets.CStr (py "x");
         Sheets.CStr (py "d"); Sheets.CStr (py "Pending"); Sheets.CStr (py "2024");
         Sheets.CStr []]] |}.

Definition mixed_drive : Sheets.drive := {[ (py "X", py "Devices") := mixed_grid ]}.

(** A machine whose registry takes every value and has none of the
    values that are deleted. *)
Definition bare_registry_os : Windows.os := {|
  Windows.IsUserAnAdmin := Ok 1%Z;
  Windows.subprocess_run _ _ := Ok (0%Z, [], []);
  Windows.OpenKey _ _ := Ok tt;
  Windows.SetValueEx _ _ _ _ := Ok tt;
  Windows.DeleteValue _ _ _ := Raise FileNotFoundError;
  Windows.COMPUTERNAME := None
|}.

(** A session that is not elevated. *)
Definition plain_os : Windows.os := {|
  Windows.IsUserAnAdmin := Ok 0%Z;
  Windows.subprocess_run _ _ := Ok (0%Z, [], []);
  Windows.OpenKey _ _ := Ok tt;
  Windows.SetValueEx _ _ _ _ := Ok tt;
  Windows.DeleteValue _ _ _ := Ok tt;
  Windows.COMPUTERNAME := None
|}.

Definition plain_environment : Cli.environment := {|
  Cli.sys := plain_os;
  Cli.dll := agreeable_crypt32;
  Cli.resolve text := [text];
  Cli.path_text p := join (py "\") p;
  Cli.service_account _ := Ok tt;
  Cli.executable := [py "python.exe"]
|}.

(** A world with the configuration and the credentials in place, and a
    tab without reservations. *)
Definition configured_world : Cli.world :=
  {| Cli.fs := {[ [py "config.json"] := File (JsonText sample_config);
                  [py "creds.json"] := File NotJson ]};
     Cli.drive := fresh_drive; Cli.trace := []; Cli.stdin := [] |}.

Definition sample_initial_run : Cli.initial_run_args :=
  {| Cli.ir_config := py "config.json"; Cli.ir_google_credentials := None;
     Cli.ir_domain := py "corp"; Cli.ir_assigned_user := py "Jane Doe";
     Cli.ir_initial_user := py "builder"; Cli.ir_local_admin := py "WorkstationAdmin";
     Cli.ir_state := py "state.json" |}.

(** ** Proof automation *)

(** Linear arithmetic with division and remainder by constants. *)
Ltac div_lia := zify; Z.to_euclidean_division_equations; lia.

(** * Properties *)

(** ** Strings *)

Section StripFacts.
Context `{Runtime}.

Lemma lstrip_by_suffix p s : ∃ pre, s = pre ++ lstrip_by p s ∧ Forall (λ c, p c = true) pre.
Proof.
  induction s as [|c s IH]; simpl.
  - exists []. split; [done | constructor].
  - destruct (p c) eqn:Hc.
    + destruct IH as (pre & Heq & Hall). exists (c :: pre). split.
      * simpl. by rewrite <- Heq.
      * by constructor.
    + exists []. split; [done | constructor].
Qed.

Lemma lstrip_by_head p s c : head (lstrip_by p s) = Some c → p c = false.
Proof.
  induction s as [|a s IH]; simpl; [done|].
  destruct (p a) eqn:Ha; [done|]. simpl. by intros [= <-].
Qed.

Lemma lstrip_by_all p s : Forall (λ c, p c = true) s → lstrip_by p s = [].
Proof. induction 1 as [|c s Hc _ IH]; simpl; [done|]. by rewrite Hc. Qed.

Lemma rstrip_by_prefix p s : ∃ post, s = rstrip_by p s ++ post ∧ Forall (λ c, p c = true) post.
Proof.
  unfold rstrip_by. destruct (lstrip_by_suffix p (rev s)) as (pre & Heq & Hall).
  exists (rev pre). split.
  - rewrite <- rev_app_distr, <- Heq. by rewrite rev_involutive.
  - by apply Forall_rev.
Qed.

Lemma last_rev_head {A} (l : list A) : last (rev l) = head l.
Proof. destruct l as [|a l]; [done|]. simpl. apply last_snoc. Qed.

Lemma rstrip_by_last p s c : last (rstrip_by p s) = Some c → p c = false.
Proof.
  unfold rstrip_by. rewrite last_rev_head. apply lstrip_by_head.
Qed.

Lemma strip_by_decompose p s :
  ∃ pre post, s = pre ++ strip_by p s ++ post
              ∧ Forall (λ c, p c = true) pre ∧ Forall (λ c, p c = true) post.
Proof.
  unfold strip_by.
  destruct (lstrip_by_suffix p s) as (pre & Heq & Hpre).
  destruct (rstrip_by_prefix p (lstrip_by p s)) as (post & Heq' & Hpost).
  exists pre, post. split; [|done]. by rewrite <- Heq'.
Qed.

Lemma strip_by_head p s c : head (strip_by p s) = Some c → p c = false.
Proof.
  unfold strip_by. intros Hh.
  destruct (rstrip_by_prefix p (lstrip_by p s)) as (post & Heq & _).
  apply (lstrip_by_head p s).
  set (r := rstrip_by p (lstrip_by p s)) in *. rewrite Heq.
  destruct r; [done|]. done.
Qed.

Lemma strip_by_last p s c : last (strip_by p s) = Some c → p c = false.
Proof. unfold strip_by. apply rstrip_by_last. Qed.

Lemma strip_by_all p s : Forall (λ c, p c = true) s → strip_by p s = [].
Proof. intros Hs. unfold strip_by, rstrip_by. rewrite (lstrip_by_all p s Hs). reflexivity. Qed.

Lemma strip_by_elem p s c : c ∈ strip_by p s → c ∈ s.
Proof.
  destruct (strip_by_decompose p s) as (pre & post & Heq & _).
  intros Hc. rewrite Heq. set_solver.
Qed.

End StripFacts.

Section SlugFacts.
Context `{Runtime}.

Lemma no_double_hyphen_cons c s :
  no_double_hyphen s → (c = hyphen → head s ≠ Some hyphen) → no_double_hyphen (c :: s).
Proof.
  intros Hs Hc [|i]; simpl.
  - intros [= ->]. destruct s; [done|]. simpl in *. by apply Hc.
  - apply Hs.
Qed.

Lemma no_double_hyphen_infix pre s post :
  no_double_hyphen (pre ++ s ++ post) → no_double_hyphen s.
Proof.
  intros Hall i Hi Hsi.
  apply (Hall (length pre + i)%nat).
  - rewrite lookup_app_r by lia. replace (length pre + i - length pre)%nat with i by lia.
    by apply lookup_app_l_Some.
  - replace (S (length pre + i)) with (length pre + S i)%nat by lia.
    rewrite lookup_app_r by lia. replace (length pre + S i - length pre)%nat with (S i) by lia.
    by apply lookup_app_l_Some.
Qed.

Lemma sub_head_in_match s : head (Config._USER_SLUG_RE_sub (py "-") true s) ≠ Some hyphen.
Proof.
  induction s as [|c s IH]; simpl; [done|].
  destruct (Config.slug_char c) eqn:Hc; [|done].
  simpl. intros [= ->]. done.
Qed.

Lemma sub_chars b s :
  Forall (λ c, Config.slug_char c = true ∨ c = hyphen) (Config._USER_SLUG_RE_sub (py "-") b s).
Proof.
  revert b. induction s as [|c s IH]; intros b; simpl; [constructor|].
  destruct (Config.slug_char c) eqn:Hc.
  - constructor; [by left | apply IH].
  - destruct b; [apply IH|]. constructor; [by right | apply IH].
Qed.

Lemma sub_no_double b s : no_double_hyphen (Config._USER_SLUG_RE_sub (py "-") b s).
Proof.
  revert b. induction s as [|c s IH]; intros b; simpl; [by intros i|].
  destruct (Config.slug_char c) eqn:Hc.
  - apply no_double_hyphen_cons; [apply IH|]. intros ->. done.
  - destruct b; [apply IH|].
    apply (no_double_hyphen_cons hyphen); [apply IH|]. intros _. apply sub_head_in_match.
Qed.

Lemma sub_no_slug_char b s :
  Forall (λ c, Config.slug_char c = false) s →
  Forall (λ c, c = hyphen) (Config._USER_SLUG_RE_sub (py "-") b s).
Proof.
  intros Hs. revert b. induction Hs as [|c s Hc _ IH]; intros b; simpl; [constructor|].
  rewrite Hc. destruct b; [apply IH|]. constructor; [done | apply IH].
Qed.

End SlugFacts.

Section SlugTheorem.
Context `{Runtime}.

Lemma slug_char_ascii_lower c :
  is_ascii c = true → isalnum c = false → Config.slug_char (ascii_lower c) = false.
Proof.
  unfold isalnum, ascii_lower, Config.slug_char. intros ->.
  intros Hc. apply orb_false_elim in Hc as [Hc Hd]. apply orb_false_elim in Hc as [Hu Hl].
  rewrite Hu, Hl, Hd. done.
Qed.

Lemma lower_no_slug_char (s : pystr) :
  (∀ c, 128 ≤ c → db_isalnum c = false →
        Forall (λ d, Config.slug_char d = false) (db_tolower c)) →
  (∀ c, c ∈ s → isalnum c = false) →
  Forall (λ d, Config.slug_char d = false) (lower s).
Proof.
  intros Hdb Hs. apply Forall_forall. intros d Hd.
  unfold lower in Hd. apply list_elem_of_In, in_concat in Hd as (l & Hl & Hd).
  apply list_elem_of_In, elem_of_lookup_imap in Hl as (i & c & -> & Hi).
  apply list_elem_of_In in Hd.
  assert (Hc : isalnum c = false) by (apply Hs; by eapply list_elem_of_lookup_2).
  unfold lower_ucs4 in Hd.
  destruct (is_ascii c) eqn:Ha.
  - apply list_elem_of_singleton in Hd as ->. by apply slug_char_ascii_lower.
  - destruct (c =? 931) eqn:Hsigma.
    + apply list_elem_of_singleton in Hd as ->. by destruct (db_final_sigma s i).
    + unfold isalnum in Hc. rewrite Ha in Hc.
      assert (Hge : 128 ≤ c) by (unfold is_ascii in Ha; apply N.ltb_ge in Ha; lia).
      specialize (Hdb c Hge Hc). rewrite Forall_forall in Hdb. by apply Hdb.
Qed.

(** C10.  For every input, [slugify_user] returns a string that is not
    empty, holds lower-case ASCII letters, digits and hyphens only, has
    no hyphen at either end and no two hyphens in a row.  When no
    character of the input is alphanumeric the result is ["user"]; this
    part rests on the one fact of the Unicode tables it needs: the
    lower-case form of a character that is not alphanumeric holds no
    ASCII letter or digit. *)
Theorem slugify_user_shape (value : pystr) :
  let slug := Config.slugify_user value in
  slug ≠ []
  ∧ Forall (λ c, ascii_islower c = true ∨ ascii_isdigit c = true ∨ c = hyphen) slug
  ∧ head slug ≠ Some hyphen
  ∧ last slug ≠ Some hyphen
  ∧ no_double_hyphen slug
  ∧ ((∀ c, 128 ≤ c → db_isalnum c = false →
            Forall (λ d, Config.slug_char d = false) (db_tolower c)) →
     (∀ c, c ∈ value → isalnum c = false) →
     slug = py "user").
Proof.
  unfold Config.slugify_user.
  set (subbed := Config._USER_SLUG_RE_sub (py "-") false (lower (strip value))).
  set (stripped := strip_chars (py "-") subbed).
  assert (Hp : ∀ c, bool_decide (c ∈ py "-") = false → c ≠ hyphen).
  { intros c Hc ->. by vm_compute in Hc. }
  assert (Hp' : ∀ c, bool_decide (c ∈ py "-") = true → c = hyphen).
  { intros c Hc. apply bool_decide_eq_true in Hc. change (py "-") with [hyphen] in Hc.
    by apply list_elem_of_singleton in Hc. }
  destruct (strip_by_decompose (λ c, bool_decide (c ∈ py "-")) subbed)
    as (pre & post & Heq & Hpre & Hpost).
  fold (strip_chars (py "-") subbed) in Heq. fold stripped in Heq.
  assert (Hchars : Forall (λ c, Config.slug_char c = true ∨ c = hyphen) stripped).
  { pose proof (sub_chars false (lower (strip value))) as Hall. fold subbed in Hall.
    rewrite Heq in Hall. apply Forall_app in Hall as [_ Hall].
    by apply Forall_app in Hall as [Hall _]. }
  assert (Hnd : no_double_hyphen stripped).
  { apply (no_double_hyphen_infix pre stripped post). rewrite <- Heq. apply sub_no_double. }
  assert (Hhead : head stripped ≠ Some hyphen).
  { intros Hh. apply strip_by_head in Hh. by apply Hp in Hh. }
  assert (Hlast : last stripped ≠ Some hyphen).
  { intros Hl. apply strip_by_last in Hl. by apply Hp in Hl. }
  simpl truthy. destruct (bool_decide (stripped = [])) eqn:Hempty; simpl negb; cbv iota.
  - apply bool_decide_eq_true in Hempty.
    split; [by vm_compute|]. split.
    { repeat constructor; vm_compute; tauto. }
    split; [by vm_compute|]. split; [by vm_compute|]. split; [|done].
    intros i. do 5 (destruct i as [|i]; [by vm_compute|]). by vm_compute.
  - apply bool_decide_eq_false in Hempty.
    split; [done|]. split.
    { eapply Forall_impl; [exact Hchars|]. intros c [Hc| ->]; [|tauto].
      unfold Config.slug_char in Hc. apply orb_true_iff in Hc. tauto. }
    split; [done|]. split; [done|]. split; [done|].
    intros Hdb Hvalue. exfalso. apply Hempty.
    unfold stripped, strip_chars. apply strip_by_all.
    eapply Forall_impl; [apply sub_no_slug_char|].
    + apply lower_no_slug_char; [done|]. intros c Hc. apply Hvalue.
      by apply strip_by_elem in Hc.
    + intros c ->. done.
Qed.

End SlugTheorem.

Section IntFacts.
Context `{Runtime}.

Lemma lstrip_by_none p s : Forall (λ c, p c = false) s → lstrip_by p s = s.
Proof. destruct 1 as [|c s Hc _]; simpl; [done|]. by rewrite Hc. Qed.

Lemma strip_by_none p s : Forall (λ c, p c = false) s → strip_by p s = s.
Proof.
  intros Hs. unfold strip_by, rstrip_by. rewrite (lstrip_by_none p s Hs).
  rewrite lstrip_by_none by by apply Forall_rev. apply rev_involutive.
Qed.

Lemma chars_of_uint_digits u : Forall (λ c, ascii_isdigit c = true) (chars_of_uint u).
Proof. induction u; simpl; constructor; done. Qed.

Lemma chars_of_uint_nil u : chars_of_uint u = [] → u = Decimal.Nil.
Proof. by destruct u. Qed.

Lemma parse_digits_chars u :
  u ≠ Decimal.Nil → parse_digits (chars_of_uint u) = Some u.
Proof.
  induction u as [|u IH|u IH|u IH|u IH|u IH|u IH|u IH|u IH|u IH|u IH]; intros Hu; [done|..];
    simpl; (destruct (chars_of_uint u) as [|c' rest'] eqn:Hchars;
      [ by rewrite (chars_of_uint_nil u Hchars)
      | assert (Hd : ascii_isdigit c' = true)
          by (pose proof (chars_of_uint_digits u) as Hall; rewrite Hchars in Hall;
              by inversion Hall);
        assert (Hne : (c' =? 95) = false)
          by (apply N.eqb_neq; intros ->; by vm_compute in Hd);
        rewrite Hne, IH; [done | by intros ->] ]).
Qed.

Lemma digit_facts c :
  ascii_isdigit c = true →
  is_ascii c = true ∧ c_isspace c = false ∧ (c =? 45) = false ∧ (c =? 43) = false
  ∧ (c =? 33) = false ∧ (c =? 58) = false.
Proof.
  unfold ascii_isdigit, is_ascii, c_isspace. intros Hc.
  apply andb_true_iff in Hc as [H1 H2]. apply N.leb_le in H1, H2.
  assert (Hs : (c <=? 13) = false) by (apply N.leb_gt; lia).
  assert (Hb : (c =? 32) = false) by (apply N.eqb_neq; lia).
  rewrite Hs, Hb, andb_false_r.
  split; [apply N.ltb_lt; lia|]. split; [done|].
  repeat split; apply N.eqb_neq; lia.
Qed.

Lemma str_of_N_digits n : Forall (λ c, ascii_isdigit c = true) (str_of_N n).
Proof. apply chars_of_uint_digits. Qed.

Lemma str_of_N_not_nil n : str_of_N n ≠ [].
Proof.
  unfold str_of_N. intros Hn. apply chars_of_uint_nil in Hn.
  destruct n as [|p]; [done|]. simpl in Hn.
  pose proof (DecimalPos.Unsigned.to_uint_nonnil p). done.
Qed.

Lemma to_ascii_decimal_digits s :
  Forall (λ c, ascii_isdigit c = true) s → map to_ascii_decimal s = s.
Proof.
  induction 1 as [|c s Hc _ IH]; simpl; [done|].
  unfold to_ascii_decimal at 1. destruct (digit_facts c Hc) as (-> & _).
  by rewrite IH.
Qed.

Lemma int_of_str_of_N n : int_of_str (str_of_N n) = Ok (Z.of_N n).
Proof.
  pose proof (str_of_N_digits n) as Hd. pose proof (str_of_N_not_nil n) as Hnn.
  unfold int_of_str.
  rewrite (to_ascii_decimal_digits _ Hd). rewrite strip_by_none.
  2:{ eapply Forall_impl; [exact Hd|]. intros c Hc. by destruct (digit_facts c Hc) as (_ & -> & _). }
  destruct (str_of_N n) as [|c rest] eqn:Hs; [done|].
  inversion Hd as [|? ? Hc _]; subst.
  destruct (digit_facts c Hc) as (_ & _ & -> & -> & _).
  rewrite <- Hs. unfold str_of_N. rewrite parse_digits_chars.
  - do 2 f_equal. apply DecimalN.Unsigned.of_to.
  - intros Hnil. unfold str_of_N in Hs. by rewrite Hnil in Hs.
Qed.

Lemma split_no_sep c s : c ∉ s → split c s = [s].
Proof.
  induction s as [|a s IH]; intros Hc; simpl; [done|].
  assert ((a =? c) = false) as -> by (apply N.eqb_neq; set_solver).
  rewrite IH by set_solver. done.
Qed.

Lemma split_app_sep c s1 s2 : c ∉ s1 → split c (s1 ++ c :: s2) = s1 :: split c s2.
Proof.
  induction s1 as [|a s1 IH]; intros Hc; simpl.
  - by rewrite N.eqb_refl.
  - assert ((a =? c) = false) as -> by (apply N.eqb_neq; set_solver).
    rewrite IH by set_solver. done.
Qed.

End IntFacts.

(** ** The ledger *)

Section SheetFacts.
Context `{Runtime}.
Import Sheets.

Lemma str_of_int_of_N n : str_of_int (Z.of_N n) = str_of_N n.
Proof.
  unfold str_of_int. assert ((Z.of_N n <? 0)%Z = false) as -> by (apply Z.ltb_ge; lia).
  f_equal. lia.
Qed.

Lemma a1_sheet_name_no_bang title : 33 ∉ title → 33 ∉ a1_sheet_name title.
Proof.
  intros Ht. unfold a1_sheet_name.
  destruct (forallb is_word_char title && negb (bool_decide (title = []))); [done|].
  intros Hin. apply elem_of_app in Hin as [Hin|Hin]; [by apply list_elem_of_singleton in Hin|].
  apply elem_of_app in Hin as [Hin|Hin]; [|by apply list_elem_of_singleton in Hin].
  unfold replace in Hin. apply list_elem_of_In, in_concat in Hin as (l & Hl & Hin).
  apply in_map_iff in Hl as (c & <- & Hc).
  destruct (c =? 39).
  - simpl in Hin. destruct Hin as [?|[?|[]]]; done.
  - simpl in Hin. destruct Hin as [->|[]]. by apply Ht, list_elem_of_In.
Qed.

Lemma str_of_N_no_sep n c : c ∈ str_of_N n → c ≠ 33 ∧ c ≠ 58.
Proof.
  intros Hc. pose proof (str_of_N_digits n) as Hall. rewrite Forall_forall in Hall.
  destruct (digit_facts c (Hall c Hc)) as (_ & _ & _ & _ & H1 & H2).
  split; by apply N.eqb_neq.
Qed.

Lemma start_cell_parse n :
  (try! start_cell := index (split 58 ((65 :: str_of_N n) ++ 58 :: (71 :: str_of_N n))) 0 in
   int_of_str (tl start_cell))%result = Ok (Z.of_N n).
Proof.
  rewrite (split_app_sep 58 (65 :: str_of_N n) (71 :: str_of_N n)).
  - simpl. apply int_of_str_of_N.
  - intros Hin. apply elem_of_cons in Hin as [Hin|Hin]; [done|].
    apply str_of_N_no_sep in Hin. by destruct Hin.
Qed.

Lemma row_number_parse (prefix : pystr) n :
  33 ∉ prefix →
  (try! sheet_part := index (split 33 (prefix ++ py "!A" ++ str_of_N n ++ py ":G" ++ str_of_N n)) 1 in
   try! start_cell := index (split 58 sheet_part) 0 in
   int_of_str (tl start_cell))%result = Ok (Z.of_N n).
Proof.
  intros Hp.
  change (prefix ++ py "!A" ++ str_of_N n ++ py ":G" ++ str_of_N n)
    with (prefix ++ 33 :: ((65 :: str_of_N n) ++ 58 :: (71 :: str_of_N n))).
  rewrite (split_app_sep 33 prefix) by done.
  rewrite (split_no_sep 33).
  - change (index [prefix; (65 :: str_of_N n) ++ 58 :: 71 :: str_of_N n] 1)
      with (Ok (A:=pystr) ((65 :: str_of_N n) ++ 58 :: 71 :: str_of_N n)).
    unfold rbind at 1. apply start_cell_parse.
  - intros Hin. apply elem_of_app in Hin as [Hin|Hin].
    + apply elem_of_cons in Hin as [Hin|Hin]; [done|].
      apply str_of_N_no_sep in Hin. by destruct Hin.
    + apply elem_of_cons in Hin as [Hin|Hin]; [done|].
      apply elem_of_cons in Hin as [Hin|Hin]; [done|].
      apply str_of_N_no_sep in Hin. by destruct Hin.
Qed.

Lemma ensure_header_blank g :
  values g = [] → values (_ensure_header g) = [canonical_header].
Proof.
  intros Hv. unfold _ensure_header.
  destruct (bool_decide (row_count g = 0%nat)).
  - unfold row_values_1, resize_1. simpl. rewrite Hv. simpl. done.
  - unfold row_values_1. rewrite Hv. simpl. unfold update_A1_G1. rewrite Hv. done.
Qed.

Lemma ensure_header_canonical g rows :
  values g = canonical_header :: rows → (rows = [] ∨ row_count g ≠ 0%nat) →
  values (_ensure_header g) = canonical_header :: rows.
Proof.
  intros Hv Hr. unfold _ensure_header.
  destruct (bool_decide (row_count g = 0%nat)) eqn:Hc.
  - apply bool_decide_eq_true in Hc. destruct Hr as [->|]; [|done].
    unfold row_values_1, resize_1. simpl. rewrite Hv. simpl. done.
  - unfold row_values_1. rewrite Hv. simpl. done.
Qed.

Lemma ensure_header_row_count g : row_count (_ensure_header g) ≠ 0%nat.
Proof.
  unfold _ensure_header.
  destruct (bool_decide (row_count g = 0%nat)) eqn:Hc.
  - match goal with |- context [bool_decide ?P] => destruct (bool_decide P) end; simpl; lia.
  - apply bool_decide_eq_false in Hc.
    match goal with |- context [bool_decide ?P] => destruct (bool_decide P) end; simpl; lia.
Qed.

Lemma ensure_header_empty g :
  empty_ledger g → values (_ensure_header g) = [canonical_header].
Proof.
  intros [Hv|Hv]; [by apply ensure_header_blank|].
  apply ensure_header_canonical; [done | by left].
Qed.

Lemma ensure_header_empty_again g :
  empty_ledger g → empty_ledger (_ensure_header g).
Proof. intros Hg. right. by apply ensure_header_empty. Qed.

(** What [reserve_read] finds on a tab without reservations. *)
Lemma reserve_read_empty (domain key title : pystr) (factory : Z → result pystr)
    (d : drive) (g : grid) (hostname : pystr) :
  d !! (key, title) = Some g →
  empty_ledger g →
  factory 1%Z = Ok hostname →
  reserve_read domain (PStr key) (PStr title) factory d
  = (<[(key, title) := _ensure_header g]> d, Ok (key, title, 1%Z, hostname)).
Proof.
  intros Hd Hg Hf. unfold reserve_read, _worksheet. rewrite Hd.
  rewrite lookup_insert_eq. unfold get_all_records.
  rewrite (ensure_header_empty g Hg). simpl. change (0 + 1)%Z with 1%Z. by rewrite Hf.
Qed.

(** What [reserve_append] answers when the title has no exclamation
    mark. *)
Lemma reserve_append_ok (timestamp domain user key title : pystr) (next_seq : Z)
    (hostname : pystr) (d : drive) (g : grid) :
  d !! (key, title) = Some g →
  33 ∉ title →
  reserve_append timestamp domain user (key, title) next_seq hostname d
  = (<[(key, title) :=
        {| row_count := Nat.max (S (length (values g))) (row_count g);
           col_count := Nat.max 7 (col_count g);
           values := values g ++ [[CStr domain; CInt next_seq; CStr hostname; CStr user;
                                   CStr (py "Pending"); CStr timestamp; CStr []]] |}]> d,
     Ok (next_seq, hostname,
         title ++ py "!A" ++ str_of_N (N.of_nat (S (length (values g))))
               ++ py ":G" ++ str_of_N (N.of_nat (S (length (values g)))))).
Proof.
  intros Hd Ht. unfold reserve_append. rewrite Hd. unfold append_row.
  f_equal.
  pose proof (row_number_parse (a1_sheet_name title) (N.of_nat (S (length (values g))))
                (a1_sheet_name_no_bang title Ht)) as Hparse.
  set (range := a1_sheet_name title ++ _) in *.
  destruct (index (split 33 range) 1) as [sheet_part|e]; [|done].
  cbn [rbind] in Hparse |- *.
  destruct (index (split 58 sheet_part) 0) as [start_cell|e]; [|done].
  cbn [rbind] in Hparse |- *. rewrite Hparse. cbn [rbind].
  by rewrite str_of_int_of_N.
Qed.

End SheetFacts.

Section Scenario.
Context `{Runtime}.
Import Sheets.

(** C8.  A domain configured with the key [sheet_id] set to ["X"] and the
    template ["{seq:03d}-{user}"] gets the tab ["Devices"] by default; for
    the assigned user ["Jane Doe"], the reservation of phase 1 on a tab
    without reservations puts the slug ["jane-doe"] in the host name and
    returns sequence 1, host name ["001-jane-doe"] and the reference
    ["Devices!A2:G2"], which is row 2 of the tab, where the new row now
    stands below the header. *)
Theorem reserve_jane_doe (timestamp domain : pystr) (w : Cli.world) (g : grid) :
  Cli.drive w !! (py "X", py "Devices") = Some g →
  empty_ledger g →
  Config.load_domain ∅ (domain, template_entry)
  = Ok {[ lower domain := template_config domain ]}
  ∧ ∃ w' g',
      Cli.reserve_hostname timestamp (template_config domain) domain (py "Jane Doe") w
      = (w', Ok (py "jane-doe", (1%Z, py "001-jane-doe", py "Devices!A2:G2")))
      ∧ Cli.drive w' !! (py "X", py "Devices") = Some g'
      ∧ values g' = [canonical_header;
                     reservation_row domain 1 (py "001-jane-doe") (py "jane-doe") timestamp].
Proof.
  intros Hd Hg. split; [reflexivity|].
  unfold Cli.reserve_hostname, Cli.bind, Cli.on_drive, Cli.ret, reserve_name.
  change (Config.slugify_user (py "Jane Doe")) with (py "jane-doe").
  rewrite (reserve_read_empty domain (py "X") (py "Devices") _ _ g (py "001-jane-doe") Hd Hg);
    [|reflexivity].
  erewrite reserve_append_ok;
    [|apply lookup_insert_eq | apply (bool_decide_unpack _); by vm_compute].
  rewrite (ensure_header_empty g Hg).
  eexists _, _. split; [reflexivity|]. simpl. split; [apply lookup_insert_eq | reflexivity].
Qed.

End Scenario.

Section Race.
Context `{Runtime}.
Import Sheets Callers.

(** A whole call is its two requests one after the other. *)
Lemma run_as_requests (c : call) (d : drive) :
  match advance (Start c) d with
  | Some (d1, Returned r) => run c d = (d1, r)
  | Some (d1, t) =>
      ∃ d2 r, advance t d1 = Some (d2, Returned r) ∧ run c d = (d2, r)
  | None => False
  end.
Proof.
  unfold run, reserve_name, advance.
  destruct (reserve_read _ _ _ _ d) as [d1 [[[[key title] next_seq] hostname]|e]]; [|done].
  destruct (reserve_append _ _ _ _ _ _ d1) as [d2 r]. by exists d2, r.
Qed.

(** C4.  Two calls of [reserve_name] for the same domain and the same
    tab, a tab without reservations, can be interleaved (both read, then
    both append) so that both return sequence 1 and the tab ends with two
    rows of sequence 1: the read and the append of a call are not one
    step. *)
Theorem reserve_name_race (a b : call) (key title : pystr) (d : drive) (g : grid)
    (hostname_a hostname_b : pystr) :
  domain a = domain b →
  sheet_id a = PStr key → worksheet a = PStr title →
  sheet_id b = PStr key → worksheet b = PStr title →
  33 ∉ title →
  d !! (key, title) = Some g →
  empty_ledger g →
  hostname_factory a 1%Z = Ok hostname_a →
  hostname_factory b 1%Z = Ok hostname_b →
  ∃ d' ref_a ref_b g',
    rtc step (d, [Start a; Start b])
             (d', [Returned (Ok (1%Z, hostname_a, ref_a));
                   Returned (Ok (1%Z, hostname_b, ref_b))])
    ∧ d' !! (key, title) = Some g'
    ∧ values g' =
        [canonical_header;
         reservation_row (domain a) 1 hostname_a (assigned_user a) (timestamp a);
         reservation_row (domain b) 1 hostname_b (assigned_user b) (timestamp b)].
Proof.
  intros Hdom Hka Hta Hkb Htb Hbang Hd Hg Hfa Hfb.
  pose proof (ensure_header_empty_again g Hg) as Hg1.
  pose proof (ensure_header_empty _ Hg1) as Hv2.
  eexists _, _, _, _. split; [|split].
  - eapply rtc_l.
    { eapply (step_thread _ _ 0); [reflexivity|]. unfold advance. rewrite Hka, Hta.
      rewrite (reserve_read_empty _ _ _ _ _ g hostname_a Hd Hg Hfa). reflexivity. }
    eapply rtc_l.
    { eapply (step_thread _ _ 1); [reflexivity|]. unfold advance. rewrite Hkb, Htb.
      rewrite (reserve_read_empty _ _ _ _ _ (_ensure_header g) hostname_b
                 (lookup_insert_eq _ _ _) Hg1 Hfb). reflexivity. }
    eapply rtc_l.
    { eapply (step_thread _ _ 0); [reflexivity|]. unfold advance.
      erewrite reserve_append_ok; [reflexivity | apply lookup_insert_eq | done]. }
    eapply rtc_l.
    { eapply (step_thread _ _ 1); [reflexivity|]. unfold advance.
      erewrite reserve_append_ok; [reflexivity | apply lookup_insert_eq | done]. }
    apply rtc_refl.
  - apply lookup_insert_eq.
  - cbn [values]. rewrite Hv2. reflexivity.
Qed.

End Race.

Section ScanFacts.
Context `{Runtime}.
Import Sheets.



(** A row whose sequence cell [int] rejects with [ValueError] leaves the
    maximum as it is. *)
Lemma scan_row_skips (domain_lower : pystr) (max_seq : Z) (row : gmap pystr cell) :
  int_of_cell (row_get row (py "Sequence") (CInt 0)) = Raise ValueError →
  scan_row domain_lower max_seq row = Ok max_seq.
Proof. intros Hv. unfold scan_row. rewrite Hv. by destruct (str_eqb _ _). Qed.


End ScanFacts.

Section Sequence.
Context `{Runtime}.
Import Sheets Callers.


Lemma reserved_rows_length domain rows k : reserved_rows domain rows k → length rows = k.
Proof. intros Hr. apply Forall2_length in Hr. by rewrite length_seq in Hr. Qed.







End Sequence.

Section Evaluations.
Context `{Runtime}.
Import Sheets Callers.

(** C2 (the code departs from the claim).  The claim is that N calls in
    a row for the same domain on an empty ledger return 1, 2, ..., N.
    The rows are compared after [strip] and [lower], the argument after
    [lower] only: for the domain [" corp"], written with a blank in
    front, no row ever matches, and two calls in a row both return
    sequence 1 and leave two rows numbered 1 on the tab.  For a domain
    without white space around it the claim holds:
    [reserve_name_sequence]. *)
Theorem reserve_name_padded_domain_repeats :
  (run_all [padded_call (py "jane"); padded_call (py "joe")] fresh_drive).2
  = [Ok (1%Z, py "1-jane", py "Devices!A2:G2");
     Ok (1%Z, py "1-joe", py "Devices!A3:G3")]
  ∧ values <$> (run_all [padded_call (py "jane"); padded_call (py "joe")] fresh_drive).1
                 !! (py "X", py "Devices")
    = Some [canonical_header;
            reservation_row (py " corp") 1 (py "1-jane") (py "jane")
              (py "2025-01-01T00:00:00+00:00");
            reservation_row (py " corp") 1 (py "1-joe") (py "joe")
              (py "2025-01-01T00:00:00+00:00")].
Proof. split; vm_compute; reflexivity. Qed.

(** C6 (the code departs from the claim).  The claim is that a row whose
    sequence is not a valid nonnegative integer is skipped and never
    fatal.  The handler of the loop catches [ValueError] only: a sequence
    cell that reads [inf], which arrives as an infinite float, makes
    [int] raise [OverflowError] and [reserve_name] fail; and a cell that
    holds 3.5 is not skipped but counted as 3, so that the call returns
    4.  Cells that [int] rejects with [ValueError] are skipped:
    [scan_row_skips], [scan_rows_max]. *)
Theorem reserve_name_infinite_sequence :
  (reserve_name (py "2025") (py "corp") (py "jane") (PStr (py "X")) (PStr (py "Devices"))
     (fun n => Ok (str_of_int n)) infinite_drive).2 = Raise OverflowError
  ∧ (reserve_name (py "2025") (py "corp") (py "jane") (PStr (py "X")) (PStr (py "Devices"))
       (fun n => Ok (str_of_int n)) fractional_drive).2
    = Ok (4%Z, py "4", py "Devices!A3:G3").
Proof. split; vm_compute; reflexivity. Qed.

End Evaluations.

(** ** The state file *)

Section StateFacts.
Import State.

Lemma from_json_to_json (st : SetupState) : from_json (to_json st) = Ok st.
Proof. destruct st as [? ? ? ? ? ? ? ? ? []]. reflexivity. Qed.

Lemma node_at_insert (fs : filesystem) (p : path) (n : node) :
  p ≠ [] → node_at (<[p := n]> fs) p = Some n.
Proof. intros Hp. destruct p; [done|]. simpl. apply lookup_insert_eq. Qed.

Lemma open_write_ok (fs fs' : filesystem) (p : path) (c : content) :
  open_write fs p c = (fs', Ok tt) → node_at fs' p = Some (File c).
Proof.
  unfold open_write. destruct (node_at fs (parent p)) as [[|]|]; try by intros [=].
  destruct (node_at fs p) as [[|]|] eqn:Hn; intros [= <-]; try (destruct p; [done|]; apply lookup_insert_eq).
Qed.

(** C3.  [from_json] after [to_json] gives back every state; and when
    [save_state] has written a state to a path, [load_state] of that path
    returns the state that was saved. *)
Theorem save_then_load (st : SetupState) :
  from_json (to_json st) = Ok st
  ∧ ∀ (p q : path) (fs fs' : filesystem),
      save_state st p fs = (fs', Ok q) → q = p ∧ load_state p fs' = Ok st.
Proof.
  split; [apply from_json_to_json|].
  intros p q fs fs'. unfold save_state.
  destruct (mkdir STATE_DIR fs) as [fs1 [[]|e]]; [|by intros [=]].
  destruct (open_write fs1 p (JsonText (to_json st))) as [fs2 [[]|e]] eqn:Hw; [|by intros [=]].
  intros [= <- <-]. split; [done|].
  unfold load_state, open_read. rewrite (open_write_ok _ _ _ _ Hw). simpl.
  apply from_json_to_json.
Qed.

Lemma save_then_load_witness :
  (save_state sample_state STATE_FILE ∅).2 = Ok STATE_FILE
  ∧ load_state STATE_FILE (save_state sample_state STATE_FILE ∅).1 = Ok sample_state.
Proof.
  assert (Hsaved : (save_state sample_state STATE_FILE ∅).2 = Ok STATE_FILE)
    by (vm_compute; reflexivity).
  split; [exact Hsaved|].
  apply (proj2 (save_then_load sample_state) STATE_FILE STATE_FILE ∅).
  rewrite <- Hsaved. apply surjective_pairing.
Defined.

(** X4.  On the default path [save_state] succeeds unless a file stands
    where one of the two directories should be, or a directory where the
    state file should be. *)
Lemma save_state_default (st : SetupState) (fs : filesystem) :
  (∀ c, fs !! [py "ProgramData"] ≠ Some (File c)) →
  (∀ c, fs !! STATE_DIR ≠ Some (File c)) →
  fs !! STATE_FILE ≠ Some Dir →
  ∃ fs', save_state st STATE_FILE fs = (fs', Ok STATE_FILE).
Proof.
  intros Hroot Hdir Hfile.
  assert (Hne1 : STATE_DIR ≠ STATE_FILE) by done.
  assert (Hne2 : [py "ProgramData"] ≠ STATE_FILE) by done.
  assert (Hne3 : [py "ProgramData"] ≠ STATE_DIR) by done.
  unfold save_state, mkdir, open_write.
  change (parent STATE_FILE) with STATE_DIR.
  change (rev STATE_DIR) with [py "ComputerSetup"; py "ProgramData"].
  cbn [mkdir_rev]. change (rev [py "ComputerSetup"; py "ProgramData"]) with STATE_DIR.
  change (rev [py "ProgramData"]) with [py "ProgramData"].
  change (rev []) with (@nil pystr).
  change (node_at fs STATE_DIR) with (fs !! STATE_DIR).
  change (node_at fs [py "ProgramData"]) with (fs !! [py "ProgramData"]).
  cbn [node_at].
  destruct (fs !! STATE_DIR) as [[c|]|] eqn:Hd.
  - by destruct (Hdir c).
  - change (node_at fs STATE_DIR) with (fs !! STATE_DIR). rewrite Hd.
    change (node_at fs STATE_FILE) with (fs !! STATE_FILE).
    destruct (fs !! STATE_FILE) as [[c|]|]; [by eexists|done|by eexists].
  - destruct (fs !! [py "ProgramData"]) as [[c|]|] eqn:Hr.
    + by destruct (Hroot c).
    + change (node_at ?m STATE_DIR) with (m !! STATE_DIR).
      rewrite lookup_insert_eq.
      change (node_at ?m STATE_FILE) with (m !! STATE_FILE).
      rewrite lookup_insert_ne by done.
      destruct (fs !! STATE_FILE) as [[c|]|]; [by eexists|done|by eexists].
    + change (node_at ?m STATE_DIR) with (m !! STATE_DIR).
      rewrite lookup_insert_eq.
      change (node_at ?m STATE_FILE) with (m !! STATE_FILE).
      rewrite !lookup_insert_ne by done.
      destruct (fs !! STATE_FILE) as [[c|]|]; [by eexists|done|by eexists].
Qed.

Lemma load_state_missing (p : path) (fs : filesystem) :
  node_at fs p = None → load_state p fs = Raise FileNotFoundError.
Proof. intros Hn. unfold load_state, open_read. by rewrite Hn. Qed.

Lemma load_state_directory (p : path) (fs : filesystem) :
  node_at fs p = Some Dir → load_state p fs = Raise PermissionError.
Proof. intros Hn. unfold load_state, open_read. by rewrite Hn. Qed.

Lemma node_at_delete (fs : filesystem) (p : path) :
  p ≠ [] → node_at (delete p fs) p = None.
Proof. intros Hp. destruct p; [done|]. simpl. apply lookup_delete_eq. Qed.

Lemma exists_spec (fs : filesystem) (p : path) :
  exists_ fs p = true ↔ is_Some (node_at fs p).
Proof. unfold exists_. apply bool_decide_eq_true. Qed.

(** C7.  [clear_state] on a path where nothing is does not raise and
    changes nothing; clearing twice is the same as clearing once, both in
    the files left and in the outcome; and after [clear_state],
    [load_state] of the same path fails with one of the [StateError]
    exceptions instead of returning a state. *)
Theorem clear_state_idempotent (p : path) (fs : filesystem) :
  (node_at fs p = None → clear_state p fs = (fs, Ok tt))
  ∧ clear_state p (clear_state p fs).1 = clear_state p fs
  ∧ ∃ e, load_state p (clear_state p fs).1 = Raise e ∧ StateError e.
Proof.
  unfold clear_state, unlink.
  destruct (node_at fs p) as [[c|]|] eqn:Hn.
  - assert (Hp : p ≠ []) by (intros ->; done).
    assert (He : exists_ fs p = true) by (apply exists_spec; by rewrite Hn).
    rewrite He. simpl.
    assert (He' : exists_ (delete p fs) p = false).
    { apply not_true_is_false. rewrite exists_spec, node_at_delete by done.
      by intros [? [=]]. }
    rewrite He'. split; [done|]. split; [done|].
    exists FileNotFoundError. split; [|done]. apply load_state_missing.
    by apply node_at_delete.
  - assert (He : exists_ fs p = true) by (apply exists_spec; by rewrite Hn).
    rewrite He. simpl. rewrite He, Hn. split; [done|]. split; [done|].
    exists PermissionError. split; [|done]. by apply load_state_directory.
  - assert (He : exists_ fs p = false).
    { apply not_true_is_false. rewrite exists_spec, Hn. by intros [? [=]]. }
    rewrite He. simpl. rewrite He. split; [done|]. split; [done|].
    exists FileNotFoundError. split; [|done]. by apply load_state_missing.
Qed.

Lemma clear_state_idempotent_witness :
  clear_state STATE_FILE ∅ = (∅, Ok tt).
Proof.
  apply (proj1 (clear_state_idempotent STATE_FILE ∅)). reflexivity.
Defined.








End StateFacts.

Section StateCounterexample.
Import State.


End StateCounterexample.

Section SecurityFacts.
Import Security.

(** Whatever the library answers, the comparison of its result with
    [BOOL(True)] sends [protect_string] to [_raise_last_error]. *)
Lemma protect_string_raises (dll : crypt32) (secret : pyval) :
  ∃ e, protect_string dll secret = Raise e.
Proof.
  unfold protect_string. destruct secret as [| | | |s| |]; try by eexists.
  destruct (utf16le_encode s) as [data|e]; cbn [rbind]; [|by eexists].
  destruct (CryptProtectData dll _ _ _) as [result out_blob].
  unfold int_ne_c_long, _raise_last_error. by eexists.
Qed.

Lemma unprotect_string_raises (dll : crypt32) (token : pyval) :
  ∃ e, unprotect_string dll token = Raise e.
Proof.
  unfold unprotect_string. destruct token as [| | | |s| |]; try by eexists.
  destruct (ascii_encode s) as [encoded|e]; cbn [rbind]; [|by eexists].
  destruct (b64decode encoded) as [raw|e]; cbn [rbind]; [|by eexists].
  destruct (CryptUnprotectData dll _ _) as [result out_blob].
  unfold int_ne_c_long, _raise_last_error. by eexists.
Qed.

(** Even with a library that succeeds, the error raised is the saved
    error code, here 0. *)
Example protect_string_agreeable :
  protect_string agreeable_crypt32 (PStr (py "s3cret")) = Raise (OSError 0).
Proof. reflexivity. Qed.

(** C1 (the code departs from the claim).  The claim is that
    [unprotect_string(protect_string(s))] is [s] for every string [s].
    In the code, for every behaviour of the data protection library and
    every string, [protect_string] raises, and so does [unprotect_string]
    on every token: protecting and then unprotecting never returns [s]. *)
Theorem protect_then_unprotect_fails (dll : crypt32) (s : pystr) :
  (∃ e, protect_string dll (PStr s) = Raise e)
  ∧ (∀ token, ∃ e, unprotect_string dll token = Raise e)
  ∧ (try! token := protect_string dll (PStr s) in
     unprotect_string dll (PStr token))%result ≠ Ok s.
Proof.
  split; [apply protect_string_raises|]. split; [apply unprotect_string_raises|].
  by destruct (protect_string_raises dll (PStr s)) as [e ->].
Qed.

End SecurityFacts.

Section CliFacts.
Context `{Runtime} (env : Cli.environment).
Import Cli.

(** [_post_login] raises in every run before it changes anything: at the
    latest in [unprotect_string], which comes before the removal. *)
Lemma post_login_raises (timestamp : pystr) (args : post_login_args) (w : world) :
  ∃ e, _post_login env timestamp args w = (w, Raise e).
Proof.
  unfold _post_login, bind, lift.
  destruct (Windows.require_elevated (sys env)) as [[]|e]; [|by eexists].
  destruct (State.load_state _ _) as [state|e]; [|by eexists].
  unfold _resolve_config.
  destruct (negb (exists_ (fs w) _)); [by eexists|].
  destruct (Config.load_config _ _) as [config|e]; [|by eexists].
  destruct (Config.get_domain _ _) as [domain_config|e]; [|by eexists].
  destruct (_resolve_credentials_path _ _) as [google_creds|e]; [|by eexists].
  unfold SheetsClient.
  destruct (negb (exists_ (fs w) _)); [by eexists|].
  destruct (service_account env _) as [[]|e]; [|by eexists].
  destruct (unprotect_string_raises (dll env) (State.domain_password (State.secrets state)))
    as [e ->].
  by eexists.
Qed.

(** X22.  The guard of the removal in [_post_login]: with two account
    names that are strings, the removal script for the build user is run
    exactly when the names differ once put in lower case, and nothing
    else is asked of the machine. *)
Lemma remove_build_user_guard (state : State.SetupState) (initial admin : pystr) (w : world) :
  State.initial_user state = PStr initial →
  State.local_admin_user state = PStr admin →
  trace (remove_build_user env state w).1 =
    if bool_decide (lower initial = lower admin) then trace w
    else trace w ++ [Windows.Run (Windows.powershell_argv
                       (join (py "; ")
                          (Windows.remove_local_user_commands (replace 39 [39; 39] initial))))].
Proof.
  intros Hi Ha. unfold remove_build_user, bind, lift, ret. rewrite Hi, Ha. cbn [as_str].
  unfold str_eqb. destruct (bool_decide (lower initial = lower admin)); cbn [negb]; [done|].
  unfold on_machine, Windows.remove_local_user, Windows.then_, Windows.lift,
    Windows._escape_single_quotes. cbn [as_str rbind].
  unfold Windows._run_powershell.
  by destruct (Windows.subprocess_run _ _ _) as [[[? ?] ?]|].
Qed.

End CliFacts.

(** C9 (the code departs from the claim).  The claim is that phase 2
    removes the temporary account exactly when its name differs, without
    regard to case, from the administrator's.  In the code, [_post_login]
    raises in every run and leaves the world, and with it the log of
    what was asked of the machine, as it was: no account is removed,
    whatever the two names are.  So it is in a world where all is in
    place for phase 2 and the two names, [builder] and
    [WorkstationAdmin], differ: the run ends in [unprotect_string] with
    the error code 0 of a call that succeeded. *)
Theorem post_login_stops_before_removal :
  (∀ (rt : Runtime) (env : Cli.environment) (timestamp : pystr)
     (args : Cli.post_login_args) (w : Cli.world),
     ∃ e, Cli._post_login env timestamp args w = (w, Raise e))
  ∧ @lower ascii_runtime (py "builder") ≠ @lower ascii_runtime (py "WorkstationAdmin")
  ∧ @Cli._post_login ascii_runtime willing_environment (py "2025-01-01T00:00:00+00:00")
      sample_post_login resumable_world
    = (resumable_world, Raise (OSError 0)).
Proof.
  split; [intros rt env timestamp args w; apply post_login_raises|].
  split; [by vm_compute|].
  destruct (@post_login_raises ascii_runtime willing_environment
              (py "2025-01-01T00:00:00+00:00") sample_post_login resumable_world)
    as [e He].
  rewrite He. f_equal.
  assert (Hsnd : (@Cli._post_login ascii_runtime willing_environment
                    (py "2025-01-01T00:00:00+00:00") sample_post_login resumable_world).2
                 = Raise (OSError 0)) by (vm_compute; reflexivity).
  rewrite He in Hsnd. exact Hsnd.
Qed.

(** ** The theorems at sample inputs *)

Section Witnesses.
Local Existing Instance ascii_runtime.

Lemma ascii_runtime_lower_law (c : N) :
  128 ≤ c → db_isalnum c = false →
  Forall (λ d, Config.slug_char d = false) (db_tolower c).
Proof.
  intros Hc _. cbn. constructor; [|constructor].
  unfold Config.slug_char, ascii_islower, ascii_isdigit.
  assert ((c <=? 122) = false) as -> by (apply N.leb_gt; lia).
  assert ((c <=? 57) = false) as -> by (apply N.leb_gt; lia).
  by rewrite !andb_false_r.
Qed.

Lemma slugify_user_shape_witness : Config.slugify_user (py " ?! ") = py "user".
Proof.
  apply (slugify_user_shape (py " ?! ")).
  - exact ascii_runtime_lower_law.
  - intros c Hc.
    repeat (apply elem_of_cons in Hc as [->|Hc]; [reflexivity|]).
    by apply elem_of_nil in Hc.
Defined.

Lemma reserve_jane_doe_witness :
  ∃ w' g',
    Cli.reserve_hostname (py "2025-01-01T00:00:00+00:00") (template_config (py "corp"))
      (py "corp") (py "Jane Doe") sample_world
    = (w', Ok (py "jane-doe", (1%Z, py "001-jane-doe", py "Devices!A2:G2")))
    ∧ Cli.drive w' !! (py "X", py "Devices") = Some g'
    ∧ Sheets.values g' =
        [canonical_header;
         reservation_row (py "corp") 1 (py "001-jane-doe") (py "jane-doe")
           (py "2025-01-01T00:00:00+00:00")].
Proof.
  apply (reserve_jane_doe (py "2025-01-01T00:00:00+00:00") (py "corp") sample_world fresh_grid).
  - apply lookup_singleton_eq.
  - left. reflexivity.
Defined.

Lemma reserve_name_race_witness :
  ∃ d' ref_a ref_b g',
    rtc Callers.step
      (fresh_drive, [Callers.Start (sample_call (py "corp") (py "jane"));
                     Callers.Start (sample_call (py "corp") (py "joe"))])
      (d', [Callers.Returned (Ok (1%Z, py "1-jane", ref_a));
            Callers.Returned (Ok (1%Z, py "1-joe", ref_b))])
    ∧ d' !! (py "X", py "Devices") = Some g'
    ∧ Sheets.values g' =
        [canonical_header;
         reservation_row (py "corp") 1 (py "1-jane") (py "jane")
           (py "2025-01-01T00:00:00+00:00");
         reservation_row (py "corp") 1 (py "1-joe") (py "joe")
           (py "2025-01-01T00:00:00+00:00")].
Proof.
  apply (reserve_name_race (sample_call (py "corp") (py "jane"))
           (sample_call (py "corp") (py "joe")) (py "X") (py "Devices")
           fresh_drive fresh_grid (py "1-jane") (py "1-joe"));
    [reflexivity | reflexivity | reflexivity | reflexivity | reflexivity
    | apply (bool_decide_unpack _); vm_compute; exact I
    | apply lookup_singleton_eq
    | left; reflexivity
    | reflexivity
    | reflexivity].
Defined.

(** Three calls in a row for a domain without white space around it. *)
Example reserve_name_sequence_example :
  (Callers.run_all [sample_call (py "corp") (py "jane");
                    sample_call (py "corp") (py "joe");
                    sample_call (py "corp") (py "ann")] fresh_drive).2
  = [Ok (1%Z, py "1-jane", py "Devices!A2:G2");
     Ok (2%Z, py "2-joe", py "Devices!A3:G3");
     Ok (3%Z, py "3-ann", py "Devices!A4:G4")].
Proof. vm_compute. reflexivity. Qed.

End Witnesses.

(** ** The built-ins on sample inputs

    The values are those the interpreter gives. *)

Section Examples.
Local Existing Instance ascii_runtime.

Example str_format_examples :
  str_format (py "{seq:03d}-{user}") 1 (py "jane-doe") = Ok (py "001-jane-doe")
  ∧ str_format (py "{seq:03d}-{user}") (-7) (py "u") = Ok (py "-07-u")
  ∧ str_format (py "{seq:5d}|a}}b{{c") (-7) (py "u") = Ok (py "   -7|a}b{c")
  ∧ str_format (py "{seq:010d}{seq:0d}{seq:05}") 12345 (py "u")
    = Ok (py "00000123451234512345")
  ∧ str_format (py "{seq") 1 (py "u") = Raise ValueError
  ∧ str_format (py "}") 1 (py "u") = Raise ValueError
  ∧ str_format (py "{}") 1 (py "u") = Raise IndexError.
Proof. repeat split; reflexivity. Qed.

Example int_of_str_examples :
  map int_of_str [py " 12 "; py "1_000"; py "-5"; py "+5"; py "00012";
                  py "1__0"; py "_1"; py "1_"; py "+ 5"; py ""; py "abc"; py "1 2"]
  = [Ok 12; Ok 1000; Ok (-5); Ok 5; Ok 12;
     Raise ValueError; Raise ValueError; Raise ValueError; Raise ValueError;
     Raise ValueError; Raise ValueError; Raise ValueError]%Z.
Proof. reflexivity. Qed.

Example int_of_float_examples :
  Sheets.int_of_float (S754_finite false 7 (-1)) = Ok 3%Z
  ∧ Sheets.int_of_float (S754_finite true 5 (-1)) = Ok (-2)%Z
  ∧ Sheets.int_of_float (S754_finite false 3 2) = Ok 12%Z
  ∧ Sheets.int_of_float S754_nan = Raise ValueError
  ∧ Sheets.int_of_float (S754_infinity false) = Raise OverflowError.
Proof. repeat split; reflexivity. Qed.

Example split_examples :
  split 33 (py "a!b!c") = [py "a"; py "b"; py "c"]
  ∧ split 33 [] = [[]]
  ∧ split 33 (py "!") = [[]; []].
Proof. repeat split; reflexivity. Qed.

Example str_of_int_examples :
  str_of_int (-120) = py "-120" ∧ str_of_int 0 = py "0".
Proof. split; reflexivity. Qed.

Example strip_examples :
  strip (py "  a b ") = py "a b"
  ∧ strip_chars (py "-") (py "--a--b-") = py "a--b".
Proof. split; reflexivity. Qed.

Example lower_example : lower (py "Jane DOE") = py "jane doe".
Proof. reflexivity. Qed.

Example slugify_user_examples :
  Config.slugify_user (py "  Jane  Doe!! ") = py "jane-doe"
  ∧ Config.slugify_user (py "J.R.R. Tolkien") = py "j-r-r-tolkien"
  ∧ Config.slugify_user (py " !! ") = py "user".
Proof. repeat split; reflexivity. Qed.

Example b64_examples :
  Security.b64encode (map Security.byte_of_N (py "any carnal pleas"))
  = py "YW55IGNhcm5hbCBwbGVhcw=="
  ∧ Security.b64decode (map Security.byte_of_N (py "YW55IGNhcm5hbCBwbGVhcw=="))
    = Ok (map Security.byte_of_N (py "any carnal pleas"))
  ∧ Security.b64decode (map Security.byte_of_N (py "YW55IGNhcm5hbCBwbGVhc3U="))
    = Ok (map Security.byte_of_N (py "any carnal pleasu"))
  ∧ Security.b64decode (map Security.byte_of_N (py "YW5")) = Raise Base64Error.
Proof. repeat split; reflexivity. Qed.

Example utf16le_examples :
  rbind (Security.utf16le_encode [104; 233; 128512]) Security.utf16le_decode
  = Ok [104; 233; 128512]
  ∧ Security.utf16le_encode [55296] = Raise UnicodeEncodeError.
Proof. split; reflexivity. Qed.

End Examples.

(** * Further properties of the code *)

Section SlugAgain.
Context `{Runtime}.

Lemma lstrip_by_keeps p s : (∀ c, head s = Some c → p c = false) → lstrip_by p s = s.
Proof. destruct s as [|c s]; [done|]. intros Hc. simpl. by rewrite (Hc c). Qed.

Lemma head_rev_last {A} (l : list A) : head (rev l) = last l.
Proof. rewrite <- (rev_involutive l) at 2. by rewrite last_rev_head. Qed.

Lemma strip_by_keeps p s :
  (∀ c, head s = Some c → p c = false) → (∀ c, last s = Some c → p c = false) →
  strip_by p s = s.
Proof.
  intros Hh Hl. unfold strip_by, rstrip_by. rewrite (lstrip_by_keeps p s Hh).
  rewrite lstrip_by_keeps; [apply rev_involutive|].
  intros c. rewrite head_rev_last. apply Hl.
Qed.

(** What is left of a substituted string once the hyphens at its ends
    are stripped. *)
Lemma slug_stripped_facts (s : pystr) :
  let t := strip_chars (py "-") (Config._USER_SLUG_RE_sub (py "-") false s) in
  Forall (λ c, Config.slug_char c = true ∨ c = hyphen) t
  ∧ head t ≠ Some hyphen ∧ last t ≠ Some hyphen ∧ no_double_hyphen t.
Proof.
  intros t. subst t.
  set (subbed := Config._USER_SLUG_RE_sub (py "-") false s).
  destruct (strip_by_decompose (λ c, bool_decide (c ∈ py "-")) subbed)
    as (pre & post & Heq & _ & _).
  fold (strip_chars (py "-") subbed) in Heq.
  assert (Hp : ∀ c, bool_decide (c ∈ py "-") = false → c ≠ hyphen).
  { intros c Hc ->. by vm_compute in Hc. }
  split; [|split; [|split]].
  - pose proof (sub_chars false s) as Hall. fold subbed in Hall.
    rewrite Heq in Hall. apply Forall_app in Hall as [_ Hall].
    by apply Forall_app in Hall as [Hall _].
  - intros Hh. apply strip_by_head in Hh. by apply Hp in Hh.
  - intros Hl. apply strip_by_last in Hl. by apply Hp in Hl.
  - apply (no_double_hyphen_infix pre _ post). rewrite <- Heq. apply sub_no_double.
Qed.

Lemma slug_char_facts c :
  Config.slug_char c = true ∨ c = hyphen →
  is_ascii c = true ∧ ascii_isupper c = false ∧ isspace c = false.
Proof.
  unfold Config.slug_char, ascii_islower, ascii_isdigit, is_ascii, ascii_isupper, isspace.
  intros Hc.
  assert (Hr : 97 ≤ c ≤ 122 ∨ 48 ≤ c ≤ 57 ∨ c = 45).
  { destruct Hc as [Hc| ->]; [|by right; right].
    apply orb_true_iff in Hc as [Hc|Hc]; apply andb_true_iff in Hc as [H1 H2];
      apply N.leb_le in H1, H2; lia. }
  split; [apply N.ltb_lt; lia|].
  split.
  - apply andb_false_iff. destruct (N.leb_spec 65 c); [right; apply N.leb_gt; lia | by left].
  - repeat (apply orb_false_iff; split);
      try (apply N.eqb_neq; lia);
      apply andb_false_iff;
      match goal with
      | |- (?a <=? c) = false ∨ (c <=? ?b) = false =>
          destruct (N.leb_spec a c); [right; apply N.leb_gt; lia | by left]
      end.
Qed.

Lemma concat_imap_fixed (f : nat → N → list N) (s : pystr) :
  (∀ i c, c ∈ s → f i c = [c]) → concat (imap f s) = s.
Proof.
  revert f. induction s as [|c s IH]; intros f Hf; [done|].
  rewrite imap_cons. simpl. rewrite (Hf 0%nat c) by set_solver.
  simpl. f_equal. apply IH. intros i d Hd. apply Hf. set_solver.
Qed.

Lemma lower_fixed (s : pystr) :
  Forall (λ c, is_ascii c = true ∧ ascii_isupper c = false) s → lower s = s.
Proof.
  intros Hs. unfold lower. apply concat_imap_fixed. intros i c Hc.
  rewrite Forall_forall in Hs. destruct (Hs c Hc) as [Ha Hu].
  unfold lower_ucs4, ascii_lower. by rewrite Ha, Hu.
Qed.

Lemma sub_fixed (b : bool) (s : pystr) :
  Forall (λ c, Config.slug_char c = true ∨ c = hyphen) s →
  no_double_hyphen s →
  (b = true → head s ≠ Some hyphen) →
  Config._USER_SLUG_RE_sub (py "-") b s = s.
Proof.
  intros Hs. revert b. induction Hs as [|c s Hc _ IH]; intros b Hnd Hb; [done|].
  assert (Hnd' : no_double_hyphen s) by (intros i; apply (Hnd (S i))).
  simpl. destruct (Config.slug_char c) eqn:Hsc.
  - f_equal. apply IH; [done|]. by intros [=].
  - destruct Hc as [Hc| ->]; [congruence|].
    destruct b; [by destruct (Hb eq_refl)|].
    simpl. f_equal. apply IH; [done|]. intros _.
    pose proof (Hnd 0%nat eq_refl) as Hn. by destruct s.
Qed.

(** X1.  [slugify_user] is idempotent: a slug is its own slug, so the
    slug that phase 1 stores can pass through [slugify_user] again
    without change. *)
Theorem slugify_user_idempotent (value : pystr) :
  Config.slugify_user (Config.slugify_user value) = Config.slugify_user value.
Proof.
  pose proof (slug_stripped_facts (lower (strip value))) as Hfacts.
  cbv zeta in Hfacts. destruct Hfacts as (Hchars & Hhead & Hlast & Hnd).
  assert (Hcases : Config.slugify_user value = py "user"
                   ∨ Config.slugify_user value
                     = strip_chars (py "-")
                         (Config._USER_SLUG_RE_sub (py "-") false (lower (strip value)))
                     ∧ Config.slugify_user value ≠ []).
  { unfold Config.slugify_user. simpl truthy.
    destruct (bool_decide (_ = [])) eqn:Hempty; simpl negb; cbv iota; [by left|].
    apply bool_decide_eq_false in Hempty. by right. }
  destruct Hcases as [->|[Heq Hne]]; [reflexivity|].
  rewrite <- Heq in Hchars, Hhead, Hlast, Hnd.
  set (t := Config.slugify_user value) in *. clearbody t.
  assert (Hf : Forall (λ c, is_ascii c = true ∧ ascii_isupper c = false ∧ isspace c = false) t).
  { eapply Forall_impl; [exact Hchars|]. intros c. apply slug_char_facts. }
  unfold Config.slugify_user.
  assert (Hstrip : strip t = t).
  { apply strip_by_none. eapply Forall_impl; [exact Hf|]. by intros c (_ & _ & ?). }
  rewrite Hstrip.
  rewrite lower_fixed by (eapply Forall_impl; [exact Hf|]; by intros c (? & ? & _)).
  rewrite (sub_fixed false t Hchars Hnd) by done.
  assert (Hsc : strip_chars (py "-") t = t).
  { apply strip_by_keeps; intros c Hc; apply bool_decide_eq_false;
      change (py "-") with [hyphen]; intros Hin;
      apply list_elem_of_singleton in Hin as ->; done. }
  rewrite Hsc. simpl truthy.
  by rewrite bool_decide_eq_false_2.
Qed.

End SlugAgain.

Section ConfigFacts.
Context `{Runtime}.
Import Config.

Lemma load_domain_filed acc item m :
  filed_by_name acc → load_domain acc item = Ok m →
  filed_by_name m ∧ m ≠ ∅.
Proof.
  intros Hacc. destruct item as [key value]. unfold load_domain.
  destruct (getitem value (py "sheet_id")) as [sid|e]; cbn [rbind]; [|done].
  destruct (get value (py "worksheet") _) as [ws|e]; cbn [rbind]; [|done].
  destruct (get value (py "hostname_template") _) as [tpl|e]; cbn [rbind]; [|done].
  destruct (get value (py "ou_path") _) as [ou|e]; cbn [rbind]; [|done].
  intros [= <-]. split; [|apply insert_non_empty].
  intros k d. destruct (decide (k = lower key)) as [->|Hk].
  - rewrite lookup_insert_eq. by intros [= <-].
  - rewrite lookup_insert_ne by done. apply Hacc.
Qed.

Lemma load_domains_filed l acc m :
  filed_by_name acc → load_domains acc l = Ok m →
  filed_by_name m ∧ (l ≠ [] ∨ acc ≠ ∅ → m ≠ ∅).
Proof.
  revert acc. induction l as [|item l IH]; intros acc Hacc; cbn [load_domains].
  - intros [= <-]. split; [done|]. by intros [|].
  - destruct (load_domain acc item) as [acc'|e] eqn:Hitem; cbn [rbind]; [|done].
    destruct (load_domain_filed _ _ _ Hacc Hitem) as [Hf Hne].
    intros Hl. destruct (IH _ Hf Hl) as [Hm Hne']. split; [done|].
    intros _. apply Hne'. by right.
Qed.

(** X2.  A configuration that [load_config] returns names at least one
    domain and files every domain under the lower-case form of its name:
    [get_domain] hands each domain back when asked by its name, and a
    domain it returns for a name has that name up to case. *)
Theorem load_config_get_domain (fs : filesystem) (p : path) (cfg : AppConfig) :
  load_config fs p = Ok cfg →
  domains cfg ≠ ∅
  ∧ (∀ k d, domains cfg !! k = Some d →
       lower (name d) = k ∧ get_domain cfg (PStr (name d)) = Ok d)
  ∧ (∀ n d, get_domain cfg (PStr n) = Ok d → lower (name d) = lower n).
Proof.
  unfold load_config.
  destruct (open_read fs p) as [c|e]; cbn [rbind]; [|done].
  destruct (json_load c) as [data|e]; cbn [rbind]; [|done].
  destruct (get data (py "google_credentials") PNone) as [cred|e]; cbn [rbind]; [|done].
  destruct (if truthy cred then _ else _) as [cred'|e]; cbn [rbind]; [|done].
  destruct (get data (py "domains") _) as [entries|e]; cbn [rbind]; [|done].
  destruct (items entries) as [l|e]; cbn [rbind]; [|done].
  destruct (load_domains ∅ l) as [m|e] eqn:Hl; cbn [rbind]; [|done].
  destruct (bool_decide (m = ∅)) eqn:Hm; [done|]. apply bool_decide_eq_false in Hm.
  intros [= <-]. cbn [domains].
  assert (Hf : filed_by_name m).
  { eapply load_domains_filed; [|exact Hl]. intros k d. by rewrite lookup_empty. }
  split; [done|]. split.
  - intros k d Hk. pose proof (Hf k d Hk) as Hn. split; [done|].
    unfold get_domain. cbn [as_str rbind domains]. by rewrite Hn, Hk.
  - intros n d. unfold get_domain. cbn [as_str rbind domains].
    destruct (m !! lower n) as [d'|] eqn:Hk; [|done]. intros [= <-]. by apply Hf.
Qed.

End ConfigFacts.

Section ConfigWitness.
Local Existing Instance ascii_runtime.
Import Config.

Lemma load_config_get_domain_witness :
  ∃ cfg, load_config config_files [py "config.json"] = Ok cfg
    ∧ domains cfg ≠ ∅
    ∧ (∀ k d, domains cfg !! k = Some d →
         lower (name d) = k ∧ get_domain cfg (PStr (name d)) = Ok d)
    ∧ (∀ n d, get_domain cfg (PStr n) = Ok d → lower (name d) = lower n).
Proof.
  eexists. split; [reflexivity|].
  apply (load_config_get_domain config_files [py "config.json"]). reflexivity.
Defined.

End ConfigWitness.

Section HostnameFacts.
Context `{Runtime}.
Import Config.

Lemma Forall_repeat_digit k : Forall (λ c, ascii_isdigit c = true) (repeat 48 k).
Proof. induction k; simpl; by constructor. Qed.

Lemma parse_digits_leading_zeros k u :
  u ≠ Decimal.Nil → parse_digits (repeat 48 k ++ chars_of_uint u) = Some (leading_zeros k u).
Proof.
  intros Hu. induction k as [|k IH]; [by apply parse_digits_chars|].
  cbn [repeat app parse_digits]. change (ascii_isdigit 48) with true. cbv iota.
  destruct (repeat 48 k ++ chars_of_uint u) as [|c' rest'] eqn:Hrest; [done|].
  assert (Hd : ascii_isdigit c' = true).
  { assert (Hall : Forall (λ c, ascii_isdigit c = true) (repeat 48 k ++ chars_of_uint u)).
    { apply Forall_app. split; [apply Forall_repeat_digit | apply chars_of_uint_digits]. }
    rewrite Hrest in Hall. by inversion Hall. }
  assert (Hne : (c' =? 95) = false) by (apply N.eqb_neq; intros ->; by vm_compute in Hd).
  rewrite Hne, IH. done.
Qed.

Lemma of_uint_leading_zeros k u : N.of_uint (leading_zeros k u) = N.of_uint u.
Proof. induction k as [|k IH]; [done|]. exact IH. Qed.

(** [int] reads back what [format] wrote. *)
Lemma int_of_str_format_int (width : N) (z : Z) :
  int_of_str (format_int true width z) = Ok z.
Proof.
  unfold format_int.
  set (digits := str_of_N (Z.abs_N z)).
  set (pad := (N.to_nat width - _)%nat). clearbody pad.
  assert (Hdig : Forall (λ c, ascii_isdigit c = true) (repeat 48 pad ++ digits)).
  { apply Forall_app. split; [apply Forall_repeat_digit | apply str_of_N_digits]. }
  assert (Hu : N.to_uint (Z.abs_N z) ≠ Decimal.Nil).
  { intros Hnil. apply (str_of_N_not_nil (Z.abs_N z)). unfold str_of_N. by rewrite Hnil. }
  assert (Hparse : parse_digits (repeat 48 pad ++ digits)
                   = Some (leading_zeros pad (N.to_uint (Z.abs_N z))))
    by (by apply parse_digits_leading_zeros).
  unfold int_of_str.
  destruct (z <? 0)%Z eqn:Hz.
  - assert (Hmap : map to_ascii_decimal ([45] ++ repeat 48 pad ++ digits)
                   = 45 :: repeat 48 pad ++ digits).
    { cbn [app map]. f_equal. by apply to_ascii_decimal_digits. }
    rewrite Hmap. rewrite strip_by_none.
    2:{ constructor; [done|]. eapply Forall_impl; [exact Hdig|].
        intros c Hc. by destruct (digit_facts c Hc) as (_ & -> & _). }
    change (45 =? 45) with true. cbv iota. rewrite Hparse.
    rewrite of_uint_leading_zeros, DecimalN.Unsigned.of_to. f_equal.
    apply Z.ltb_lt in Hz. lia.
  - cbn [app]. rewrite (to_ascii_decimal_digits _ Hdig). rewrite strip_by_none.
    2:{ eapply Forall_impl; [exact Hdig|].
        intros c Hc. by destruct (digit_facts c Hc) as (_ & -> & _). }
    destruct (repeat 48 pad ++ digits) as [|c rest] eqn:Hs; [done|].
    inversion Hdig as [|? ? Hc _]; subst.
    destruct (digit_facts c Hc) as (_ & _ & -> & -> & _).
    rewrite Hparse. rewrite of_uint_leading_zeros, DecimalN.Unsigned.of_to. f_equal.
    apply Z.ltb_ge in Hz. lia.
Qed.

(** X3.  With the template that [load_config] gives by default,
    [build_hostname] never fails: the host name is the sequence number
    written with at least three digits, a hyphen and the user name; the
    number is never cut, so two sequence numbers never give the same
    host name for the same user. *)
Theorem build_hostname_default (self : DomainConfig) (username : pystr) :
  hostname_template self = PStr (py "{seq:03d}-{user}") →
  (∀ seq, build_hostname self seq username
          = Ok (format_int true 3 seq ++ py "-" ++ username))
  ∧ (∀ seq, int_of_str (format_int true 3 seq) = Ok seq)
  ∧ (∀ seq seq', build_hostname self seq username = build_hostname self seq' username →
                 seq = seq').
Proof.
  intros Ht.
  assert (Hform : ∀ seq, build_hostname self seq username
                         = Ok (format_int true 3 seq ++ py "-" ++ username)).
  { intros seq. unfold build_hostname. rewrite Ht. cbn [as_str rbind].
    unfold str_format.
    change (format_from seq username Literal (py "{seq:03d}-{user}"))
      with (Ok (A:=pystr) (format_int true 3 seq ++ 45 :: (username ++ []))).
    by rewrite app_nil_r. }
  split; [exact Hform|]. split; [intros seq; apply int_of_str_format_int|].
  intros seq seq'. rewrite !Hform. intros [= Heq].
  apply app_inv_tail in Heq.
  pose proof (f_equal int_of_str Heq) as Hint.
  change (int_of_str (format_int true 3 seq) = int_of_str (format_int true 3 seq')) in Hint.
  rewrite !int_of_str_format_int in Hint. by injection Hint.
Qed.

End HostnameFacts.

Section HostnameWitness.
Local Existing Instance ascii_runtime.
Import Config.

Lemma build_hostname_default_witness :
  build_hostname (template_config (py "corp")) 7 (py "jane") = Ok (py "007-jane")
  ∧ build_hostname (template_config (py "corp")) 1234 (py "jane") = Ok (py "1234-jane").
Proof.
  destruct (build_hostname_default (template_config (py "corp")) (py "jane") eq_refl)
    as (Hform & _ & _).
  split; [exact (Hform 7%Z) | exact (Hform 1234%Z)].
Defined.

End HostnameWitness.

Section StateFiles.
Import State.

(** What [mkdir] of the default directory does: it fails on a file in
    the way, and otherwise leaves the two directories in place and every
    other path as it was. *)
Lemma mkdir_state_dir (fs : filesystem) :
  ∃ fs' r, mkdir STATE_DIR fs = (fs', r)
    ∧ (∀ q, q ≠ STATE_DIR → q ≠ [py "ProgramData"] → fs' !! q = fs !! q)
    ∧ match r with
      | Ok _ => fs' !! STATE_DIR = Some Dir
      | Raise e => e = FileExistsError ∧ fs' = fs
      end.
Proof.
  unfold mkdir.
  change (rev STATE_DIR) with [py "ComputerSetup"; py "ProgramData"].
  cbn [mkdir_rev]. change (rev [py "ComputerSetup"; py "ProgramData"]) with STATE_DIR.
  change (rev [py "ProgramData"]) with [py "ProgramData"].
  change (rev []) with (@nil pystr).
  change (node_at fs STATE_DIR) with (fs !! STATE_DIR).
  change (node_at fs [py "ProgramData"]) with (fs !! [py "ProgramData"]).
  cbn [node_at].
  assert (Hne : [py "ProgramData"] ≠ STATE_DIR) by done.
  destruct (fs !! [py "ProgramData"]) as [[c|]|] eqn:Hr;
    destruct (fs !! STATE_DIR) as [[c'|]|] eqn:Hd;
    eexists _, _; (split; [reflexivity|]); cbn beta iota;
    repeat split; try done;
    try (intros q Hq1 Hq2; by rewrite ?lookup_insert_ne by done);
    try (by rewrite ?lookup_insert_eq);
    try (rewrite lookup_insert_ne by done; by rewrite ?lookup_insert_eq).
Qed.

(** X5.  [save_state] changes nothing but the path it writes and the two
    directories of the default location, whatever its outcome; when it
    returns, it returns the path it was given, the file there holds the
    state, and the default directory exists, also when the path lies
    elsewhere. *)
Theorem save_state_frame (st : SetupState) (p : path) (fs : filesystem) :
  (∀ q, q ≠ p → q ≠ STATE_DIR → q ≠ [py "ProgramData"] →
        (save_state st p fs).1 !! q = fs !! q)
  ∧ (∀ q, (save_state st p fs).2 = Ok q →
        q = p
        ∧ (save_state st p fs).1 !! p = Some (File (JsonText (to_json st)))
        ∧ (save_state st p fs).1 !! STATE_DIR = Some Dir).
Proof.
  unfold save_state.
  destruct (mkdir_state_dir fs) as (fs1 & r & -> & Hframe & Hr).
  destruct r as [[]|e].
  - rename Hr into Hd. unfold open_write.
    destruct (node_at fs1 (parent p)) as [[c|]|] eqn:Hparent; cbn [fst snd];
      try (split; [intros q _; apply Hframe | by intros q [=]]).
    destruct (node_at fs1 p) as [[c|]|] eqn:Hn; cbn [fst snd];
      try (split; [intros q _; apply Hframe | by intros q [=]]).
    + assert (Hp1 : p ≠ STATE_DIR) by (intros ->; cbn in Hn; congruence).
      split.
      * intros q Hq1 Hq2 Hq3. rewrite lookup_insert_ne by done. by apply Hframe.
      * intros q [= <-]. rewrite lookup_insert_eq, !lookup_insert_ne by done. done.
    + assert (Hp1 : p ≠ STATE_DIR) by (intros ->; cbn in Hn; congruence).
      split.
      * intros q Hq1 Hq2 Hq3. rewrite lookup_insert_ne by done. by apply Hframe.
      * intros q [= <-]. rewrite lookup_insert_eq, !lookup_insert_ne by done. done.
  - destruct Hr as [-> ->]. cbn [fst snd]. split; [done | by intros q [=]].
Qed.

(** X6.  [save_state] creates the default directory only: for a path
    whose own directory is missing, and is none of those [save_state]
    creates, it fails, with [FileNotFoundError] from the open or
    [FileExistsError] from the directory, and nothing is written at the
    path. *)
Theorem save_state_missing_directory (st : SetupState) (p : path) (fs : filesystem) :
  node_at fs (parent p) = None →
  parent p ≠ STATE_DIR → parent p ≠ [py "ProgramData"] →
  ∃ fs' e, save_state st p fs = (fs', Raise e)
    ∧ (e = FileNotFoundError ∨ e = FileExistsError)
    ∧ fs' !! p = fs !! p.
Proof.
  intros Hparent Hp1 Hp2. unfold save_state.
  destruct (mkdir_state_dir fs) as (fs1 & r & -> & Hframe & Hr).
  destruct r as [[]|e].
  - unfold open_write.
    assert (Hn : node_at fs1 (parent p) = None).
    { destruct (parent p) as [|a l] eqn:Hpp; [done|]. cbn [node_at] in *.
      by rewrite Hframe. }
    rewrite Hn. eexists _, _. split; [reflexivity|]. split; [by left|].
    destruct (decide (p = STATE_DIR)) as [->|Hq1].
    { exfalso. change (parent STATE_DIR) with [py "ProgramData"] in Hp2. done. }
    destruct (decide (p = [py "ProgramData"])) as [->|Hq2]; [done|].
    by apply Hframe.
  - destruct Hr as [-> ->]. eexists _, _. split; [reflexivity|]. split; [by right|done].
Qed.

(** X7.  [clear_state] touches no path but its own.  It raises, with
    [PermissionError], exactly when the path is a directory, and then
    leaves the files as they were; otherwise it returns and nothing is at
    the path afterwards. *)
Theorem clear_state_effect (p : path) (fs : filesystem) :
  (∀ q, q ≠ p → (clear_state p fs).1 !! q = fs !! q)
  ∧ match node_at fs p with
    | Some Dir => clear_state p fs = (fs, Raise PermissionError)
    | _ => (clear_state p fs).2 = Ok tt ∧ node_at (clear_state p fs).1 p = None
    end.
Proof.
  unfold clear_state, unlink, exists_.
  destruct (node_at fs p) as [[c|]|] eqn:Hn.
  - rewrite bool_decide_eq_true_2 by done. cbn [fst snd]. split.
    + intros q Hq. by rewrite lookup_delete_ne.
    + split; [done|]. apply node_at_delete. by intros ->.
  - rewrite bool_decide_eq_true_2 by done. done.
  - rewrite bool_decide_eq_false_2 by (by intros [? [=]]). done.
Qed.

End StateFiles.

Section StateWitness.
Import State.

Lemma save_state_default_witness :
  ∃ fs', save_state sample_state STATE_FILE ∅ = (fs', Ok STATE_FILE).
Proof.
  apply (save_state_default sample_state ∅); by intros.
Defined.

Lemma save_state_missing_directory_witness :
  ∃ fs' e, save_state sample_state [py "elsewhere"; py "state.json"] ∅ = (fs', Raise e)
    ∧ (e = FileNotFoundError ∨ e = FileExistsError)
    ∧ fs' !! [py "elsewhere"; py "state.json"] = (∅ : filesystem) !! [py "elsewhere"; py "state.json"].
Proof.
  apply (save_state_missing_directory sample_state [py "elsewhere"; py "state.json"] ∅);
    [reflexivity | done | done].
Defined.

End StateWitness.

Section HeaderFacts.
Context `{Runtime}.
Import Sheets.

Lemma drop_empty_suffix (row : list cell) : ∃ pre, row = pre ++ drop_empty row.
Proof.
  induction row as [|c row [pre IH]]; simpl; [by exists []|].
  destruct (is_empty_cell c); [|by exists []].
  exists (c :: pre). simpl. by rewrite <- IH.
Qed.

Lemma header_row_texts (row : list cell) :
  header_row row → map str_of_cell (take 7 row) = HEADERS.
Proof.
  intros [Hr|Hr]; [|by rewrite Hr].
  destruct (drop_empty_suffix (rev row)) as [pre Hpre].
  assert (Hrow : row = rev (drop_empty (rev row)) ++ rev pre).
  { rewrite <- rev_app_distr, <- Hpre. by rewrite rev_involutive. }
  assert (Hlen : length (rev (drop_empty (rev row))) = 7%nat).
  { apply (f_equal length) in Hr. by rewrite length_map in Hr. }
  rewrite Hrow. rewrite take_app_le by lia. rewrite take_ge by lia. done.
Qed.

(** The check of the header and its repair, without the resize. *)
Lemma ensure_header_step (g : grid) :
  row_count g ≠ 0%nat →
  _ensure_header g
  = if bool_decide (row_values_1 g ≠ HEADERS) then update_A1_G1 g HEADERS else g.
Proof.
  intros Hrc. unfold _ensure_header.
  by rewrite (bool_decide_eq_false_2 (row_count g = 0%nat)).
Qed.

Lemma update_A1_G1_again (g : grid) :
  update_A1_G1 (update_A1_G1 g HEADERS) HEADERS = update_A1_G1 g HEADERS.
Proof.
  unfold update_A1_G1. cbn [values row_count col_count nth tl]. f_equal; lia.
Qed.

Lemma ensure_header_after_update (g : grid) :
  _ensure_header (update_A1_G1 g HEADERS) = update_A1_G1 g HEADERS.
Proof.
  rewrite ensure_header_step by (cbn; lia).
  destruct (bool_decide _); [apply update_A1_G1_again | done].
Qed.

Lemma ensure_header_step_again (g : grid) :
  row_count g ≠ 0%nat → _ensure_header (_ensure_header g) = _ensure_header g.
Proof.
  intros Hrc. rewrite (ensure_header_step g Hrc).
  destruct (bool_decide (row_values_1 g ≠ HEADERS)) eqn:Hh.
  - apply ensure_header_after_update.
  - rewrite (ensure_header_step g Hrc). by rewrite Hh.
Qed.

Lemma ensure_header_resized (g : grid) :
  row_count g = 0%nat → _ensure_header g = _ensure_header (resize_1 g).
Proof.
  intros Hrc. unfold _ensure_header at 1.
  rewrite (bool_decide_eq_true_2 (row_count g = 0%nat)) by done.
  symmetry. by apply ensure_header_step.
Qed.

Lemma ensure_header_first_row (g : grid) :
  ∃ row rest, values (_ensure_header g) = row :: rest ∧ header_row row.
Proof.
  assert (Hstep : ∀ g0, row_count g0 ≠ 0%nat →
            ∃ row rest, values (_ensure_header g0) = row :: rest ∧ header_row row).
  { intros g0 Hrc. rewrite (ensure_header_step g0 Hrc).
    destruct (bool_decide (row_values_1 g0 ≠ HEADERS)) eqn:Hh.
    - eexists _, _. split; [reflexivity|]. right.
      by rewrite take_app_length'.
    - apply bool_decide_eq_false in Hh. apply dec_stable in Hh.
      unfold row_values_1 in Hh.
      destruct (values g0) as [|row rest] eqn:Hv; [done|].
      exists row, rest. split; [done|]. by left. }
  destruct (decide (row_count g = 0%nat)) as [Hrc|Hrc]; [|by apply Hstep].
  rewrite (ensure_header_resized g Hrc). by apply Hstep.
Qed.

(** A grid with rows whose first row is in order is left as it is, as
    far as its values go. *)
Lemma ensure_header_keeps (g : grid) (row : list cell) (rest : list (list cell)) :
  row_count g ≠ 0%nat → values g = row :: rest → header_row row →
  values (_ensure_header g) = row :: rest.
Proof.
  intros Hrc Hv Hrow. rewrite (ensure_header_step g Hrc).
  destruct (bool_decide (row_values_1 g ≠ HEADERS)) eqn:Hh; [|done].
  apply bool_decide_eq_true in Hh.
  destruct Hrow as [Hr|Hr].
  - exfalso. apply Hh. unfold row_values_1. by rewrite Hv.
  - unfold update_A1_G1. cbn [values]. rewrite Hv. cbn [nth tl]. f_equal.
    change (map CStr HEADERS) with canonical_header. rewrite <- Hr. apply take_drop.
Qed.

Lemma ensure_header_row_count_le (g : grid) :
  (row_count g ≤ row_count (_ensure_header g))%nat.
Proof.
  destruct (decide (row_count g = 0%nat)) as [Hrc|Hrc]; [lia|].
  rewrite (ensure_header_step g Hrc).
  destruct (bool_decide _); [|done]. unfold update_A1_G1. cbn [row_count]. lia.
Qed.

(** X8.  After [_ensure_header] the first seven cells of row 1 read as
    [HEADERS]; on a grid that has rows, the rows below the first are as
    they were; and a second [_ensure_header] changes nothing. *)
Theorem ensure_header_repairs (g : grid) :
  map str_of_cell (take 7 (nth 0 (values (_ensure_header g)) [])) = HEADERS
  ∧ (row_count g ≠ 0%nat → tl (values (_ensure_header g)) = tl (values g))
  ∧ _ensure_header (_ensure_header g) = _ensure_header g.
Proof.
  split; [|split].
  - destruct (ensure_header_first_row g) as (row & rest & -> & Hrow).
    by apply header_row_texts.
  - intros Hrc. rewrite (ensure_header_step g Hrc). by destruct (bool_decide _).
  - destruct (decide (row_count g = 0%nat)) as [Hrc|Hrc].
    + rewrite (ensure_header_resized g Hrc). by apply ensure_header_step_again.
    + by apply ensure_header_step_again.
Qed.

End HeaderFacts.

Section LedgerFacts.
Context `{Runtime}.
Import Sheets.


(** X11.  [reserve_name] only ever adds.  Whatever its outcome, the other
    tabs are untouched, the rows below the header of its tab are still in
    place, and the tab has at most one row more, a reservation of the
    domain; when the call returns, that row is there and holds the values
    returned. *)
Theorem reserve_name_appends (timestamp domain user key title : pystr)
    (factory : Z → result pystr) (d : drive) (g : grid) :
  d !! (key, title) = Some g →
  ∃ g',
    (reserve_name timestamp domain user (PStr key) (PStr title) factory d).1 !! (key, title)
    = Some g'
    ∧ (∀ ws, ws ≠ (key, title) →
         (reserve_name timestamp domain user (PStr key) (PStr title) factory d).1 !! ws
         = d !! ws)
    ∧ (row_count g ≠ 0%nat → tl (values g) `prefix_of` tl (values g'))
    ∧ match (reserve_name timestamp domain user (PStr key) (PStr title) factory d).2 with
      | Ok (seq, hostname, _) =>
          values g' = values (_ensure_header g)
                      ++ [reservation_row domain seq hostname user timestamp]
      | Raise _ =>
          values g' = values (_ensure_header g)
          ∨ ∃ seq hostname,
              values g' = values (_ensure_header g)
                          ++ [reservation_row domain seq hostname user timestamp]
      end.
Proof.
  intros Hd.
  assert (Htl : row_count g ≠ 0%nat → tl (values (_ensure_header g)) = tl (values g)).
  { intros Hrc. rewrite (ensure_header_step g Hrc). by destruct (bool_decide _). }
  destruct (ensure_header_first_row g) as (row & rest & Hv & _).
  unfold reserve_name, reserve_read, _worksheet. rewrite Hd, lookup_insert_eq.
  destruct (scan_rows _ _ _) as [max_seq|e]; cbn [rbind].
  2:{ exists (_ensure_header g). cbn [fst snd]. rewrite lookup_insert_eq.
      split; [done|]. split; [by intros ws Hws; rewrite lookup_insert_ne|].
      split; [|by left]. intros Hrc. by rewrite Htl. }
  destruct (factory _) as [hostname|e]; cbn [rbind].
  2:{ exists (_ensure_header g). cbn [fst snd]. rewrite lookup_insert_eq.
      split; [done|]. split; [by intros ws Hws; rewrite lookup_insert_ne|].
      split; [|by left]. intros Hrc. by rewrite Htl. }
  unfold reserve_append. rewrite lookup_insert_eq. unfold append_row.
  eexists. cbn [fst]. rewrite lookup_insert_eq. split; [reflexivity|].
  split; [by intros ws Hws; rewrite !lookup_insert_ne|].
  cbn [values snd]. split.
  - intros Hrc. rewrite <- (Htl Hrc), Hv. cbn [app tl]. by apply prefix_app_r.
  - destruct (index _ 1) as [sheet_part|e]; cbn [rbind]; [|right; by eexists _, _].
    destruct (index _ 0) as [start_cell|e]; cbn [rbind]; [|right; by eexists _, _].
    destruct (int_of_str _) as [row_number|e]; cbn [rbind]; [done|right; by eexists _, _].
Qed.

End LedgerFacts.

Section LedgerWitness.
Local Existing Instance ascii_runtime.
Import Sheets.


Lemma reserve_name_appends_witness :
  ∃ g',
    (reserve_name (py "2025") (py "Corp") (py "jane") (PStr (py "X")) (PStr (py "Devices"))
       (fun n => Ok (str_of_int n)) mixed_drive).1 !! (py "X", py "Devices") = Some g'
    ∧ tl (values mixed_grid) `prefix_of` tl (values g').
Proof.
  destruct (reserve_name_appends (py "2025") (py "Corp") (py "jane") (py "X") (py "Devices")
              (fun n => Ok (str_of_int n)) mixed_drive mixed_grid eq_refl)
    as (g' & Hg' & _ & Hrows & _).
  exists g'. split; [exact Hg'|]. apply Hrows. done.
Defined.

End LedgerWitness.

Section StatusFacts.
Context `{Runtime}.
Import Sheets.

Lemma split_not_nil c s : ∃ piece pieces, split c s = piece :: pieces.
Proof.
  induction s as [|a s (piece & pieces & IH)]; simpl; [by eexists _, _|].
  destruct (a =? c); [by eexists _, _|]. rewrite IH. by eexists _, _.
Qed.

Lemma split_app c s1 s2 : split c (s1 ++ c :: s2) = split c s1 ++ split c s2.
Proof.
  induction s1 as [|a s1 IH]; simpl.
  - by rewrite N.eqb_refl.
  - destruct (a =? c); [by rewrite IH|]. rewrite IH.
    by destruct (split_not_nil c s1) as (piece & pieces & ->).
Qed.

Lemma last_app_not_nil {A} (l1 l2 : list A) (d : A) :
  l2 ≠ [] → List.last (l1 ++ l2) d = List.last l2 d.
Proof.
  intros Hl2. induction l1 as [|a l1 IH]; [done|].
  simpl. destruct (l1 ++ l2) eqn:Happ; [|done].
  apply app_eq_nil in Happ as [_ ->]. done.
Qed.

Lemma filter_digits (s : pystr) :
  Forall (λ c, ascii_isdigit c = true) s → filter (λ c, isdigit c = true) s = s.
Proof.
  induction 1 as [|c s Hc _ IH]; [done|].
  rewrite filter_cons_True, IH; [done|].
  unfold isdigit. by destruct (digit_facts c Hc) as (-> & _).
Qed.

(** X13.  The row number of a reference as [reserve_name] returns it,
    the title of the tab, [!A], the number, [:G] and the number again, is
    read back by [update_status], whatever the title of the tab. *)
Theorem row_number_of_reference (title : pystr) (n : N) :
  row_number_of_range (PStr (title ++ py "!A" ++ str_of_N n ++ py ":G" ++ str_of_N n))
  = Ok (Z.of_N n).
Proof.
  unfold row_number_of_range. cbn [as_str rbind].
  change (title ++ py "!A" ++ str_of_N n ++ py ":G" ++ str_of_N n)
    with (title ++ 33 :: ((65 :: str_of_N n) ++ 58 :: (71 :: str_of_N n))).
  rewrite split_app. rewrite last_app_not_nil.
  2:{ by destruct (split_not_nil 33 ((65 :: str_of_N n) ++ 58 :: 71 :: str_of_N n))
        as (piece & pieces & ->). }
  rewrite (split_no_sep 33).
  2:{ intros Hin. apply elem_of_app in Hin as [Hin|Hin].
      - apply elem_of_cons in Hin as [Hin|Hin]; [done|].
        apply str_of_N_no_sep in Hin. by destruct Hin.
      - apply elem_of_cons in Hin as [Hin|Hin]; [done|].
        apply elem_of_cons in Hin as [Hin|Hin]; [done|].
        apply str_of_N_no_sep in Hin. by destruct Hin. }
  cbn [List.last].
  rewrite (split_app_sep 58 (65 :: str_of_N n) (71 :: str_of_N n)).
  2:{ intros Hin. apply elem_of_cons in Hin as [Hin|Hin]; [done|].
      apply str_of_N_no_sep in Hin. by destruct Hin. }
  cbn [index lookup list_lookup rbind].
  rewrite filter_cons_False by (by vm_compute).
  rewrite filter_digits by apply str_of_N_digits.
  apply int_of_str_of_N.
Qed.

Lemma update_E_G_last (g : grid) (rows : list (list cell)) (old cells : list cell) :
  values g = rows ++ [old] →
  (S (length rows) ≤ row_count g)%nat →
  update_E_G g (Z.of_N (N.of_nat (S (length rows)))) cells
  = Ok {| row_count := row_count g; col_count := Nat.max 7 (col_count g);
          values := rows ++ [take 4 (pad_row 4 old) ++ cells ++ drop 7 old] |}.
Proof.
  intros Hv Hrc. unfold update_E_G.
  assert (Hle : ((Z.of_N (N.of_nat (S (length rows))) <=? 0)
                 || (Z.of_nat (row_count g) <? Z.of_N (N.of_nat (S (length rows)))))%Z = false).
  { apply orb_false_iff. split; [apply Z.leb_gt; lia | apply Z.ltb_ge; lia]. }
  rewrite Hle.
  replace (Z.to_nat (Z.of_N (N.of_nat (S (length rows))) - 1)) with (length rows) by lia.
  rewrite Hv. rewrite length_app. cbn [length].
  replace (S (length rows) - (length rows + 1))%nat with 0%nat by lia.
  cbn [repeat]. rewrite app_nil_r.
  rewrite app_nth2 by lia. rewrite Nat.sub_diag. cbn [nth].
  do 2 f_equal.
  rewrite insert_app_r_alt by lia. rewrite Nat.sub_diag. done.
Qed.

(** X14.  The reference [reserve_name] returns is the row it wrote:
    [update_status] with that reference succeeds and changes the status,
    the time and the notes of the reserved row, and nothing else on the
    tab. *)
Theorem reserve_then_update_status (timestamp timestamp' domain user key title : pystr)
    (status notes : pystr) (factory : Z → result pystr) (d d1 : drive) (g : grid)
    (seq : Z) (hostname reference : pystr) :
  d !! (key, title) = Some g →
  33 ∉ title →
  reserve_name timestamp domain user (PStr key) (PStr title) factory d
  = (d1, Ok (seq, hostname, reference)) →
  ∃ d2 g2,
    update_status timestamp' (PStr key) (PStr title) (PStr reference) status notes d1
    = (d2, Ok tt)
    ∧ d2 !! (key, title) = Some g2
    ∧ values g2 = values (_ensure_header g)
                  ++ [[CStr domain; CInt seq; CStr hostname; CStr user;
                       CStr status; CStr timestamp'; CStr notes]].
Proof.
  intros Hd Hbang.
  unfold reserve_name, reserve_read, _worksheet. rewrite Hd, lookup_insert_eq.
  destruct (scan_rows _ _ _) as [max_seq|e]; cbn [rbind]; [|by intros [=]].
  destruct (factory _) as [hostname'|e]; cbn [rbind]; [|by intros [=]].
  erewrite reserve_append_ok; [|apply lookup_insert_eq|done].
  intros [= <- <- <- <-].
  set (rows := values (_ensure_header g)).
  set (g1 := {| row_count := _; col_count := _; values := _ |}).
  destruct (ensure_header_first_row g) as (row & rest & Hv & Hrow). fold rows in Hv.
  assert (Hrc1 : row_count g1 ≠ 0%nat) by (cbn; lia).
  assert (Hv1 : values (_ensure_header g1) = rows ++ [reservation_row domain (max_seq + 1)
                                                        hostname' user timestamp]).
  { rewrite Hv. apply (ensure_header_keeps g1 row); [done| |done]. cbn [g1 values].
    by rewrite Hv. }
  assert (Hrc : (S (length rows) ≤ row_count (_ensure_header g1))%nat).
  { etrans; [|apply ensure_header_row_count_le]. cbn. lia. }
  unfold update_status, _worksheet. rewrite lookup_insert_eq.
  change (row_number_of_range (PStr _))
    with (row_number_of_range
            (PStr (title ++ py "!A" ++ str_of_N (N.of_nat (S (length rows)))
                         ++ py ":G" ++ str_of_N (N.of_nat (S (length rows)))))).
  rewrite row_number_of_reference. cbn [rbind]. rewrite lookup_insert_eq.
  rewrite (update_E_G_last _ _ _ _ Hv1 Hrc).
  eexists _, _. split; [reflexivity|]. split; [apply lookup_insert_eq|]. reflexivity.
Qed.

End StatusFacts.

Section StatusWitness.
Local Existing Instance ascii_runtime.
Import Sheets.

Lemma reserve_then_update_status_witness :
  ∃ d2 g2,
    update_status (py "2025-01-02") (PStr (py "X")) (PStr (py "Devices"))
      (PStr (py "Devices!A2:G2")) (py "Joined") (py "done")
      (reserve_name (py "2025-01-01") (py "corp") (py "jane") (PStr (py "X"))
         (PStr (py "Devices")) (fun n => Ok (str_of_int n)) fresh_drive).1
    = (d2, Ok tt)
    ∧ d2 !! (py "X", py "Devices") = Some g2
    ∧ values g2 = values (_ensure_header fresh_grid)
                  ++ [[CStr (py "corp"); CInt 1; CStr (py "1"); CStr (py "jane");
                       CStr (py "Joined"); CStr (py "2025-01-02"); CStr (py "done")]].
Proof.
  apply (reserve_then_update_status (py "2025-01-01") (py "2025-01-02") (py "corp") (py "jane")
           (py "X") (py "Devices") (py "Joined") (py "done") (fun n => Ok (str_of_int n))
           fresh_drive _ fresh_grid 1%Z (py "1") (py "Devices!A2:G2")).
  - reflexivity.
  - apply (bool_decide_unpack _). vm_compute. exact I.
  - reflexivity.
Defined.

End StatusWitness.

Section GrowthFacts.
Context `{Runtime}.
Import Sheets Callers.

Lemma tl_prefix_snoc {A} (l : list A) (x : A) : tl l `prefix_of` tl (l ++ [x]).
Proof. destruct l as [|a l]; [apply prefix_nil | by apply prefix_app_r]. Qed.

(** One request of one caller leaves every row below the header of every
    tab in place. *)
Lemma advance_grows (t t' : thread) (d d' : drive) (ws : pystr * pystr) (g : grid) :
  advance t d = Some (d', t') →
  d !! ws = Some g → row_count g ≠ 0%nat →
  ∃ g', d' !! ws = Some g' ∧ row_count g' ≠ 0%nat
        ∧ tl (values g) `prefix_of` tl (values g').
Proof.
  intros Hadv Hd Hrc.
  assert (Hsame : d' = d → ∃ g', d' !! ws = Some g' ∧ row_count g' ≠ 0%nat
                                 ∧ tl (values g) `prefix_of` tl (values g')).
  { intros ->. by exists g. }
  destruct t as [c|c [key title] next_seq hostname|r]; cbn [advance] in Hadv; [| |done].
  - unfold reserve_read, _worksheet in Hadv.
    destruct (sheet_id c) as [| | | |key| |]; destruct (worksheet c) as [| | | |title| |];
      try (injection Hadv as <- _; by apply Hsame).
    destruct (d !! (key, title)) as [g0|] eqn:Hg0;
      [|injection Hadv as <- _; by apply Hsame].
    assert (Hd' : d' = <[(key, title) := _ensure_header g0]> d).
    { destruct (rbind _ _) as [[[[? ?] ?] ?]|e]; by injection Hadv as <- _. }
    subst d'. destruct (decide (ws = (key, title))) as [->|Hne].
    + rewrite Hd in Hg0. injection Hg0 as <-. exists (_ensure_header g).
      rewrite lookup_insert_eq. split; [done|]. split.
      * pose proof (ensure_header_row_count_le g). lia.
      * rewrite (ensure_header_step g Hrc). by destruct (bool_decide _).
    + exists g. by rewrite lookup_insert_ne.
  - unfold reserve_append in Hadv.
    destruct (d !! (key, title)) as [g0|] eqn:Hg0;
      [|injection Hadv as <- _; by apply Hsame].
    unfold append_row in Hadv. injection Hadv as <- _.
    destruct (decide (ws = (key, title))) as [->|Hne].
    + rewrite Hd in Hg0. injection Hg0 as <-. eexists. rewrite lookup_insert_eq.
      split; [reflexivity|]. cbn [row_count values]. split; [lia|]. apply tl_prefix_snoc.
    + exists g. by rewrite lookup_insert_ne.
Qed.

(** X12.  However the requests of any number of callers are interleaved,
    no reservation is lost: on a tab that has rows, the rows below the
    header at the start are still there, in place, at the end. *)
Theorem ledger_grows (d d' : drive) (ts ts' : list thread) (ws : pystr * pystr) (g : grid) :
  rtc step (d, ts) (d', ts') →
  d !! ws = Some g → row_count g ≠ 0%nat →
  ∃ g', d' !! ws = Some g' ∧ row_count g' ≠ 0%nat
        ∧ tl (values g) `prefix_of` tl (values g').
Proof.
  intros Hsteps.
  assert (Hgen : ∀ x y : drive * list thread, rtc step x y →
            ∀ g0, x.1 !! ws = Some g0 → row_count g0 ≠ 0%nat →
                  ∃ g', y.1 !! ws = Some g' ∧ row_count g' ≠ 0%nat
                        ∧ tl (values g0) `prefix_of` tl (values g')).
  { clear d d' ts ts' g Hsteps.
    induction 1 as [x|x z y Hstep _ IH]; intros g Hd Hrc; [by exists g|].
    destruct Hstep as [d ts i t d1 t' Hi Hadv]. cbn [fst] in *.
    destruct (advance_grows t t' d d1 ws g Hadv Hd Hrc) as (g1 & Hd1 & Hrc1 & Hpre1).
    destruct (IH g1 Hd1 Hrc1) as (g' & Hd' & Hrc' & Hpre').
    exists g'. split; [done|]. split; [done|]. by etrans. }
  apply (Hgen _ _ Hsteps).
Qed.

End GrowthFacts.

Section GrowthWitness.
Local Existing Instance ascii_runtime.
Import Sheets Callers.

Lemma ledger_grows_witness :
  ∃ g', (reserve_read (py "Corp") (PStr (py "X")) (PStr (py "Devices"))
           (fun n => Ok (str_of_int n ++ py "-" ++ py "jane")) mixed_drive).1
          !! (py "X", py "Devices") = Some g'
        ∧ row_count g' ≠ 0%nat
        ∧ tl (values mixed_grid) `prefix_of` tl (values g').
Proof.
  apply (ledger_grows mixed_drive _
           [Start (sample_call (py "Corp") (py "jane"))]
           (<[0%nat := Scanned (sample_call (py "Corp") (py "jane")) (py "X", py "Devices")
                         6%Z (py "6-jane")]>
              [Start (sample_call (py "Corp") (py "jane"))])
           (py "X", py "Devices") mixed_grid).
  - apply rtc_once.
    apply (step_thread mixed_drive [Start (sample_call (py "Corp") (py "jane"))] 0%nat
             (Start (sample_call (py "Corp") (py "jane")))).
    + reflexivity.
    + reflexivity.
  - reflexivity.
  - done.
Defined.


End GrowthWitness.

Section CodecFacts.
Import Security.

Lemma to_N_byte_of_N (n : N) : Byte.to_N (byte_of_N n) = n mod 256.
Proof.
  unfold byte_of_N. destruct (Byte.of_N (n mod 256)) as [b|] eqn:Hb.
  - by apply Byte.to_of_N.
  - apply Byte.of_N_None_iff in Hb. pose proof (N.mod_upper_bound n 256). lia.
Qed.


Lemma units_of_le16 (u : N) (tail : bytes) :
  u < 65536 →
  units_of_bytes (le16 u ++ tail)
  = (try! units := units_of_bytes tail in Ok (u :: units))%result.
Proof.
  intros Hu. unfold le16. cbn [app units_of_bytes].
  rewrite !to_N_byte_of_N.
  replace (u mod 256 + 256 * ((u / 256) mod 256)) with u by div_lia. done.
Qed.

Lemma utf16le_units (s : pystr) :
  Forall scalar_value s →
  ∃ b units, utf16le_encode s = Ok b ∧ units_of_bytes b = Ok units
             ∧ decode_units units = Ok s.
Proof.
  induction 1 as [|c s [Hc Hs] _ (b & units & Henc & Hunits & Hdec)].
  - by exists [], [].
  - cbn [utf16le_encode]. rewrite Henc. cbn [rbind].
    assert (Hsur : (55296 <=? c) && (c <=? 57343) = false).
    { apply andb_false_iff. destruct (N.leb_spec 55296 c); [|by left].
      right. apply N.leb_gt. lia. }
    rewrite Hsur.
    destruct (c <? 65536) eqn:Hlt.
    + apply N.ltb_lt in Hlt. eexists _, _. split; [reflexivity|].
      rewrite units_of_le16, Hunits by done. cbn [rbind]. split; [reflexivity|].
      cbn [decode_units].
      assert ((55296 <=? c) && (c <=? 56319) = false) as ->.
      { apply andb_false_iff. destruct (N.leb_spec 55296 c); [|by left].
        right. apply N.leb_gt. lia. }
      assert ((56320 <=? c) && (c <=? 57343) = false) as ->.
      { apply andb_false_iff. destruct (N.leb_spec 56320 c); [|by left].
        right. apply N.leb_gt. lia. }
      by rewrite Hdec.
    + apply N.ltb_ge in Hlt. eexists _, _. split; [reflexivity|].
      rewrite units_of_le16 by div_lia.
      rewrite units_of_le16 by div_lia.
      rewrite Hunits. cbn [rbind]. split; [reflexivity|].
      cbn [decode_units].
      assert ((55296 <=? 55296 + (c - 65536) / 1024)
              && (55296 + (c - 65536) / 1024 <=? 56319) = true) as ->.
      { apply andb_true_iff. split; apply N.leb_le; div_lia. }
      assert ((56320 <=? 56320 + (c - 65536) mod 1024)
              && (56320 + (c - 65536) mod 1024 <=? 57343) = true) as ->.
      { apply andb_true_iff. split; apply N.leb_le; div_lia. }
      rewrite Hdec. cbn [rbind]. do 2 f_equal. div_lia.
Qed.

(** X15.  The encoding [protect_string] applies to the secret,
    UTF-16-LE, is undone by the decoding [unprotect_string] applies to
    the plaintext, for every string of Unicode scalar values. *)
Theorem utf16le_round_trip (s : pystr) :
  Forall scalar_value s →
  (try! data := utf16le_encode s in utf16le_decode data)%result = Ok s.
Proof.
  intros Hs. destruct (utf16le_units s Hs) as (b & units & -> & Hunits & Hdec).
  cbn [rbind]. unfold utf16le_decode. rewrite Hunits. exact Hdec.
Qed.









Lemma utf16le_encode_outcome (s : pystr) :
  match utf16le_encode s with
  | Ok _ => forallb (λ c, negb ((55296 <=? c) && (c <=? 57343))) s = true
  | Raise e => e = UnicodeEncodeError
                ∧ forallb (λ c, negb ((55296 <=? c) && (c <=? 57343))) s = false
  end.
Proof.
  induction s as [|c s IH]; [done|]. cbn [utf16le_encode forallb].
  destruct ((55296 <=? c) && (c <=? 57343)); [done|]. cbn [negb andb].
  destruct (utf16le_encode s) as [tail|e]; cbn [rbind]; done.
Qed.

Lemma a2b_base64_error (s : list N) (quad_pos leftchar pads : N) (out : bytes) (e : exn) :
  a2b_base64 s quad_pos leftchar pads out = Raise e → e = Base64Error.
Proof.
  revert quad_pos leftchar pads out.
  induction s as [|c s IH]; intros quad_pos leftchar pads out; cbn [a2b_base64].
  - destruct (quad_pos =? 0); [done|]. by intros [= <-].
  - destruct (c =? 61).
    + destruct ((2 <=? quad_pos) && (4 <=? quad_pos + (pads + 1))); [done|]. apply IH.
    + destruct (b64_value c) as [v|]; [|apply IH].
      destruct quad_pos as [|[p|p|]]; try apply IH; destruct p; apply IH.
Qed.

(** X17.  Which exception [protect_string] and [unprotect_string] raise.
    [TypeError] for any value but a string.  For a string,
    [UnicodeEncodeError] when it cannot be encoded (a surrogate in the
    secret, a character outside ASCII in the token) and [binascii.Error],
    here [Base64Error], when the token is no Base64, both before the
    library is called; in every other case [OSError] with the saved error
    code. *)
Theorem protect_string_errors (dll : crypt32) :
  (∀ v, (∀ s, v ≠ PStr s) →
        protect_string dll v = Raise TypeError ∧ unprotect_string dll v = Raise TypeError)
  ∧ (∀ s, protect_string dll (PStr s)
          = Raise (if forallb (λ c, negb ((55296 <=? c) && (c <=? 57343))) s
                   then OSError (get_last_error dll) else UnicodeEncodeError))
  ∧ (∀ s, unprotect_string dll (PStr s)
          = Raise (if forallb is_ascii s
                   then match b64decode (map byte_of_N s) with
                        | Ok _ => OSError (get_last_error dll)
                        | Raise _ => Base64Error
                        end
                   else UnicodeEncodeError)).
Proof.
  split; [|split].
  - intros v Hv. destruct v as [| | | |s| |]; try done. by destruct (Hv s).
  - intros s. unfold protect_string. pose proof (utf16le_encode_outcome s) as Henc.
    destruct (utf16le_encode s) as [data|e]; cbn [rbind].
    + rewrite Henc. by destruct (CryptProtectData dll _ _ _).
    + destruct Henc as [-> ->]. done.
  - intros s. unfold unprotect_string, ascii_encode.
    destruct (forallb is_ascii s); cbn [rbind]; [|done].
    destruct (b64decode (map byte_of_N s)) as [raw|e] eqn:Hraw; cbn [rbind].
    + by destruct (CryptUnprotectData dll _ _).
    + apply a2b_base64_error in Hraw. by rewrite Hraw.
Qed.

End CodecFacts.

Section CodecWitness.
Import Security.

Lemma utf16le_round_trip_witness :
  (try! data := utf16le_encode [104; 233; 8364; 128512] in utf16le_decode data)%result
  = Ok [104; 233; 8364; 128512].
Proof.
  apply (utf16le_round_trip [104; 233; 8364; 128512]).
  repeat (constructor; [split; lia|]). constructor.
Defined.

End CodecWitness.

Section WindowsFacts.
Context `{Runtime} (sys : Windows.os).
Import Windows.

Lemma replace_quote_cons (c : N) (s : pystr) :
  replace 39 [39; 39] (c :: s)
  = (if c =? 39 then [39; 39] else [c]) ++ replace 39 [39; 39] s.
Proof. reflexivity. Qed.

Lemma escape_paired (s : pystr) : quotes_paired (replace 39 [39; 39] s) = true.
Proof.
  induction s as [|c s IH]; [done|]. rewrite replace_quote_cons.
  destruct (c =? 39) eqn:Hc; cbn [app quotes_paired].
  - exact IH.
  - by rewrite Hc.
Qed.

Lemma escape_injective (a b : pystr) :
  replace 39 [39; 39] a = replace 39 [39; 39] b → a = b.
Proof.
  revert b. induction a as [|c a IH]; intros [|c' b].
  - done.
  - rewrite replace_quote_cons. by destruct (c' =? 39).
  - rewrite replace_quote_cons. by destruct (c =? 39).
  - rewrite !replace_quote_cons.
    destruct (c =? 39) eqn:Hc; destruct (c' =? 39) eqn:Hc'; cbn [app].
    + apply N.eqb_eq in Hc, Hc'. intros [= Heq]. f_equal; [congruence | by apply IH].
    + intros [= <- Heq]. destruct b as [|c2 b].
      * done.
      * rewrite replace_quote_cons in Heq. destruct (c2 =? 39) eqn:Hc2; cbn [app] in Heq.
        -- by rewrite N.eqb_refl in Hc'.
        -- by rewrite N.eqb_refl in Hc'.
    + intros [= -> Heq]. by rewrite N.eqb_refl in Hc.
    + intros [= -> Heq]. f_equal. by apply IH.
Qed.

(** X18.  [_escape_single_quotes] doubles every single quote and changes
    nothing else: in the result every quote has its pair, the other
    characters are those of the value in their order, and no other value
    has the same result. *)
Theorem escape_single_quotes_doubles (value : pystr) :
  ∃ escaped,
    _escape_single_quotes (PStr value) = Ok escaped
    ∧ quotes_paired escaped = true
    ∧ filter (λ c, c ≠ 39) escaped = filter (λ c, c ≠ 39) value
    ∧ ∀ other, _escape_single_quotes (PStr other) = Ok escaped → other = value.
Proof.
  exists (replace 39 [39; 39] value). split; [reflexivity|].
  split; [apply escape_paired|]. split.
  - induction value as [|c s IH]; [done|]. rewrite replace_quote_cons.
    destruct (c =? 39) eqn:Hc.
    + apply N.eqb_eq in Hc as ->. cbn [app].
      rewrite !(filter_cons_False (λ c, c ≠ 39) 39) by (by intros ?). exact IH.
    + apply N.eqb_neq in Hc. cbn [app]. rewrite !filter_cons_True by done. by rewrite IH.
  - intros other. unfold _escape_single_quotes. cbn [as_str rbind]. intros [= Heq].
    by apply escape_injective.
Qed.

Lemma delete_values_tolerant (key_path : pystr) (names : list pystr) (t : list event) :
  (∀ t' name, DeleteValue sys t' key_path name = Ok tt
              ∨ DeleteValue sys t' key_path name = Raise FileNotFoundError) →
  delete_values sys key_path names t
  = (t ++ map (RegDeleteValue key_path) names, Ok tt).
Proof.
  intros Hdel. revert t. induction names as [|name names IH]; intros t.
  - cbn. by rewrite app_nil_r.
  - cbn [delete_values map]. rewrite IH.
    rewrite <- app_assoc. cbn [app].
    by destruct (Hdel t name) as [-> | ->].
Qed.

Lemma set_values_accepted (key_path : pystr) (values : list (pystr * pystr))
    (t : list event) :
  (∀ t' name data, SetValueEx sys t' key_path name data = Ok tt) →
  set_values sys key_path values t
  = (t ++ map (λ item, RegSetValue key_path item.1 item.2) values, Ok tt).
Proof.
  intros Hset. revert t. induction values as [|[name data] values IH]; intros t.
  - cbn. by rewrite app_nil_r.
  - cbn [set_values map]. unfold then_. rewrite Hset, IH.
    rewrite <- app_assoc. done.
Qed.

(** X19.  [_delete_reg_values] skips the values that are not there: when
    the key opens and each deletion succeeds or fails with
    [FileNotFoundError], every name is asked for, in order, and the call
    returns. *)
Theorem delete_reg_values_tolerant (key_path : pystr) (names : list pystr)
    (t : list event) :
  OpenKey sys t key_path = Ok tt →
  (∀ t' name, DeleteValue sys t' key_path name = Ok tt
              ∨ DeleteValue sys t' key_path name = Raise FileNotFoundError) →
  _delete_reg_values sys key_path names t
  = (t ++ map (RegDeleteValue key_path) names, Ok tt).
Proof.
  intros Hopen Hdel. unfold _delete_reg_values, then_. rewrite Hopen.
  by apply delete_values_tolerant.
Qed.

(** X20.  [clear_autologon] on a machine whose registry accepts the
    writes: it sets [AutoAdminLogon] and [ForceAutoLogon] to 0, then asks
    for the deletion of [DefaultPassword] and [DefaultDomainName], in
    this order, and returns, also when these two values are absent. *)
Theorem clear_autologon_requests (t : list event) :
  (∀ t', OpenKey sys t' winlogon_key = Ok tt) →
  (∀ t' name data, SetValueEx sys t' winlogon_key name data = Ok tt) →
  (∀ t' name, DeleteValue sys t' winlogon_key name = Ok tt
              ∨ DeleteValue sys t' winlogon_key name = Raise FileNotFoundError) →
  clear_autologon sys t
  = (t ++ [RegSetValue winlogon_key (py "AutoAdminLogon") (py "0");
           RegSetValue winlogon_key (py "ForceAutoLogon") (py "0");
           RegDeleteValue winlogon_key (py "DefaultPassword");
           RegDeleteValue winlogon_key (py "DefaultDomainName")],
     Ok tt).
Proof.
  intros Hopen Hset Hdel. unfold clear_autologon, _set_reg_values, _delete_reg_values.
  unfold then_ at 1 2. rewrite Hopen. rewrite set_values_accepted by done.
  unfold then_. rewrite Hopen. rewrite delete_values_tolerant by done.
  by rewrite <- app_assoc.
Qed.

End WindowsFacts.

Section WindowsWitness.
Local Existing Instance ascii_runtime.
Import Windows.

Lemma delete_reg_values_tolerant_witness :
  _delete_reg_values bare_registry_os winlogon_key
    [py "DefaultPassword"; py "DefaultDomainName"] []
  = ([RegDeleteValue winlogon_key (py "DefaultPassword");
      RegDeleteValue winlogon_key (py "DefaultDomainName")], Ok tt).
Proof.
  apply (delete_reg_values_tolerant bare_registry_os winlogon_key
           [py "DefaultPassword"; py "DefaultDomainName"] []).
  - reflexivity.
  - intros t' name. by right.
Defined.

Lemma clear_autologon_requests_witness :
  clear_autologon bare_registry_os []
  = ([RegSetValue winlogon_key (py "AutoAdminLogon") (py "0");
      RegSetValue winlogon_key (py "ForceAutoLogon") (py "0");
      RegDeleteValue winlogon_key (py "DefaultPassword");
      RegDeleteValue winlogon_key (py "DefaultDomainName")],
     Ok tt).
Proof.
  apply (clear_autologon_requests bare_registry_os []).
  - reflexivity.
  - reflexivity.
  - intros t' name. by right.
Defined.

End WindowsWitness.

Section PromptFacts.
Import Cli.

(** X21.  [_prompt_password] never returns an empty password.  The
    password it returns is a line of the input, typed twice in a row when
    confirmation is asked, and the input left over is what followed it.
    It fails only at the end of the input. *)
Theorem prompt_password_confirmed (confirm : bool) (input : list pystr) :
  match _prompt_password confirm input with
  | (rest, Ok pw) =>
      pw ≠ []
      ∧ ∃ before, input = before ++ (if confirm then [pw; pw] else [pw]) ++ rest
  | (rest, Raise e) => e = EOFError ∧ rest = []
  end.
Proof.
  assert (Hgen : ∀ n input, (length input < n)%nat →
            match _prompt_password confirm input with
            | (rest, Ok pw) =>
                pw ≠ []
                ∧ ∃ before, input = before ++ (if confirm then [pw; pw] else [pw]) ++ rest
            | (rest, Raise e) => e = EOFError ∧ rest = []
            end).
  { clear input. induction n as [|n IH]; intros input Hn; [lia|].
    destruct input as [|pw1 rest]; [done|].
    cbn [_prompt_password truthy].
    destruct (bool_decide (pw1 = [])) eqn:Hempty; cbn [negb].
    - specialize (IH rest ltac:(cbn [length] in Hn; lia)).
      destruct (_prompt_password confirm rest) as [rest' [pw|e]]; [|done].
      destruct IH as [Hpw [before ->]]. split; [done|]. by exists (pw1 :: before).
    - apply bool_decide_eq_false in Hempty.
      destruct confirm; cbn [negb].
      + destruct rest as [|pw2 rest']; [done|].
        unfold str_eqb. destruct (bool_decide (pw1 = pw2)) eqn:Hsame.
        * apply bool_decide_eq_true in Hsame as <-. split; [done|]. by exists [].
        * specialize (IH rest' ltac:(cbn [length] in Hn; lia)).
          destruct (_prompt_password true rest') as [rest'' [pw|e]]; [|done].
          destruct IH as [Hpw [before ->]]. split; [done|].
          by exists (pw1 :: pw2 :: before).
      + split; [done|]. by exists []. }
  apply (Hgen (S (length input))). lia.
Qed.

End PromptFacts.

Section RunFacts.
Context `{Runtime} (env : Cli.environment).
Import Cli.

(** [_initial_run] raises in every run, at the latest when it protects
    the password of the administrator, which comes before the state is
    saved: no file is written. *)
Lemma initial_run_raises (timestamp : pystr) (args : initial_run_args) (w : world) :
  ∃ w' e, _initial_run env timestamp args w = (w', Raise e) ∧ fs w' = fs w.
Proof.
  unfold _initial_run, bind, lift.
  destruct (Windows.require_elevated (sys env)) as [[]|e]; [|by eexists _, _].
  unfold _resolve_config.
  destruct (negb (exists_ (fs w) _)); [by eexists _, _|].
  destruct (Config.load_config _ _) as [config|e]; [|by eexists _, _].
  destruct (Config.get_domain _ _) as [domain_config|e]; [|by eexists _, _].
  destruct (_resolve_credentials_path _ _ _) as [google_creds|e]; [|by eexists _, _].
  unfold SheetsClient.
  destruct (negb (exists_ (fs w) _)); [by eexists _, _|].
  destruct (service_account env _) as [[]|e]; [|by eexists _, _].
  unfold reserve_hostname, bind, on_drive, ret.
  destruct (Sheets.reserve_name _ _ _ _ _ _ _) as [d1 [[[seq hostname] sheet_range]|e]];
    [|by eexists _, _].
  unfold on_stdin. cbn [stdin fs drive trace].
  destruct (_prompt_password true _) as [i1 [local_admin_password|e]]; [|by eexists _, _].
  cbn [stdin fs drive trace]. unfold input.
  destruct i1 as [|domain_username i2]; [by eexists _, _|].
  cbn [stdin fs drive trace].
  destruct (_prompt_password false _) as [i3 [domain_password|e]]; [|by eexists _, _].
  unfold on_machine. cbn [stdin fs drive trace].
  destruct (Windows.rename_computer _ _ _) as [t1 [[]|e]]; [|by eexists _, _].
  cbn [stdin fs drive trace].
  destruct (Windows.create_or_update_local_admin _ _ _ _) as [t2 [[]|e]]; [|by eexists _, _].
  cbn [stdin fs drive trace].
  destruct (Windows.configure_autologon _ _ _ _) as [t3 [[]|e]]; [|by eexists _, _].
  destruct (protect_string_raises (dll env) (PStr local_admin_password)) as [e ->].
  by eexists _, _.
Qed.

(** X24.  Once a subcommand is handed over, no run of [main] exits with
    status 0, and none writes or removes a file: [_initial_run] comes to
    [protect_string] before it saves the state, [_post_login] to
    [unprotect_string] before it changes anything, and both raise there
    at the latest, since the comparison of the result with [BOOL(True)]
    holds for every result. *)
Theorem main_never_succeeds (timestamp : pystr) (c : command) (w : world) :
  (main env timestamp c w).2 = 1%Z ∧ fs (main env timestamp c w).1 = fs w.
Proof.
  unfold main. destruct c as [args|args].
  - by destruct (initial_run_raises timestamp args w) as (w' & e & -> & Hfs).
  - by destruct (post_login_raises env timestamp args w) as (e & ->).
Qed.

(** X23.  In a session that is not elevated both subcommands raise
    [PermissionError] before they read or change anything, and [main]
    exits with status 1 for either of them. *)
Theorem not_elevated_no_effect (timestamp : pystr) (w : world) :
  Windows.is_elevated (sys env) = false →
  (∀ args, _initial_run env timestamp args w = (w, Raise PermissionError))
  ∧ (∀ args, _post_login env timestamp args w = (w, Raise PermissionError))
  ∧ (∀ c, main env timestamp c w = (w, 1%Z)).
Proof.
  intros Hel.
  assert (Hreq : Windows.require_elevated (sys env) = Raise PermissionError).
  { unfold Windows.require_elevated. by rewrite Hel. }
  assert (H1 : ∀ args, _initial_run env timestamp args w = (w, Raise PermissionError)).
  { intros args. unfold _initial_run, bind, lift. by rewrite Hreq. }
  assert (H2 : ∀ args, _post_login env timestamp args w = (w, Raise PermissionError)).
  { intros args. unfold _post_login, bind, lift. by rewrite Hreq. }
  split; [done|]. split; [done|].
  intros [args|args]; unfold main; by rewrite ?H1, ?H2.
Qed.

End RunFacts.

Section RunWitness.
Local Existing Instance ascii_runtime.
Import Cli.

Lemma not_elevated_no_effect_witness :
  main plain_environment (py "2025-01-01T00:00:00+00:00") (PostLogin sample_post_login)
    resumable_world
  = (resumable_world, 1%Z).
Proof.
  apply (not_elevated_no_effect plain_environment (py "2025-01-01T00:00:00+00:00")
           resumable_world eq_refl).
Defined.

Lemma remove_build_user_guard_witness :
  trace (remove_build_user willing_environment sample_state sample_world).1
  = [Windows.Run (Windows.powershell_argv
       (join (py "; ") (Windows.remove_local_user_commands (py "builder"))))].
Proof.
  apply (remove_build_user_guard willing_environment sample_state
           (py "builder") (py "WorkstationAdmin") sample_world eq_refl eq_refl).
Defined.

End RunWitness.

(** ** The registry, the state document and the order of the steps *)

Section RegistryOrder.
Context (sys : Windows.os).
Import Windows.

Lemma set_values_in_order (key_path : pystr) (values : list (pystr * pystr))
    (t : list event) :
  ∃ k, (set_values sys key_path values t).1
       = t ++ map (λ item, RegSetValue key_path item.1 item.2) (take k values)
       ∧ ((set_values sys key_path values t).2 = Ok tt → k = length values).
Proof.
  revert t. induction values as [|[name data] values IH]; intros t.
  - exists 0%nat. cbn. by rewrite app_nil_r.
  - cbn [set_values]. unfold then_.
    destruct (SetValueEx sys t key_path name data) as [[]|e].
    + destruct (IH (t ++ [RegSetValue key_path name data])) as (k & Htrace & Hk).
      exists (S k). rewrite Htrace. cbn [take map fst snd]. rewrite <- app_assoc.
      split; [done|]. intros Hok. cbn [length]. f_equal. by apply Hk.
    + exists 1%nat. cbn [fst snd take map]. rewrite take_0. split; [done|]. by intros [=].
Qed.

(** X27.  [_set_reg_values] writes the values in the order given and
    stops at the first write that fails: the writes requested are a
    prefix of the list, and all of it when the call returns. *)
Theorem set_reg_values_in_order (key_path : pystr) (values : list (pystr * pystr))
    (t : list event) :
  ∃ k, (_set_reg_values sys key_path values t).1
       = t ++ map (λ item, RegSetValue key_path item.1 item.2) (take k values)
       ∧ ((_set_reg_values sys key_path values t).2 = Ok tt → k = length values).
Proof.
  unfold _set_reg_values, then_.
  destruct (OpenKey sys t key_path) as [[]|e].
  - apply set_values_in_order.
  - exists 0%nat. cbn. rewrite app_nil_r. split; [done|]. by intros [=].
Qed.

(** X28.  A [configure_autologon] that returns has written, in this
    order, the two switches set to ["1"], the user name, the password as
    it was given, and the machine name, ["localhost"] where
    [COMPUTERNAME] is not set. *)
Theorem configure_autologon_requests (username password : pystr) (t : list event) :
  (configure_autologon sys username password t).2 = Ok tt →
  (configure_autologon sys username password t).1
  = t ++ [RegSetValue winlogon_key (py "AutoAdminLogon") (py "1");
          RegSetValue winlogon_key (py "ForceAutoLogon") (py "1");
          RegSetValue winlogon_key (py "DefaultUserName") username;
          RegSetValue winlogon_key (py "DefaultPassword") password;
          RegSetValue winlogon_key (py "DefaultDomainName")
            (default (py "localhost") (COMPUTERNAME sys))].
Proof.
  unfold configure_autologon, _set_reg_values, then_.
  destruct (OpenKey sys t winlogon_key) as [[]|e]; cbv beta iota; [|by intros [=]].
  intros Hok.
  destruct (set_values_in_order winlogon_key
              [(py "AutoAdminLogon", py "1"); (py "ForceAutoLogon", py "1");
               (py "DefaultUserName", username); (py "DefaultPassword", password);
               (py "DefaultDomainName",
                match COMPUTERNAME sys with Some n => n | None => py "localhost" end)] t)
    as (k & Htrace & Hk).
  rewrite Htrace. rewrite (Hk Hok). cbn [length take map fst snd].
  by destruct (COMPUTERNAME sys).
Qed.

End RegistryOrder.

Section RegistryWitness.
Import Windows.

Lemma configure_autologon_requests_witness :
  (configure_autologon bare_registry_os (py "WorkstationAdmin") (py "S3cret") []).1
  = [RegSetValue winlogon_key (py "AutoAdminLogon") (py "1");
     RegSetValue winlogon_key (py "ForceAutoLogon") (py "1");
     RegSetValue winlogon_key (py "DefaultUserName") (py "WorkstationAdmin");
     RegSetValue winlogon_key (py "DefaultPassword") (py "S3cret");
     RegSetValue winlogon_key (py "DefaultDomainName") (py "localhost")].
Proof.
  apply (configure_autologon_requests bare_registry_os (py "WorkstationAdmin")
           (py "S3cret") [] eq_refl).
Defined.

End RegistryWitness.

Section StateErrors.
Import State.

(** X29.  The errors of [from_json]: [AttributeError] for a document that
    is no [dict]; [KeyError] for one of the eight keys read from the
    document and missing there; [TypeError] for ["secrets"] that are
    truthy and no [dict]; [KeyError] for one of the three keys of the
    secrets, missing there. *)
Theorem from_json_errors (data : pyval) (e : exn) :
  from_json data = Raise e →
  (e = AttributeError ∧ ∀ d, data ≠ PDict d)
  ∨ (∃ d k, data = PDict d ∧ e = KeyError k ∧ k ∈ state_keys ∧ dict_lookup d k = None)
  ∨ (∃ d sec, data = PDict d ∧ dict_lookup d (py "secrets") = Some sec
              ∧ truthy sec = true ∧ (∀ s, sec ≠ PDict s) ∧ e = TypeError)
  ∨ (∃ d k, data = PDict d ∧ e = KeyError k ∧ k ∈ secret_keys
            ∧ ∀ s, dict_lookup d (py "secrets") = Some (PDict s) → dict_lookup s k = None).
Proof.
  destruct data as [| | | | | |d]; try (intros [= <-]; left; by split).
  intros Hraise. right. revert Hraise.
  unfold from_json. cbn [get rbind].
  set (sec := match dict_lookup d (py "secrets") with Some x => x | None => PNone end).
  replace (match dict_lookup d (py "secrets") with Some x => Ok x | None => Ok PNone end)
    with (Ok sec) by (subst sec; by destruct (dict_lookup d (py "secrets"))).
  cbn [rbind].
  replace (match dict_lookup d (py "version") with Some x => Ok x | None => Ok (PInt 1) end)
    with (Ok (default (PInt 1) (dict_lookup d (py "version"))))
    by (by destruct (dict_lookup d (py "version"))).
  cbn [rbind].
  repeat (match goal with
          | |- context [rbind (getitem (PDict d) ?k) _] =>
              let Hk := fresh "Hk" in
              destruct (getitem (PDict d) k) as [?|e'] eqn:Hk; cbn [rbind];
              [ | intros [= <-]; left; exists d, k; cbn [getitem] in Hk;
                  destruct (dict_lookup d k) eqn:Hl; [discriminate Hk|];
                  injection Hk as <-;
                  split; [done|]; split; [done|]; split; [|done];
                  apply (bool_decide_unpack _); by vm_compute ]
          end).
  intros Hraise. right.
  assert (Hsec : (∃ s, sec = PDict s ∧ dict_lookup d (py "secrets") = Some (PDict s)
                       ∧ truthy sec = true)
                 ∨ truthy sec = false
                 ∨ (truthy sec = true ∧ (∀ s, sec ≠ PDict s)
                    ∧ dict_lookup d (py "secrets") = Some sec)).
  { subst sec. destruct (dict_lookup d (py "secrets")) as [x|]; [|by right; left].
    destruct (truthy x) eqn:Hx; [|by right; left].
    destruct x as [| | | | | |s]; try (right; right; by repeat split).
    left. by exists s. }
  destruct Hsec as [(s & Hs & Hd & Htr)|[Hfalse|(Htr & Hnd & Hd)]].
  - right. revert Hraise. rewrite Htr, Hs. cbv iota.
    repeat (match goal with
            | |- context [rbind (getitem (PDict s) ?k) _] =>
                let Hk := fresh "Hk" in
                destruct (getitem (PDict s) k) as [?|e'] eqn:Hk; cbn [rbind];
                [ | intros [= <-]; exists d, k; cbn [getitem] in Hk;
                    destruct (dict_lookup s k) eqn:Hl; [discriminate Hk|];
                    injection Hk as <-;
                    split; [done|]; split; [done|]; split;
                    [ apply (bool_decide_unpack _); by vm_compute
                    | intros s' Hs'; rewrite Hd in Hs'; by injection Hs' as <- ] ]
            end).
    by intros [=].
  - right. revert Hraise. rewrite Hfalse. cbv iota.
    cbn [getitem dict_lookup rbind].
    intros [= <-]. exists d, (py "local_admin_password").
    split; [done|]. split; [done|]. split; [apply (bool_decide_unpack _); by vm_compute|].
    intros s Hs. subst sec. rewrite Hs in Hfalse. cbn in Hfalse.
    by destruct s.
  - left. exists d, sec. revert Hraise. rewrite Htr. cbv iota. intros Hraise.
    assert (He : e = TypeError).
    { destruct sec as [| | | | | |s]; try (cbn in Hraise; by injection Hraise as <-).
      by destruct (Hnd s). }
    by repeat split.
Qed.

End StateErrors.

Section StateErrorsWitness.
Import State.

Lemma from_json_errors_witness :
  ∃ d k, PDict [(py "domain", PStr (py "corp"))] = PDict d
         ∧ KeyError (py "assigned_user") = KeyError k ∧ k ∈ state_keys
         ∧ dict_lookup d k = None.
Proof.
  destruct (from_json_errors (PDict [(py "domain", PStr (py "corp"))])
              (KeyError (py "assigned_user")) eq_refl)
    as [[Habs _]|[Hkey|[(d & sec & _ & _ & _ & _ & Habs)|(d & k & _ & Hk & Hin & _)]]].
  - discriminate Habs.
  - exact Hkey.
  - discriminate Habs.
  - exfalso. injection Hk as <-. apply (bool_decide_unpack _) in Hin || idtac.
    repeat (apply elem_of_cons in Hin as [Hin|Hin]; [discriminate Hin|]).
    by apply elem_of_nil in Hin.
Defined.

End StateErrorsWitness.

Section PostLoginOrder.
Context `{Runtime} (env : Cli.environment).
Import Cli.

(** The steps of [_post_login] on the machine leave the files, the
    spreadsheets and the console as they are. *)
Lemma on_machine_frame {A} (f : Windows.action A) (w : world) :
  fs (on_machine f w).1 = fs w ∧ drive (on_machine f w).1 = drive w
  ∧ stdin (on_machine f w).1 = stdin w.
Proof. unfold on_machine. by destruct (f (trace w)). Qed.

Lemma remove_build_user_frame (state : State.SetupState) (w : world) :
  fs (remove_build_user env state w).1 = fs w
  ∧ drive (remove_build_user env state w).1 = drive w
  ∧ stdin (remove_build_user env state w).1 = stdin w.
Proof.
  unfold remove_build_user, bind, lift, ret.
  destruct (as_str (State.initial_user state)); [|done].
  destruct (as_str (State.local_admin_user state)); [|done].
  destruct (negb _); [apply on_machine_frame | done].
Qed.

(** X25.  The end of [_post_login]: the spreadsheets are changed by
    [update_status] alone and the files by [clear_state] alone; the
    state file is only cleared once [update_status] has returned, and a
    run that returns has got through both. *)
Theorem post_login_cleanup_order (timestamp : pystr) (args : post_login_args)
    (state_path : path) (state : State.SetupState) (domain_config : Config.DomainConfig)
    (domain_password : pystr) (w : world) :
  (drive (finish_post_login env timestamp args state_path state domain_config
            domain_password w).1 = drive w
   ∨ drive (finish_post_login env timestamp args state_path state domain_config
              domain_password w).1
     = (Sheets.update_status timestamp (State.sheet_id state) (State.worksheet state)
          (State.sheet_range state) (py "Joined") (py "Provisioned via computer-setup")
          (drive w)).1)
  ∧ (fs (finish_post_login env timestamp args state_path state domain_config
           domain_password w).1 = fs w
     ∨ fs (finish_post_login env timestamp args state_path state domain_config
             domain_password w).1 = (State.clear_state state_path (fs w)).1)
  ∧ (fs (finish_post_login env timestamp args state_path state domain_config
           domain_password w).1 ≠ fs w →
     (Sheets.update_status timestamp (State.sheet_id state) (State.worksheet state)
        (State.sheet_range state) (py "Joined") (py "Provisioned via computer-setup")
        (drive w)).2 = Ok tt)
  ∧ ((finish_post_login env timestamp args state_path state domain_config
        domain_password w).2 = Ok tt →
     (Sheets.update_status timestamp (State.sheet_id state) (State.worksheet state)
        (State.sheet_range state) (py "Joined") (py "Provisioned via computer-setup")
        (drive w)).2 = Ok tt
     ∧ (State.clear_state state_path (fs w)).2 = Ok tt).
Proof.
  remember (finish_post_login env timestamp args state_path state domain_config
              domain_password w) as run eqn:Hrun.
  unfold finish_post_login in Hrun. unfold bind at 1 in Hrun.
  pose proof (on_machine_frame (Windows.clear_autologon (sys env)) w) as (Hf1 & Hd1 & _).
  destruct (on_machine (Windows.clear_autologon (sys env)) w) as [w1 [[]|e]];
    cbn [fst snd] in *; [|subst run; cbn [fst snd]; by repeat split; try left].
  unfold bind at 1 in Hrun.
  pose proof (remove_build_user_frame state w1) as (Hf2 & Hd2 & _).
  destruct (remove_build_user env state w1) as [w2 [[]|e]];
    cbn [fst snd] in *;
    [|subst run; cbn [fst snd]; rewrite Hf2, Hf1, Hd2, Hd1; by repeat split; try left].
  unfold bind at 1 in Hrun.
  match type of Hrun with
  | context [on_machine ?f w2] =>
      pose proof (on_machine_frame f w2) as (Hf3 & Hd3 & _);
      destruct (on_machine f w2) as [w3 [[]|e]]
  end; cbn [fst snd] in *;
    [|subst run; cbn [fst snd]; rewrite Hf3, Hf2, Hf1, Hd3, Hd2, Hd1;
      by repeat split; try left].
  assert (Hfs : fs w3 = fs w) by congruence.
  assert (Hdr : drive w3 = drive w) by congruence.
  unfold bind at 1 in Hrun. unfold on_drive at 1 in Hrun. rewrite Hdr in Hrun.
  destruct (Sheets.update_status _ _ _ _ _ _ (drive w)) as [d4 [[]|e]]; cbn [fst snd] in *.
  2:{ subst run. cbn [fst snd fs drive]. rewrite Hfs.
      split; [by right|]. split; [by left|]. split; [done|]. by intros [=]. }
  unfold bind at 1 in Hrun. unfold on_fs at 1 in Hrun.
  cbn [fs drive trace stdin] in Hrun. rewrite Hfs in Hrun.
  destruct (State.clear_state state_path (fs w)) as [fs5 [[]|e]]; cbn [fst snd] in *.
  2:{ subst run. cbn [fst snd fs drive].
      split; [by right|]. split; [by right|]. split; [done|]. by intros [=]. }
  destruct (negb (pl_no_restart args)).
  - match type of Hrun with
    | context [on_machine ?f ?w5] =>
        pose proof (on_machine_frame f w5) as (Hf6 & Hd6 & _);
        destruct (on_machine f w5) as [w6 r6]
    end. subst run. cbn [fst snd fs drive] in *. rewrite Hf6, Hd6.
    split; [by right|]. split; [by right|]. done.
  - subst run. unfold ret. cbn [fst snd fs drive].
    split; [by right|]. split; [by right|]. done.
Qed.

(** X26.  [_initial_run] touches the spreadsheets only after every check
    before the reservation has passed: the session is elevated, the
    configuration exists and loads, the domain is configured, a
    credentials path is known, its file exists and the service account
    is accepted. *)
Theorem initial_run_checks_first (timestamp : pystr) (args : initial_run_args) (w : world) :
  drive (_initial_run env timestamp args w).1 ≠ drive w →
  ∃ config domain_config credentials,
    Windows.is_elevated (sys env) = true
    ∧ exists_ (fs w) (resolve env (ir_config args)) = true
    ∧ Config.load_config (fs w) (resolve env (ir_config args)) = Ok config
    ∧ Config.get_domain config (PStr (ir_domain args)) = Ok domain_config
    ∧ _resolve_credentials_path env (ir_google_credentials args) config = Ok credentials
    ∧ exists_ (fs w) credentials = true
    ∧ service_account env credentials = Ok tt.
Proof.
  unfold _initial_run, bind, lift, Windows.require_elevated.
  destruct (Windows.is_elevated (sys env)); cbn [negb]; [|done].
  unfold _resolve_config.
  destruct (exists_ (fs w) (resolve env (ir_config args))); cbn [negb]; [|done].
  destruct (Config.load_config _ _) as [config|e]; [|done].
  destruct (Config.get_domain _ _) as [domain_config|e] eqn:Hdomain; [|done].
  destruct (_resolve_credentials_path _ _ _) as [credentials|e] eqn:Hpath; [|done].
  unfold SheetsClient.
  destruct (exists_ (fs w) credentials) eqn:Hthere; cbn [negb]; [|done].
  destruct (service_account env credentials) as [[]|e] eqn:Haccount; [|done].
  intros _. by exists config, domain_config, credentials.
Qed.

End PostLoginOrder.

Section OrderWitness.
Local Existing Instance ascii_runtime.
Import Cli.

Lemma initial_run_checks_first_witness :
  ∃ config domain_config credentials,
    Windows.is_elevated (sys willing_environment) = true
    ∧ exists_ (fs configured_world) (resolve willing_environment (ir_config sample_initial_run))
      = true
    ∧ Config.load_config (fs configured_world)
        (resolve willing_environment (ir_config sample_initial_run)) = Ok config
    ∧ Config.get_domain config (PStr (ir_domain sample_initial_run)) = Ok domain_config
    ∧ _resolve_credentials_path willing_environment
        (ir_google_credentials sample_initial_run) config = Ok credentials
    ∧ exists_ (fs configured_world) credentials = true
    ∧ service_account willing_environment credentials = Ok tt.
Proof.
  apply (initial_run_checks_first willing_environment (py "2025-01-01T00:00:00+00:00")
           sample_initial_run configured_world).
  intros Heq.
  apply (f_equal (λ d, Sheets.values <$> d !! (py "X", py "Devices"))) in Heq.
  vm_compute in Heq. discriminate Heq.
Defined.

End OrderWitness.
